(** * The Python 3.12 language module

    A shallow embedding of [src/module.cpp].  The marshaling core: the
    per-type value converters ([ValueFromObject], [CreatePyObject]), the
    inbound dispatcher ([InternalCall]), the outbound dispatcher
    ([ExternalCall]) with its call-scoped [ArgsScope], and the function
    identity cache ([GetOrCreateFunctionObject], [GetOrCreateFunctionValue]).
    The plugin life cycle around it: the checks and the method export of
    [OnPluginLoad] ([GenerateMethodExport], [ReplaceAll]), the modules made
    for plugins ([CreateInternalModule], [CreateExternalModule],
    [OnMethodExport]) and the life-cycle hooks
    ([TryCallPluginMethodNoArgs]).

    The embedding threads one explicit [World] through every operation: the
    locale of the process, the interpreter's error indicator, what
    [PyErr_Print] wrote, the two cache maps, the native heap and the log of
    native calls.  A computation either returns normally with a new world
    or stops with a [Fault] ([std::terminate], the exit of the process, or
    a dereference the C++ standard leaves undefined).  The members of the
    module that only the life cycle touches are passed along explicitly as
    [Members]. *)

From Stdlib Require Import ZArith NArith List String Ascii Bool Lia.
From stdpp Require Import base option list gmap strings pretty.

Set Warnings "-register-all".
Local Open Scope string_scope.
Local Open Scope list_scope.

(** ** Build targets *)

(** [PY3LM_PLATFORM_WINDOWS], [PY3LM_PLATFORM_LINUX], [PY3LM_PLATFORM_APPLE]. *)
Inductive Platform : Type := Windows | Linux | Apple.

(** ** The value type system ([plugify::ValueType], [Property], [Method]) *)

Module ValueType.
(** Modelled from the spec: the enumeration is declared in a header of the
    plugin host; the tag set is the closed set of section 3 of the design,
    in the order the switch statements of the module list it. *)
Inductive t : Type :=
| Void | Bool | Char8 | Char16
| Int8 | Int16 | Int32 | Int64
| UInt8 | UInt16 | UInt32 | UInt64
| Pointer | Float | Double | Function | String
| ArrayBool | ArrayChar8 | ArrayChar16
| ArrayInt8 | ArrayInt16 | ArrayInt32 | ArrayInt64
| ArrayUInt8 | ArrayUInt16 | ArrayUInt32 | ArrayUInt64
| ArrayPointer | ArrayFloat | ArrayDouble | ArrayString
| Vector2 | Vector3 | Vector4 | Matrix4x4.

Definition eqb (a b : t) : bool :=
  match a, b with
  | Void, Void | Bool, Bool | Char8, Char8 | Char16, Char16
  | Int8, Int8 | Int16, Int16 | Int32, Int32 | Int64, Int64
  | UInt8, UInt8 | UInt16, UInt16 | UInt32, UInt32 | UInt64, UInt64
  | Pointer, Pointer | Float, Float | Double, Double
  | Function, Function | String, String
  | ArrayBool, ArrayBool | ArrayChar8, ArrayChar8 | ArrayChar16, ArrayChar16
  | ArrayInt8, ArrayInt8 | ArrayInt16, ArrayInt16 | ArrayInt32, ArrayInt32
  | ArrayInt64, ArrayInt64 | ArrayUInt8, ArrayUInt8
  | ArrayUInt16, ArrayUInt16 | ArrayUInt32, ArrayUInt32
  | ArrayUInt64, ArrayUInt64 | ArrayPointer, ArrayPointer
  | ArrayFloat, ArrayFloat | ArrayDouble, ArrayDouble
  | ArrayString, ArrayString
  | Vector2, Vector2 | Vector3, Vector3 | Vector4, Vector4
  | Matrix4x4, Matrix4x4 => true
  | _, _ => false
  end.
End ValueType.

Inductive Property : Type :=
  mkProperty (type : ValueType.t) (ref : bool) (prototype : option Method)
with Method : Type :=
  mkMethod (name funcName : string) (paramTypes : list Property)
           (retType : Property).

Definition type (p : Property) : ValueType.t :=
  match p with mkProperty t _ _ => t end.
Definition ref (p : Property) : bool :=
  match p with mkProperty _ r _ => r end.
Definition prototype (p : Property) : option Method :=
  match p with mkProperty _ _ m => m end.
Definition name (m : Method) : string :=
  match m with mkMethod n _ _ _ => n end.
Definition funcName (m : Method) : string :=
  match m with mkMethod _ f _ _ => f end.
Definition paramTypes (m : Method) : list Property :=
  match m with mkMethod _ _ ps _ => ps end.
Definition retType (m : Method) : Property :=
  match m with mkMethod _ _ _ r => r end.

Module ValueUtils.
(** Modelled from the spec: [ValueUtils::IsObject] lives in the host's
    header.  Object types are the ones returned through a caller-supplied
    hidden first argument whatever the platform: [String] and the array
    types, the ones [BeginExternalCall] allocates a temporary for. *)
Definition IsObject (t : ValueType.t) : bool :=
  match t with
  | ValueType.String
  | ValueType.ArrayBool | ValueType.ArrayChar8 | ValueType.ArrayChar16
  | ValueType.ArrayInt8 | ValueType.ArrayInt16 | ValueType.ArrayInt32
  | ValueType.ArrayInt64 | ValueType.ArrayUInt8 | ValueType.ArrayUInt16
  | ValueType.ArrayUInt32 | ValueType.ArrayUInt64 | ValueType.ArrayPointer
  | ValueType.ArrayFloat | ValueType.ArrayDouble | ValueType.ArrayString =>
      true
  | _ => false
  end.

(** Modelled from the spec: [ValueUtils::IsHiddenParam] lives in the host's
    header.  A hidden return slot is needed for object types and for the
    aggregates the platform does not return in registers: [Matrix4x4]
    everywhere, [Vector3] and [Vector4] on Windows (the cases in which
    [SetReturn] reads the return target from argument slot 0). *)
Definition IsHiddenParam (plat : Platform) (t : ValueType.t) : bool :=
  IsObject t ||
  match t, plat with
  | ValueType.Matrix4x4, _ => true
  | ValueType.Vector3, Windows | ValueType.Vector4, Windows => true
  | _, _ => false
  end.
End ValueUtils.

(** ** Native data *)

(** [float] and [double] values are kept symbolic: a value is either given
    by its IEEE bit pattern or is the image of a conversion
    ([static_cast<float>], [static_cast<double>]) that the model does not
    interpret. *)
Inductive float : Type :=
| FloatBits (bits : Z)
| FloatOfDouble (d : double)
with double : Type :=
| DoubleBits (bits : Z)
| DoubleOfFloat (f : float).

(** The C and C++ types that occur as template arguments of the converters,
    as pointees of the casts, and as result types of the CPython integer
    extractors. *)
Inductive CType : Type :=
| c_bool | c_char | c_char16_t
| c_int8_t | c_int16_t | c_int32_t | c_int64_t
| c_uint8_t | c_uint16_t | c_uint32_t | c_uint64_t
| c_short | c_int | c_long | c_ulong | c_longlong | c_ulonglong
| c_void_ptr | c_uintptr_t
| c_float | c_double | c_string
| c_Vector2 | c_Vector3 | c_Vector4 | c_Matrix4x4.

Definition CType_eqb (a b : CType) : bool :=
  match a, b with
  | c_bool, c_bool | c_char, c_char | c_char16_t, c_char16_t
  | c_int8_t, c_int8_t | c_int16_t, c_int16_t | c_int32_t, c_int32_t
  | c_int64_t, c_int64_t | c_uint8_t, c_uint8_t | c_uint16_t, c_uint16_t
  | c_uint32_t, c_uint32_t | c_uint64_t, c_uint64_t
  | c_short, c_short | c_int, c_int
  | c_long, c_long | c_ulong, c_ulong | c_longlong, c_longlong
  | c_ulonglong, c_ulonglong | c_void_ptr, c_void_ptr
  | c_uintptr_t, c_uintptr_t | c_float, c_float | c_double, c_double
  | c_string, c_string | c_Vector2, c_Vector2 | c_Vector3, c_Vector3
  | c_Vector4, c_Vector4 | c_Matrix4x4, c_Matrix4x4 => true
  | _, _ => false
  end.

(** A C++ object type: [T] itself or [std::vector<T>]. *)
Inductive CppType : Type :=
| Scalar (c : CType)
| VectorOf (c : CType).

Definition CppType_eqb (a b : CppType) : bool :=
  match a, b with
  | Scalar x, Scalar y | VectorOf x, VectorOf y => CType_eqb x y
  | _, _ => false
  end.

(** A native value together with the C++ type it has in memory.  Integers
    of every width are [VInt] with their type; bytes of a [std::string] and
    UTF-16 code units are numbers. *)
Inductive NativeValue : Type :=
| VBool (b : bool)
| VInt (c : CType) (z : Z)
| VPtr (p : N)
| VFloat (f : float)
| VDouble (d : double)
| VString (bytes : list Z)
| VVector (elem : CType) (items : list NativeValue)
| VVector2 (x y : float)
| VVector3 (x y z : float)
| VVector4 (x y z w : float)
| VMatrix4x4 (data : list float).

Definition cpp_type_of (v : NativeValue) : CppType :=
  match v with
  | VBool _ => Scalar c_bool
  | VInt c _ => Scalar c
  | VPtr _ => Scalar c_void_ptr
  | VFloat _ => Scalar c_float
  | VDouble _ => Scalar c_double
  | VString _ => Scalar c_string
  | VVector c _ => VectorOf c
  | VVector2 _ _ => Scalar c_Vector2
  | VVector3 _ _ _ => Scalar c_Vector3
  | VVector4 _ _ _ _ => Scalar c_Vector4
  | VMatrix4x4 _ => Scalar c_Matrix4x4
  end.

(** *** Fixed-width integers *)

Record IntKind : Type := { signed : bool; bits : Z }.

Definition long_bits (plat : Platform) : Z :=
  match plat with Windows => 32%Z | Linux | Apple => 64%Z end.

Definition int_kind (plat : Platform) (c : CType) : IntKind :=
  match c with
  | c_int8_t => {| signed := true; bits := 8 |}
  | c_int16_t | c_short => {| signed := true; bits := 16 |}
  | c_int32_t | c_int => {| signed := true; bits := 32 |}
  | c_int64_t | c_longlong => {| signed := true; bits := 64 |}
  | c_long => {| signed := true; bits := long_bits plat |}
  | c_uint8_t => {| signed := false; bits := 8 |}
  | c_uint16_t | c_char16_t => {| signed := false; bits := 16 |}
  | c_uint32_t => {| signed := false; bits := 32 |}
  | c_ulong => {| signed := false; bits := long_bits plat |}
  | c_char => {| signed := true; bits := 8 |}
  | _ => {| signed := false; bits := 64 |}
  end.

(** [std::numeric_limits<T>::min()] and [max()]. *)
Definition int_min (k : IntKind) : Z :=
  if signed k then (- 2 ^ (bits k - 1))%Z else 0%Z.
Definition int_max (k : IntKind) : Z :=
  if signed k then (2 ^ (bits k - 1) - 1)%Z else (2 ^ bits k - 1)%Z.

(** [static_cast<T>(z)]: reduction modulo [2^bits], read back in the
    signedness of [T]. *)
Definition static_cast (k : IntKind) (z : Z) : Z :=
  let m := (z mod 2 ^ bits k)%Z in
  if signed k && (2 ^ (bits k - 1) <=? m)%Z then (m - 2 ^ bits k)%Z else m.

(** [uint8_t] arithmetic on counters and indices. *)
Definition uint8 (n : nat) : nat := n mod 256.

(** ** Script values *)

Inductive PyClass : Type :=
| Vector2Type | Vector3Type | Vector4Type | Matrix4x4Type
| OtherClass (id : N).

Definition PyClass_eqb (a b : PyClass) : bool :=
  match a, b with
  | Vector2Type, Vector2Type | Vector3Type, Vector3Type
  | Vector4Type, Vector4Type | Matrix4x4Type, Matrix4x4Type => true
  | OtherClass x, OtherClass y => (x =? y)%N
  | _, _ => false
  end.

(** Script objects by value.  A string is its sequence of code points
    (lone surrogates included, as the script runtime allows them).  Function
    objects carry their identity, the address of the object: [PyFunction] is
    a function defined in script code, [PyCFunction] a built-in function
    object as made by [PyCFunction_New], [PyMethod] a method object as made
    by [PyMethod_New], a function bound to an instance.  [PyFloatSubclass]
    is an instance of a script class derived from [float], with the float
    value it holds: [PyFloat_Check] accepts it, [PyFloat_CheckExact] does
    not. *)
Inductive PyObject : Type :=
| PyNone
| PyBool (b : bool)
| PyLong (z : Z)
| PyFloat (d : double)
| PyFloatSubclass (d : double)
| PyUnicode (s : list Z)
| PyList (items : list PyObject)
| PyTuple (items : list PyObject)
| PyFunction (p : N)
| PyCFunction (p : N)
| PyMethod (p : N) (func self : PyObject)
| PyInstance (cls : PyClass) (attrs : list (string * PyObject)).

Inductive PyExc : Type :=
| PyExc_TypeError | PyExc_ValueError | PyExc_OverflowError
| PyExc_RuntimeError | PyExc_AttributeError
| PyExc_UnicodeEncodeError | PyExc_UnicodeDecodeError
| PyExc_Exception | PyExc_SystemExit.

(** A raised exception: its class and message ([PyErr_SetNone] leaves the
    message empty).  Messages of exceptions raised inside the interpreter
    are abbreviated. *)
Record PyErr : Type := { exc : PyExc; msg : string }.

(** ** The world *)

Inductive Fault : Type :=
| Terminate      (* std::terminate() *)
| ProcessExit    (* Py_Exit(): the interpreter ends the process *)
| NullDeref      (* read through a null pointer *)
| BadFrame.      (* a slot or cell is read as another type than it holds *)

(** One call made through the calling-convention emulation. *)
Record NativeCall : Type :=
  { call_addr : N; call_args : list NativeValue }.

(** One [delete reinterpret_cast<T*>(ptr)]: the pointer, the type named in
    the cast, and the type of the object that lives at the pointer. *)
Record FreeEvent : Type :=
  { free_ptr : N; free_as : CppType; free_actual : option CppType }.

(** The character encoding of the locale of the process ([LC_CTYPE]), which
    [std::mbrtoc16] and [std::c16rtomb] convert from and to.  The module
    never calls [setlocale] and starts the interpreter with an isolated
    configuration, so the locale is the one the host runs under.  Two
    encodings are told apart: that of the C locale, which is in force
    unless the host has chosen another one, and UTF-8. *)
Inductive Locale : Type := C_locale | UTF8_locale.

Record World : Type := {
  locale : Locale;                    (* LC_CTYPE of the process *)
  pyerr : option PyErr;               (* the interpreter's error indicator *)
  printed : list PyErr;               (* what PyErr_Print has reported *)
  _externalMap : gmap N PyObject;     (* native address -> script callable *)
  _internalMap : gmap N N;            (* script callable -> native address *)
  heap : gmap N NativeValue;          (* native objects reached by pointer *)
  next_addr : N;                      (* last address new / the JIT handed out *)
  ret : option NativeValue;           (* native return slot of the frame *)
  native_calls : list NativeCall;     (* calls issued by dcCall* *)
  frees : list FreeEvent              (* deletes done by ~ArgsScope *)
}.

Definition set_pyerr (e : option PyErr) (w : World) : World :=
  {| locale := locale w; pyerr := e; printed := printed w;
     _externalMap := _externalMap w;
     _internalMap := _internalMap w; heap := heap w;
     next_addr := next_addr w; ret := ret w;
     native_calls := native_calls w; frees := frees w |}.
Definition set_printed (l : list PyErr) (w : World) : World :=
  {| locale := locale w; pyerr := pyerr w; printed := l;
     _externalMap := _externalMap w;
     _internalMap := _internalMap w; heap := heap w;
     next_addr := next_addr w; ret := ret w;
     native_calls := native_calls w; frees := frees w |}.
Definition set_maps (e : gmap N PyObject) (i : gmap N N) (w : World) : World :=
  {| locale := locale w; pyerr := pyerr w; printed := printed w;
     _externalMap := e;
     _internalMap := i; heap := heap w;
     next_addr := next_addr w; ret := ret w;
     native_calls := native_calls w; frees := frees w |}.
Definition set_heap (h : gmap N NativeValue) (w : World) : World :=
  {| locale := locale w; pyerr := pyerr w; printed := printed w;
     _externalMap := _externalMap w;
     _internalMap := _internalMap w; heap := h;
     next_addr := next_addr w; ret := ret w;
     native_calls := native_calls w; frees := frees w |}.
Definition set_next_addr (n : N) (w : World) : World :=
  {| locale := locale w; pyerr := pyerr w; printed := printed w;
     _externalMap := _externalMap w;
     _internalMap := _internalMap w; heap := heap w;
     next_addr := n; ret := ret w;
     native_calls := native_calls w; frees := frees w |}.
Definition set_ret (r : option NativeValue) (w : World) : World :=
  {| locale := locale w; pyerr := pyerr w; printed := printed w;
     _externalMap := _externalMap w;
     _internalMap := _internalMap w; heap := heap w;
     next_addr := next_addr w; ret := r;
     native_calls := native_calls w; frees := frees w |}.
Definition set_native_calls (l : list NativeCall) (w : World) : World :=
  {| locale := locale w; pyerr := pyerr w; printed := printed w;
     _externalMap := _externalMap w;
     _internalMap := _internalMap w; heap := heap w;
     next_addr := next_addr w; ret := ret w;
     native_calls := l; frees := frees w |}.
Definition set_locale (l : Locale) (w : World) : World :=
  {| locale := l; pyerr := pyerr w; printed := printed w;
     _externalMap := _externalMap w;
     _internalMap := _internalMap w; heap := heap w;
     next_addr := next_addr w; ret := ret w;
     native_calls := native_calls w; frees := frees w |}.
Definition set_frees (l : list FreeEvent) (w : World) : World :=
  {| locale := locale w; pyerr := pyerr w; printed := printed w;
     _externalMap := _externalMap w;
     _internalMap := _internalMap w; heap := heap w;
     next_addr := next_addr w; ret := ret w;
     native_calls := native_calls w; frees := l |}.

(** What the surroundings of the module do: the build target, the behaviour
    of script callables, the trampoline generator and the native functions
    behind the addresses that are called. *)
Record Env : Type := {
  platform : Platform;
  (* PyObject_CallObject on a script callable: its result or what it raises *)
  py_call : PyObject -> list PyObject -> PyObject + PyErr;
  (* Function::GetJitFunc: can a trampoline be generated for the signature *)
  jit_supported : Method -> bool;
  (* Function::GetError: the generator's account of a refusal *)
  jit_error : Method -> string;
  (* the function at a native address: from the pushed arguments and the
     heap to its return value and the heap it leaves *)
  native_fn : N -> list NativeValue -> gmap N NativeValue ->
              NativeValue * gmap N NativeValue
}.

(** ** The monad of the module's code *)

Inductive Res (A : Type) : Type :=
| Ok (a : A) (w : World)
| Stop (f : Fault).
Arguments Ok {A} a w.
Arguments Stop {A} f.

Definition M (A : Type) : Type := World -> Res A.

Definition ret_M {A} (a : A) : M A := fun w => Ok a w.
Definition bind_M {A B} (m : M A) (k : A -> M B) : M B :=
  fun w => match m w with
           | Ok a w' => k a w'
           | Stop f => Stop f
           end.
Definition stop {A} (f : Fault) : M A := fun _ => Stop f.
Definition get_world : M World := fun w => Ok w w.
Definition get_locale : M Locale := fun w => Ok (locale w) w.
Definition modify (f : World -> World) : M unit := fun w => Ok tt (f w).

#[export] Instance M_ret : MRet M := @ret_M.
#[export] Instance M_bind : MBind M := fun A B k m => bind_M m k.

(** ** The CPython calls the module relies on *)

Definition PyErr_SetString (e : PyExc) (message : string) : M unit :=
  modify (set_pyerr (Some {| exc := e; msg := message |})).
Definition PyErr_SetNone (e : PyExc) : M unit :=
  modify (set_pyerr (Some {| exc := e; msg := "" |})).
Definition PyErr_Occurred : M bool :=
  fun w => Ok (match pyerr w with Some _ => true | None => false end) w.
(** [PyErr_Print] reports the pending exception and clears the indicator.
    When the exception is [SystemExit] it reports nothing and ends the
    process ([handle_system_exit]; the interpreter is not started in
    inspect mode). *)
Definition PyErr_Print : M unit :=
  fun w => match pyerr w with
           | Some e =>
               match exc e with
               | PyExc_SystemExit => Stop ProcessExit
               | _ => Ok tt (set_pyerr None (set_printed (printed w ++ [e]) w))
               end
           | None => Ok tt w
           end.

(** [bool] is a subclass of [int]: [PyLong_Check] accepts both. *)
Definition PyLong_Check (o : PyObject) : bool :=
  match o with PyLong _ | PyBool _ => true | _ => false end.
Definition PyBool_Check (o : PyObject) : bool :=
  match o with PyBool _ => true | _ => false end.
(** [PyFloat_Check] accepts instances of subclasses of [float];
    [PyFloat_CheckExact] is the test for a [float] itself. *)
Definition PyFloat_Check (o : PyObject) : bool :=
  match o with PyFloat _ | PyFloatSubclass _ => true | _ => false end.
Definition PyFloat_CheckExact (o : PyObject) : bool :=
  match o with PyFloat _ => true | _ => false end.
Definition PyUnicode_Check (o : PyObject) : bool :=
  match o with PyUnicode _ => true | _ => false end.
Definition PyList_Check (o : PyObject) : bool :=
  match o with PyList _ => true | _ => false end.
Definition PyTuple_Check (o : PyObject) : bool :=
  match o with PyTuple _ => true | _ => false end.
Definition PyFunction_Check (o : PyObject) : bool :=
  match o with PyFunction _ => true | _ => false end.

Definition PyUnicode_GetLength (o : PyObject) : Z :=
  match o with PyUnicode s => Z.of_nat (length s) | _ => (-1)%Z end.

Definition long_value (o : PyObject) : option Z :=
  match o with
  | PyLong z => Some z
  | PyBool b => Some (if b then 1 else 0)%Z
  | _ => None
  end.

(** [PyLong_AsLong], [PyLong_AsLongLong], [PyLong_AsUnsignedLong],
    [PyLong_AsUnsignedLongLong] at the C type [k]: the value when it fits,
    otherwise [-1] converted to the result type with [OverflowError] raised
    ([TypeError] on a non-integer). *)
Definition PyLong_As (k : IntKind) (o : PyObject) : M Z :=
  match long_value o with
  | Some z =>
      if (int_min k <=? z)%Z && (z <=? int_max k)%Z then ret_M z
      else PyErr_SetString PyExc_OverflowError
             "Python int out of range of the C type" ;;
           ret_M (static_cast k (-1))
  | None =>
      PyErr_SetString PyExc_TypeError "an integer is required" ;;
      ret_M (static_cast k (-1))
  end.

(** [PyLong_AsVoidPtr] on a 64-bit target: null with an exception raised
    when the integer does not fit. *)
Definition PyLong_AsVoidPtr (o : PyObject) : M N :=
  match long_value o with
  | Some z =>
      if (- 2 ^ 63 <=? z)%Z && (z <? 2 ^ 64)%Z
      then ret_M (Z.to_N (z mod 2 ^ 64))
      else PyErr_SetString PyExc_OverflowError
             "Python int out of range of the C type" ;;
           ret_M 0%N
  | None =>
      PyErr_SetString PyExc_TypeError "an integer is required" ;;
      ret_M 0%N
  end.

(** *** UTF-8 *)

Definition is_surrogate (cp : Z) : bool :=
  (55296 <=? cp)%Z && (cp <=? 57343)%Z.

Definition utf8_encode_cp (cp : Z) : option (list Z) :=
  if (cp <? 0)%Z then None
  else if (cp <? 128)%Z then Some [cp]
  else if (cp <? 2048)%Z then
    Some [192 + cp / 64; 128 + cp mod 64]%Z
  else if is_surrogate cp then None
  else if (cp <? 65536)%Z then
    Some [224 + cp / 4096; 128 + (cp / 64) mod 64; 128 + cp mod 64]%Z
  else if (cp <? 1114112)%Z then
    Some [240 + cp / 262144; 128 + (cp / 4096) mod 64;
          128 + (cp / 64) mod 64; 128 + cp mod 64]%Z
  else None.

Fixpoint utf8_encode (s : list Z) : option (list Z) :=
  match s with
  | [] => Some []
  | cp :: s' =>
      match utf8_encode_cp cp, utf8_encode s' with
      | Some b, Some bs => Some (b ++ bs)
      | _, _ => None
      end
  end.

Definition is_cont (b : Z) : bool := (128 <=? b)%Z && (b <=? 191)%Z.

(** The first UTF-8 sequence of a buffer: its code point and what follows;
    [None] when the buffer does not start with a well-formed sequence. *)
Definition utf8_decode_first (bs : list Z) : option (Z * list Z) :=
  match bs with
  | [] => None
  | b0 :: r =>
      if (0 <=? b0)%Z && (b0 <? 128)%Z then Some (b0, r)
      else if (194 <=? b0)%Z && (b0 <=? 223)%Z then
        match r with
        | b1 :: r1 =>
            if is_cont b1 then Some ((b0 - 192) * 64 + (b1 - 128), r1)%Z
            else None
        | _ => None
        end
      else if (224 <=? b0)%Z && (b0 <=? 239)%Z then
        match r with
        | b1 :: b2 :: r2 =>
            let cp := ((b0 - 224) * 4096 + (b1 - 128) * 64 + (b2 - 128))%Z in
            if is_cont b1 && is_cont b2 && (2048 <=? cp)%Z
               && negb (is_surrogate cp)
            then Some (cp, r2) else None
        | _ => None
        end
      else if (240 <=? b0)%Z && (b0 <=? 244)%Z then
        match r with
        | b1 :: b2 :: b3 :: r3 =>
            let cp := ((b0 - 240) * 262144 + (b1 - 128) * 4096
                       + (b2 - 128) * 64 + (b3 - 128))%Z in
            if is_cont b1 && is_cont b2 && is_cont b3
               && (65536 <=? cp)%Z && (cp <? 1114112)%Z
            then Some (cp, r3) else None
        | _ => None
        end
      else None
  end.

Fixpoint utf8_decode_fuel (fuel : nat) (bs : list Z) : option (list Z) :=
  match bs with
  | [] => Some []
  | _ =>
      match fuel with
      | O => None
      | S fuel' =>
          match utf8_decode_first bs with
          | Some (cp, rest) =>
              match utf8_decode_fuel fuel' rest with
              | Some s => Some (cp :: s)
              | None => None
              end
          | None => None
          end
      end
  end.

(** Strict UTF-8 decoding; every sequence consumes a byte, so the length of
    the buffer is fuel enough. *)
Definition utf8_decode (bs : list Z) : option (list Z) :=
  utf8_decode_fuel (length bs) bs.

(** [PyUnicode_AsUTF8AndSize]: the UTF-8 buffer and its size; [NULL] with
    [UnicodeEncodeError] raised (and the size left as it was) when the
    string holds a lone surrogate. *)
Definition PyUnicode_AsUTF8AndSize (o : PyObject) : M (option (list Z)) :=
  match o with
  | PyUnicode s =>
      match utf8_encode s with
      | Some bs => ret_M (Some bs)
      | None =>
          PyErr_SetString PyExc_UnicodeEncodeError "surrogates not allowed" ;;
          ret_M None
      end
  | _ =>
      PyErr_SetString PyExc_TypeError "bad argument type for built-in operation" ;;
      ret_M None
  end.

Definition PyUnicode_AsUTF8 (o : PyObject) : M (option (list Z)) :=
  PyUnicode_AsUTF8AndSize o.

(** [PyUnicode_FromStringAndSize]: decodes UTF-8; [NULL] with
    [UnicodeDecodeError] raised on a malformed buffer. *)
Definition PyUnicode_FromStringAndSize (bs : list Z) : M (option PyObject) :=
  match utf8_decode bs with
  | Some s => ret_M (Some (PyUnicode s))
  | None =>
      PyErr_SetString PyExc_UnicodeDecodeError "invalid utf-8" ;;
      ret_M None
  end.

(** [std::mbrtoc16] from the initial state, on the first character of the
    buffer in the encoding of the locale: the number of bytes consumed and
    the code unit stored.  The result is [0] for the null character and for
    a null buffer, [-1] on a sequence the encoding does not have.  In a
    UTF-8 locale it is otherwise the length of the sequence (4 for a
    character outside the basic plane, whose high surrogate is stored); in
    the C locale every character is one byte below 128. *)
Definition mbrtoc16 (l : Locale) (buffer : option (list Z)) : Z * Z :=
  match buffer with
  | None => (0, 0)%Z
  | Some bs =>
      match l with
      | UTF8_locale =>
          match utf8_decode_first bs with
          | Some (cp, rest) =>
              if (cp =? 0)%Z then (0, 0)%Z
              else if (cp <? 65536)%Z
                   then (Z.of_nat (length bs - length rest), cp)
                   else (4, 55296 + (cp - 65536) / 1024)%Z
          | None => ((-1), 0)%Z
          end
      | C_locale =>
          match bs with
          | b0 :: _ =>
              if (b0 =? 0)%Z then (0, 0)%Z
              else if (0 <? b0)%Z && (b0 <? 128)%Z then (1, b0)%Z
              else ((-1), 0)%Z
          | [] => ((-1), 0)%Z
          end
      end
  end.

(** [std::c16rtomb] from the initial state: the bytes written in the
    encoding of the locale, or [-1] ([None]) for a code unit the encoding
    has no character for, as is a low surrogate that no high surrogate
    precedes and, in the C locale, every code unit from 128 on.  A high
    surrogate is kept in the state and writes nothing. *)
Definition c16rtomb (l : Locale) (value : Z) : option (list Z) :=
  if (55296 <=? value)%Z && (value <=? 56319)%Z then Some []
  else match l with
       | UTF8_locale => utf8_encode_cp value
       | C_locale =>
           if (0 <=? value)%Z && (value <? 128)%Z then Some [value] else None
       end.

(** [PyObject_GetAttrString]: [AttributeError] when the attribute is
    missing.  Only instances have attributes in this model. *)
Fixpoint assoc_lookup (key : string) (l : list (string * PyObject))
  : option PyObject :=
  match l with
  | [] => None
  | (k, v) :: l' => if String.eqb k key then Some v else assoc_lookup key l'
  end.

Definition PyObject_GetAttrString (o : PyObject) (attr_name : string)
  : M (option PyObject) :=
  match o with
  | PyInstance _ attrs =>
      match assoc_lookup attr_name attrs with
      | Some v => ret_M (Some v)
      | None =>
          PyErr_SetString PyExc_AttributeError attr_name ;; ret_M None
      end
  | _ => PyErr_SetString PyExc_AttributeError attr_name ;; ret_M None
  end.

(** [PyObject_IsInstance] against one of the geometry classes (instances of
    subclasses are not represented, and the check itself never raises). *)
Definition PyObject_IsInstance (o : PyObject) (cls : PyClass) : bool :=
  match o with
  | PyInstance c _ => PyClass_eqb c cls
  | _ => false
  end.

(** ** Script value to native value *)

(** [ValueFromObject<bool>] *)
Definition ValueFromObject_bool (object : PyObject) : M (option NativeValue) :=
  match object with
  | PyBool b => ret_M (Some (VBool b))
  | _ => PyErr_SetString PyExc_TypeError "Not boolean" ;; ret_M None
  end.

(** The tail shared by the two character converters: whatever was raised
    before, [TypeError "Not string"] is raised and nothing is returned. *)
Definition not_string : M (option NativeValue) :=
  PyErr_SetString PyExc_TypeError "Not string" ;; ret_M None.

(** [ValueFromObject<char>] *)
Definition ValueFromObject_char (object : PyObject) : M (option NativeValue) :=
  if PyUnicode_Check object then
    let length := PyUnicode_GetLength object in
    if (length =? 0)%Z then ret_M (Some (VInt c_char 0))
    else if (length =? 1)%Z then
      buffer ← PyUnicode_AsUTF8 object;
      match buffer with
      | None => stop NullDeref
      | Some bs =>
          let ch := static_cast {| signed := true; bits := 8 |} (nth 0 bs 0%Z) in
          if (Z.land ch 128 =? 0)%Z then ret_M (Some (VInt c_char ch))
          else
            (* Can't pass multibyte character *)
            PyErr_SetNone PyExc_ValueError ;; not_string
      end
    else PyErr_SetNone PyExc_ValueError ;; not_string
  else not_string.

(** [ValueFromObject<char16_t>] *)
Definition ValueFromObject_char16_t (object : PyObject)
  : M (option NativeValue) :=
  if PyUnicode_Check object then
    let length := PyUnicode_GetLength object in
    if (length =? 0)%Z then ret_M (Some (VInt c_char16_t 0))
    else if (length =? 1)%Z then
      buffer ← PyUnicode_AsUTF8AndSize object;
      l ← get_locale;
      let '(rc, ch) := mbrtoc16 l buffer in
      if (rc =? 1)%Z || (rc =? 2)%Z || (rc =? 3)%Z
      then ret_M (Some (VInt c_char16_t ch))
      else
        (* Can't pass surrogate pair *)
        PyErr_SetNone PyExc_ValueError ;; not_string
    else PyErr_SetNone PyExc_ValueError ;; not_string
  else not_string.

(** [ValueFromNumberObject<ValueType, CType, ConvertFunc>]: [vt] is the
    target type, [ct] the result type of the CPython extractor. *)
Definition ValueFromNumberObject (plat : Platform) (vt ct : CType)
    (object : PyObject) : M (option NativeValue) :=
  let kv := int_kind plat vt in
  let kc := int_kind plat ct in
  (if PyLong_Check object then
     castResult ← PyLong_As kc object;
     occurred ← PyErr_Occurred;
     if negb occurred then
       if (castResult <=? static_cast kc (int_max kv))%Z
          && (castResult >=? static_cast kc (int_min kv))%Z
       then ret_M (Some (Some (VInt vt (static_cast kv castResult))))
       else PyErr_SetNone PyExc_OverflowError ;; ret_M None
     else ret_M None
   else ret_M None) ≫= λ returned,
  match returned with
  | Some r => ret_M r
  | None => PyErr_SetString PyExc_TypeError "Not integer" ;; ret_M None
  end.

(** [ValueFromObject<void*>] *)
Definition ValueFromObject_void_ptr (object : PyObject)
  : M (option NativeValue) :=
  (if PyLong_Check object then
     result ← PyLong_AsVoidPtr object;
     occurred ← PyErr_Occurred;
     if negb occurred then ret_M (Some (Some (VPtr result)))
     else ret_M None
   else ret_M None) ≫= λ returned,
  match returned with
  | Some r => ret_M r
  | None => PyErr_SetString PyExc_TypeError "Not integer" ;; ret_M None
  end.

(** [ValueFromObject<float>]: [PyFloat_Check], then [PyFloat_AS_DOUBLE]. *)
Definition ValueFromObject_float (object : PyObject)
  : M (option NativeValue) :=
  match object with
  | PyFloat d | PyFloatSubclass d => ret_M (Some (VFloat (FloatOfDouble d)))
  | _ => PyErr_SetString PyExc_TypeError "Not float" ;; ret_M None
  end.

(** [ValueFromObject<double>]: [PyFloat_Check], then [PyFloat_AS_DOUBLE]. *)
Definition ValueFromObject_double (object : PyObject)
  : M (option NativeValue) :=
  match object with
  | PyFloat d | PyFloatSubclass d => ret_M (Some (VDouble d))
  | _ => PyErr_SetString PyExc_TypeError "Not float" ;; ret_M None
  end.

(** [ValueFromObject<std::string>]: the string is built from the range
    [buffer, buffer + size); when the encoding fails the buffer is null and
    the size still zero, so the range is empty and the exception stays
    pending. *)
Definition ValueFromObject_string (object : PyObject)
  : M (option NativeValue) :=
  if PyUnicode_Check object then
    buffer ← PyUnicode_AsUTF8AndSize object;
    ret_M (Some (VString (default [] buffer)))
  else PyErr_SetString PyExc_TypeError "Not string" ;; ret_M None.

(** [GetObjectAttrAsValue<float>] *)
Definition GetObjectAttrAsValue_float (object : PyObject) (attr_name : string)
  : M (option float) :=
  attrObject ← PyObject_GetAttrString object attr_name;
  match attrObject with
  | None => ret_M None
  | Some a =>
      value ← ValueFromObject_float a;
      ret_M (match value with Some (VFloat f) => Some f | _ => None end)
  end.

(** [Python3LanguageModule::Vector2ValueFromObject] *)
Definition Vector2ValueFromObject (object : PyObject)
  : M (option NativeValue) :=
  if negb (PyObject_IsInstance object Vector2Type) then
    PyErr_SetString PyExc_TypeError "Not Vector2" ;; ret_M None
  else
    xValue ← GetObjectAttrAsValue_float object "x";
    match xValue with
    | None => ret_M None
    | Some x =>
        yValue ← GetObjectAttrAsValue_float object "y";
        match yValue with
        | None => ret_M None
        | Some y => ret_M (Some (VVector2 x y))
        end
    end.

(** [Python3LanguageModule::Vector3ValueFromObject] *)
Definition Vector3ValueFromObject (object : PyObject)
  : M (option NativeValue) :=
  if negb (PyObject_IsInstance object Vector3Type) then
    PyErr_SetString PyExc_TypeError "Not Vector3" ;; ret_M None
  else
    xValue ← GetObjectAttrAsValue_float object "x";
    match xValue with
    | None => ret_M None
    | Some x =>
        yValue ← GetObjectAttrAsValue_float object "y";
        match yValue with
        | None => ret_M None
        | Some y =>
            zValue ← GetObjectAttrAsValue_float object "z";
            match zValue with
            | None => ret_M None
            | Some z => ret_M (Some (VVector3 x y z))
            end
        end
    end.

(** [Python3LanguageModule::Vector4ValueFromObject] *)
Definition Vector4ValueFromObject (object : PyObject)
  : M (option NativeValue) :=
  if negb (PyObject_IsInstance object Vector4Type) then
    PyErr_SetString PyExc_TypeError "Not Vector4" ;; ret_M None
  else
    xValue ← GetObjectAttrAsValue_float object "x";
    match xValue with
    | None => ret_M None
    | Some x =>
        yValue ← GetObjectAttrAsValue_float object "y";
        match yValue with
        | None => ret_M None
        | Some y =>
            zValue ← GetObjectAttrAsValue_float object "z";
            match zValue with
            | None => ret_M None
            | Some z =>
                wValue ← GetObjectAttrAsValue_float object "w";
                match wValue with
                | None => ret_M None
                | Some w => ret_M (Some (VVector4 x y z w))
                end
            end
        end
    end.

(** The inner loop of [Matrix4x4ValueFromObject]: the four entries of one
    row, each through [ValueFromObject<float>]. *)
Fixpoint matrix_row (entries : list PyObject) : M (option (list float)) :=
  match entries with
  | [] => ret_M (Some [])
  | mObject :: rest =>
      mValue ← ValueFromObject_float mObject;
      match mValue with
      | Some (VFloat f) =>
          more ← matrix_row rest;
          ret_M (match more with Some l => Some (f :: l) | None => None end)
      | _ => ret_M None
      end
  end.

(** The outer loop: every row must be a list of exactly four entries. *)
Fixpoint matrix_rows (rows : list PyObject) : M (option (list float)) :=
  match rows with
  | [] => ret_M (Some [])
  | PyList entries :: rest =>
      if negb (length entries =? 4)%nat then
        PyErr_SetString PyExc_ValueError "Elements must be a 4x4 list" ;;
        ret_M None
      else
        row ← matrix_row entries;
        match row with
        | None => ret_M None
        | Some r =>
            more ← matrix_rows rest;
            ret_M (match more with Some l => Some (r ++ l) | None => None end)
        end
  | _ :: _ =>
      PyErr_SetString PyExc_ValueError "Elements must be a 4x4 list" ;;
      ret_M None
  end.

(** [Python3LanguageModule::Matrix4x4ValueFromObject] *)
Definition Matrix4x4ValueFromObject (object : PyObject)
  : M (option NativeValue) :=
  if negb (PyObject_IsInstance object Matrix4x4Type) then
    PyErr_SetString PyExc_TypeError "Not Matrix4x4" ;; ret_M None
  else
    elementsListObject ← PyObject_GetAttrString object "elements";
    match elementsListObject with
    | None => ret_M None
    | Some (PyList rows) =>
        if negb (length rows =? 4)%nat then
          PyErr_SetString PyExc_ValueError "Elements must be a 4x4 list" ;;
          ret_M None
        else
          matrix ← matrix_rows rows;
          ret_M (match matrix with
                 | Some data => Some (VMatrix4x4 data)
                 | None => None
                 end)
    | Some _ =>
        PyErr_SetString PyExc_ValueError "Elements must be a 4x4 list" ;;
        ret_M None
    end.

(** [ValueFromObject<T>], by the template argument.  [uintptr_t] is the
    64-bit unsigned type, so [ValueFromObject<uintptr_t>] is the [uint64_t]
    specialisation.  The extractor result types have no specialisation (the
    primary template does not compile) and never occur as [T]. *)
Definition ValueFromObject (plat : Platform) (T : CType) (object : PyObject)
  : M (option NativeValue) :=
  match T with
  | c_bool => ValueFromObject_bool object
  | c_char => ValueFromObject_char object
  | c_char16_t => ValueFromObject_char16_t object
  | c_int8_t => ValueFromNumberObject plat c_int8_t c_long object
  | c_int16_t => ValueFromNumberObject plat c_int16_t c_long object
  | c_int32_t => ValueFromNumberObject plat c_int32_t c_long object
  | c_int64_t => ValueFromNumberObject plat c_int64_t c_longlong object
  | c_uint8_t => ValueFromNumberObject plat c_uint8_t c_ulong object
  | c_uint16_t => ValueFromNumberObject plat c_uint16_t c_ulong object
  | c_uint32_t => ValueFromNumberObject plat c_uint32_t c_ulong object
  | c_uint64_t => ValueFromNumberObject plat c_uint64_t c_ulonglong object
  | c_uintptr_t => ValueFromNumberObject plat c_uintptr_t c_ulonglong object
  | c_void_ptr => ValueFromObject_void_ptr object
  | c_float => ValueFromObject_float object
  | c_double => ValueFromObject_double object
  | c_string => ValueFromObject_string object
  | c_Vector2 => Vector2ValueFromObject object
  | c_Vector3 => Vector3ValueFromObject object
  | c_Vector4 => Vector4ValueFromObject object
  | c_Matrix4x4 => Matrix4x4ValueFromObject object
  | c_short | c_int | c_long | c_ulong | c_longlong | c_ulonglong =>
      stop BadFrame
  end.

(** The loop of [ArrayFromObject<T>]: the first element that does not
    convert ends the conversion with no array. *)
Fixpoint ArrayFromObject_loop (plat : Platform) (T : CType)
    (items : list PyObject) : M (option (list NativeValue)) :=
  match items with
  | [] => ret_M (Some [])
  | valueObject :: rest =>
      value ← ValueFromObject plat T valueObject;
      match value with
      | Some v =>
          more ← ArrayFromObject_loop plat T rest;
          ret_M (match more with Some l => Some (v :: l) | None => None end)
      | None => ret_M None
      end
  end.

(** [ArrayFromObject<T>] *)
Definition ArrayFromObject (plat : Platform) (T : CType)
    (arrayObject : PyObject) : M (option NativeValue) :=
  match arrayObject with
  | PyList items =>
      array ← ArrayFromObject_loop plat T items;
      ret_M (match array with
             | Some l => Some (VVector T l)
             | None => None
             end)
  | _ => PyErr_SetString PyExc_TypeError "Not list" ;; ret_M None
  end.

(** ** The function identity cache *)

(** The address of a function object, the key under which the cache files
    it.  Objects without identity in this model are never filed. *)
Definition object_address (o : PyObject) : N :=
  match o with
  | PyFunction p | PyCFunction p | PyMethod p _ _ => p
  | _ => 0%N
  end.

(** [std::unordered_map::emplace]: an existing key keeps its value. *)
Definition emplace {V} (k : N) (v : V) (m : gmap N V) : gmap N V :=
  match m !! k with
  | Some _ => m
  | None => <[k := v]> m
  end.

(** [Python3LanguageModule::FindExternal] *)
Definition FindExternal (funcAddr : N) : M (option PyObject) :=
  λ w, Ok (_externalMap w !! funcAddr) w.

(** [Python3LanguageModule::FindInternal]: the null address when the object
    is not in the map. *)
Definition FindInternal (object : PyObject) : M N :=
  λ w, Ok (default 0%N (_internalMap w !! object_address object)) w.

(** [Python3LanguageModule::AddToFunctionsMap] *)
Definition AddToFunctionsMap (funcAddr : N) (object : PyObject) : M unit :=
  modify (λ w, set_maps (emplace funcAddr object (_externalMap w))
                        (emplace (object_address object) funcAddr
                                 (_internalMap w)) w).

(** A fresh address, for an object made by [new], by the interpreter or by
    the trampoline generator: the one after the last address handed out,
    never null. *)
Definition fresh_address : M N :=
  λ w, Ok (N.succ (next_addr w)) (set_next_addr (N.succ (next_addr w)) w).

(** [Function::GetJitFunc]: the address of the generated trampoline, or
    null when the signature is not supported. *)
Definition GetJitFunc (env : Env) (method : Method) : M N :=
  if jit_supported env method then fresh_address else ret_M 0%N.

(** [Python3LanguageModule::GetOrCreateFunctionObject] *)
Definition GetOrCreateFunctionObject (env : Env) (method : Method)
    (funcAddr : N) : M (option PyObject) :=
  found ← FindExternal funcAddr;
  match found with
  | Some object => ret_M (Some object)
  | None =>
      methodAddr ← GetJitFunc env method;
      if (methodAddr =? 0)%N then
        PyErr_SetString PyExc_RuntimeError
          ("Lang module JIT failed to generate c++ PyCFunction wrapper '"
           +:+ jit_error env method +:+ "'") ;;
        ret_M None
      else
        p ← fresh_address;
        let object := PyCFunction p in
        AddToFunctionsMap funcAddr object ;;
        ret_M (Some object)
  end.

(** [Python3LanguageModule::GetOrCreateFunctionValue] *)
Definition GetOrCreateFunctionValue (env : Env) (method : Method)
    (object : PyObject) : M (option N) :=
  match object with
  | PyNone => ret_M (Some 0%N)
  | _ =>
      if negb (PyFunction_Check object) then
        PyErr_SetString PyExc_TypeError "Not function" ;; ret_M None
      else
        funcAddr ← FindInternal object;
        if negb (funcAddr =? 0)%N then ret_M (Some funcAddr)
        else
          (* CreateInternalCall *)
          methodAddr ← GetJitFunc env method;
          if (methodAddr =? 0)%N then
            PyErr_SetString PyExc_RuntimeError
              ("Lang module JIT failed to generate C++ wrapper from function object '"
               +:+ jit_error env method +:+ "'") ;;
            ret_M None
          else
            AddToFunctionsMap methodAddr object ;;
            ret_M (Some methodAddr)
  end.

(** [new T(...)]: the value is placed at a fresh address of the heap. *)
Definition new (v : NativeValue) : M N :=
  p ← fresh_address;
  modify (λ w, set_heap (<[p := v]> (heap w)) w) ;;
  ret_M p.

(** [CreateValue<T>]: a heap copy of the converted value, or null. *)
Definition CreateValue (plat : Platform) (T : CType) (pItem : PyObject)
  : M N :=
  value ← ValueFromObject plat T pItem;
  match value with
  | Some v => new v
  | None => ret_M 0%N
  end.

(** [CreateArray<T>] *)
Definition CreateArray (plat : Platform) (T : CType) (pItem : PyObject)
  : M N :=
  array ← ArrayFromObject plat T pItem;
  match array with
  | Some v => new v
  | None => ret_M 0%N
  end.

(** ** Native value to script value *)

(** Modelled from the spec: the geometry classes live in the script-side
    package [plugify.plugin], outside this module.  They are constructed
    from positional fields [x], [y], [z], [w], or from one flat list of 16
    numbers kept under the attribute [elements], and the construction does
    not fail. *)
Definition PyObject_CallObject_type (cls : PyClass) (args : list PyObject)
  : M (option PyObject) :=
  match cls, args with
  | Vector2Type, [x; y] =>
      ret_M (Some (PyInstance cls [("x", x); ("y", y)]))
  | Vector3Type, [x; y; z] =>
      ret_M (Some (PyInstance cls [("x", x); ("y", y); ("z", z)]))
  | Vector4Type, [x; y; z; w] =>
      ret_M (Some (PyInstance cls [("x", x); ("y", y); ("z", z); ("w", w)]))
  | Matrix4x4Type, [elements] =>
      ret_M (Some (PyInstance cls [("elements", elements)]))
  | _, _ =>
      PyErr_SetString PyExc_TypeError "wrong arguments" ;; ret_M None
  end.

Definition PyFloat_FromFloat (f : float) : PyObject :=
  PyFloat (DoubleOfFloat f).

(** [CreatePyObject], the overload chosen by the C++ type of the value. *)
Definition CreatePyObject (value : NativeValue) : M (option PyObject) :=
  match value with
  | VBool b => ret_M (Some (PyBool b))
  | VInt c_char z =>
      if (z =? 0)%Z then PyUnicode_FromStringAndSize []
      else PyUnicode_FromStringAndSize [(z mod 256)%Z]
  | VInt c_char16_t z =>
      if (z =? 0)%Z then PyUnicode_FromStringAndSize []
      else l ← get_locale;
           match c16rtomb l z with
           | None => ret_M None
           | Some out => PyUnicode_FromStringAndSize out
           end
  | VInt _ z => ret_M (Some (PyLong z))
  | VPtr p => ret_M (Some (PyLong (Z.of_N p)))
  | VFloat f => ret_M (Some (PyFloat_FromFloat f))
  | VDouble d => ret_M (Some (PyFloat d))
  | VString bytes => PyUnicode_FromStringAndSize bytes
  | VVector2 x y =>
      PyObject_CallObject_type Vector2Type
        [PyFloat_FromFloat x; PyFloat_FromFloat y]
  | VVector3 x y z =>
      PyObject_CallObject_type Vector3Type
        [PyFloat_FromFloat x; PyFloat_FromFloat y; PyFloat_FromFloat z]
  | VVector4 x y z w =>
      PyObject_CallObject_type Vector4Type
        [PyFloat_FromFloat x; PyFloat_FromFloat y; PyFloat_FromFloat z;
         PyFloat_FromFloat w]
  | VMatrix4x4 data =>
      PyObject_CallObject_type Matrix4x4Type
        [PyList (map PyFloat_FromFloat data)]
  | VVector _ _ => stop BadFrame
  end.

(** The loop of [CreatePyObjectList<T>]. *)
Fixpoint CreatePyObjectList_loop (arrayArg : list NativeValue)
  : M (option (list PyObject)) :=
  match arrayArg with
  | [] => ret_M (Some [])
  | v :: rest =>
      valueObject ← CreatePyObject v;
      match valueObject with
      | None => ret_M None
      | Some o =>
          more ← CreatePyObjectList_loop rest;
          ret_M (match more with Some l => Some (o :: l) | None => None end)
      end
  end.

(** [CreatePyObjectList<T>] *)
Definition CreatePyObjectList (arrayArg : NativeValue) : M (option PyObject) :=
  match arrayArg with
  | VVector _ items =>
      l ← CreatePyObjectList_loop items;
      ret_M (match l with Some l => Some (PyList l) | None => None end)
  | _ => stop BadFrame
  end.

(** ** The native call frame ([Parameters], [ReturnValue]) *)

(** The frame's argument slots.  A slot holds a value of the declared type
    or a pointer into the heap; the module trusts the declared [Property]
    when it reads one.  A read that finds something else is [BadFrame]
    (undefined behaviour in the compiled module, where the model stops), a
    read through a null pointer [NullDeref]. *)
Definition Parameters : Type := list NativeValue.

(** [params->GetArgument<T>(index)] for a value type [T]. *)
Definition GetArgument (T : CType) (params : Parameters) (index : nat)
  : M NativeValue :=
  match params !! index with
  | Some v =>
      if CppType_eqb (cpp_type_of v) (Scalar T) then ret_M v
      else stop BadFrame
  | None => stop BadFrame
  end.

(** [params->GetArgument<T*>(index)]: the pointer held by the slot. *)
Definition GetArgument_ptr (params : Parameters) (index : nat) : M N :=
  match params !! index with
  | Some (VPtr p) => ret_M p
  | _ => stop BadFrame
  end.

(** The object behind [params->GetArgument<const T*>(index)]. *)
Definition GetArgument_deref (T : CppType) (params : Parameters) (index : nat)
  : M NativeValue :=
  p ← GetArgument_ptr params index;
  if (p =? 0)%N then stop NullDeref
  else λ w, match heap w !! p with
            | Some v =>
                if CppType_eqb (cpp_type_of v) T then Ok v w
                else Stop BadFrame
            | None => Stop BadFrame
            end.

(** [ret->SetReturnPtr<T>(value)] *)
Definition SetReturnPtr (v : NativeValue) : M unit :=
  modify (set_ret (Some v)).

(** [std::construct_at(p, value)]: the object is built in the memory the
    pointer designates. *)
Definition construct_at (p : N) (v : NativeValue) : M unit :=
  if (p =? 0)%N then stop NullDeref
  else modify (λ w, set_heap (<[p := v]> (heap w)) w).

(** What is in memory after [new] bytes were written over [old] at the
    same address: a [Vector2] written over the sixteen floats of a
    [Matrix4x4] replaces the first two of them; in every other case the
    object is the written one. *)
Definition overlay (old : option NativeValue) (new : NativeValue)
  : NativeValue :=
  match old, new with
  | Some (VMatrix4x4 data), VVector2 x y => VMatrix4x4 (x :: y :: drop 2 data)
  | _, _ => new
  end.

(** [*param = value] through the pointer of a slot. *)
Definition assign_through (p : N) (v : NativeValue) : M unit :=
  if (p =? 0)%N then stop NullDeref
  else modify (λ w, set_heap (<[p := overlay (heap w !! p) v]> (heap w)) w).

Definition zero : float := FloatBits 0.

(** [SetFallbackReturn] *)
Definition SetFallbackReturn (plat : Platform) (retType : ValueType.t)
    (params : Parameters) : M unit :=
  match retType with
  | ValueType.Void => ret_M tt
  | ValueType.Bool | ValueType.Char8 | ValueType.Char16
  | ValueType.Int8 | ValueType.Int16 | ValueType.Int32 | ValueType.Int64
  | ValueType.UInt8 | ValueType.UInt16 | ValueType.UInt32 | ValueType.UInt64
  | ValueType.Pointer | ValueType.Float | ValueType.Double =>
      (* HACK: Fill all 8 byte with 0 *)
      SetReturnPtr (VInt c_uintptr_t 0)
  | ValueType.String =>
      returnParam ← GetArgument_ptr params 0;
      construct_at returnParam (VString [])
  | ValueType.Function => SetReturnPtr (VPtr 0)
  | ValueType.ArrayChar8 | ValueType.ArrayChar16
  | ValueType.ArrayInt8 | ValueType.ArrayInt16 | ValueType.ArrayInt32
  | ValueType.ArrayInt64 | ValueType.ArrayUInt8 | ValueType.ArrayUInt16
  | ValueType.ArrayUInt32 | ValueType.ArrayUInt64 | ValueType.ArrayPointer
  | ValueType.ArrayFloat | ValueType.ArrayDouble =>
      (* HACK: Assume the same structure for empty array *)
      returnParam ← GetArgument_ptr params 0;
      construct_at returnParam (VVector c_uintptr_t [])
  | ValueType.ArrayString =>
      returnParam ← GetArgument_ptr params 0;
      construct_at returnParam (VVector c_string [])
  | ValueType.Vector2 => SetReturnPtr (VVector2 zero zero)
  | ValueType.Vector3 =>
      match plat with
      | Windows =>
          returnParam ← GetArgument_ptr params 0;
          construct_at returnParam (VVector3 zero zero zero) ;;
          SetReturnPtr (VPtr returnParam)
      | Linux | Apple => SetReturnPtr (VVector3 zero zero zero)
      end
  | ValueType.Vector4 =>
      match plat with
      | Windows =>
          returnParam ← GetArgument_ptr params 0;
          construct_at returnParam (VVector4 zero zero zero zero) ;;
          SetReturnPtr (VPtr returnParam)
      | Linux | Apple => SetReturnPtr (VVector4 zero zero zero zero)
      end
  | ValueType.Matrix4x4 =>
      returnParam ← GetArgument_ptr params 0;
      construct_at returnParam (VMatrix4x4 (replicate 16 zero)) ;;
      SetReturnPtr (VPtr returnParam)
  | ValueType.ArrayBool =>
      (* default: *)
      stop Terminate
  end.

(** The three shapes of a case of [SetReturn]: the converted value goes into
    the return register, into the object behind the hidden first argument,
    or into that object with its address in the register.  A value that
    does not convert leaves the case through [break]. *)
Definition return_in_register (conv : M (option NativeValue)) : M bool :=
  value ← conv;
  match value with
  | Some v => SetReturnPtr v ;; ret_M true
  | None => ret_M false
  end.

Definition return_in_hidden (conv : M (option NativeValue))
    (params : Parameters) : M bool :=
  value ← conv;
  match value with
  | Some v =>
      returnParam ← GetArgument_ptr params 0;
      construct_at returnParam v ;; ret_M true
  | None => ret_M false
  end.

Definition return_in_hidden_and_register (conv : M (option NativeValue))
    (params : Parameters) : M bool :=
  value ← conv;
  match value with
  | Some v =>
      returnParam ← GetArgument_ptr params 0;
      construct_at returnParam v ;;
      SetReturnPtr (VPtr returnParam) ;; ret_M true
  | None => ret_M false
  end.

(** The nested signature [property.prototype] points to. *)
Definition deref_prototype (p : Property) : M Method :=
  match prototype p with
  | Some m => ret_M m
  | None => stop NullDeref
  end.

(** [SetReturn] *)
Definition SetReturn (env : Env) (result : PyObject) (retType : Property)
    (params : Parameters) : M bool :=
  let plat := platform env in
  match type retType with
  | ValueType.Void => ret_M true
  | ValueType.Bool => return_in_register (ValueFromObject plat c_bool result)
  | ValueType.Char8 => return_in_register (ValueFromObject plat c_char result)
  | ValueType.Char16 =>
      return_in_register (ValueFromObject plat c_char16_t result)
  | ValueType.Int8 => return_in_register (ValueFromObject plat c_int8_t result)
  | ValueType.Int16 =>
      return_in_register (ValueFromObject plat c_int16_t result)
  | ValueType.Int32 =>
      return_in_register (ValueFromObject plat c_int32_t result)
  | ValueType.Int64 =>
      return_in_register (ValueFromObject plat c_int64_t result)
  | ValueType.UInt8 =>
      return_in_register (ValueFromObject plat c_uint8_t result)
  | ValueType.UInt16 =>
      return_in_register (ValueFromObject plat c_uint16_t result)
  | ValueType.UInt32 =>
      return_in_register (ValueFromObject plat c_uint32_t result)
  | ValueType.UInt64 =>
      return_in_register (ValueFromObject plat c_uint64_t result)
  | ValueType.Pointer =>
      return_in_register (ValueFromObject plat c_void_ptr result)
  | ValueType.Float => return_in_register (ValueFromObject plat c_float result)
  | ValueType.Double =>
      return_in_register (ValueFromObject plat c_double result)
  | ValueType.Function =>
      method ← deref_prototype retType;
      value ← GetOrCreateFunctionValue env method result;
      match value with
      | Some addr => SetReturnPtr (VPtr addr) ;; ret_M true
      | None => ret_M false
      end
  | ValueType.String =>
      return_in_hidden (ValueFromObject plat c_string result) params
  | ValueType.ArrayBool =>
      return_in_hidden (ArrayFromObject plat c_bool result) params
  | ValueType.ArrayChar8 =>
      return_in_hidden (ArrayFromObject plat c_char result) params
  | ValueType.ArrayChar16 =>
      return_in_hidden (ArrayFromObject plat c_char16_t result) params
  | ValueType.ArrayInt8 =>
      return_in_hidden (ArrayFromObject plat c_int8_t result) params
  | ValueType.ArrayInt16 =>
      return_in_hidden (ArrayFromObject plat c_int16_t result) params
  | ValueType.ArrayInt32 =>
      return_in_hidden (ArrayFromObject plat c_int32_t result) params
  | ValueType.ArrayInt64 =>
      return_in_hidden (ArrayFromObject plat c_int64_t result) params
  | ValueType.ArrayUInt8 =>
      return_in_hidden (ArrayFromObject plat c_uint8_t result) params
  | ValueType.ArrayUInt16 =>
      return_in_hidden (ArrayFromObject plat c_uint16_t result) params
  | ValueType.ArrayUInt32 =>
      return_in_hidden (ArrayFromObject plat c_uint32_t result) params
  | ValueType.ArrayUInt64 =>
      return_in_hidden (ArrayFromObject plat c_uint64_t result) params
  | ValueType.ArrayPointer =>
      return_in_hidden (ArrayFromObject plat c_void_ptr result) params
  | ValueType.ArrayFloat =>
      return_in_hidden (ArrayFromObject plat c_float result) params
  | ValueType.ArrayDouble =>
      return_in_hidden (ArrayFromObject plat c_double result) params
  | ValueType.ArrayString =>
      return_in_hidden (ArrayFromObject plat c_string result) params
  | ValueType.Vector2 =>
      return_in_register (ValueFromObject plat c_Vector2 result)
  | ValueType.Vector3 =>
      match plat with
      | Windows =>
          return_in_hidden_and_register
            (ValueFromObject plat c_Vector3 result) params
      | Linux | Apple =>
          return_in_register (ValueFromObject plat c_Vector3 result)
      end
  | ValueType.Vector4 =>
      match plat with
      | Windows =>
          return_in_hidden_and_register
            (ValueFromObject plat c_Vector4 result) params
      | Linux | Apple =>
          return_in_register (ValueFromObject plat c_Vector4 result)
      end
  | ValueType.Matrix4x4 =>
      return_in_hidden_and_register
        (ValueFromObject plat c_Matrix4x4 result) params
  end.

(** One case of [SetRefParam]: the converted value is assigned through the
    pointer held by the parameter's slot. *)
Definition assign_param (conv : M (option NativeValue)) (params : Parameters)
    (index : nat) : M bool :=
  value ← conv;
  match value with
  | Some v =>
      param ← GetArgument_ptr params index;
      assign_through param v ;; ret_M true
  | None => ret_M false
  end.

(** [SetRefParam] *)
Definition SetRefParam (plat : Platform) (object : PyObject)
    (paramType : Property) (params : Parameters) (index : nat) : M bool :=
  match type paramType with
  | ValueType.Bool =>
      assign_param (ValueFromObject plat c_bool object) params index
  | ValueType.Char8 =>
      assign_param (ValueFromObject plat c_char object) params index
  | ValueType.Char16 =>
      assign_param (ValueFromObject plat c_char16_t object) params index
  | ValueType.Int8 =>
      assign_param (ValueFromObject plat c_int8_t object) params index
  | ValueType.Int16 =>
      assign_param (ValueFromObject plat c_int16_t object) params index
  | ValueType.Int32 =>
      assign_param (ValueFromObject plat c_int32_t object) params index
  | ValueType.Int64 =>
      assign_param (ValueFromObject plat c_int64_t object) params index
  | ValueType.UInt8 =>
      assign_param (ValueFromObject plat c_uint8_t object) params index
  | ValueType.UInt16 =>
      assign_param (ValueFromObject plat c_uint16_t object) params index
  | ValueType.UInt32 =>
      assign_param (ValueFromObject plat c_uint32_t object) params index
  | ValueType.UInt64 =>
      assign_param (ValueFromObject plat c_uint64_t object) params index
  | ValueType.Pointer =>
      assign_param (ValueFromObject plat c_void_ptr object) params index
  | ValueType.Float =>
      assign_param (ValueFromObject plat c_float object) params index
  | ValueType.Double =>
      assign_param (ValueFromObject plat c_double object) params index
  | ValueType.String =>
      assign_param (ValueFromObject plat c_string object) params index
  | ValueType.ArrayBool =>
      assign_param (ArrayFromObject plat c_bool object) params index
  | ValueType.ArrayChar8 =>
      assign_param (ArrayFromObject plat c_char object) params index
  | ValueType.ArrayChar16 =>
      assign_param (ArrayFromObject plat c_char16_t object) params index
  | ValueType.ArrayInt8 =>
      assign_param (ArrayFromObject plat c_int8_t object) params index
  | ValueType.ArrayInt16 =>
      assign_param (ArrayFromObject plat c_int16_t object) params index
  | ValueType.ArrayInt32 =>
      assign_param (ArrayFromObject plat c_int32_t object) params index
  | ValueType.ArrayInt64 =>
      assign_param (ArrayFromObject plat c_int64_t object) params index
  | ValueType.ArrayUInt8 =>
      assign_param (ArrayFromObject plat c_uint8_t object) params index
  | ValueType.ArrayUInt16 =>
      assign_param (ArrayFromObject plat c_uint16_t object) params index
  | ValueType.ArrayUInt32 =>
      assign_param (ArrayFromObject plat c_uint32_t object) params index
  | ValueType.ArrayUInt64 =>
      assign_param (ArrayFromObject plat c_uint64_t object) params index
  | ValueType.ArrayPointer =>
      assign_param (ArrayFromObject plat c_void_ptr object) params index
  | ValueType.ArrayFloat =>
      assign_param (ArrayFromObject plat c_float object) params index
  | ValueType.ArrayDouble =>
      assign_param (ArrayFromObject plat c_double object) params index
  | ValueType.ArrayString =>
      assign_param (ArrayFromObject plat c_string object) params index
  | ValueType.Vector2 =>
      assign_param (ValueFromObject plat c_Vector2 object) params index
  | ValueType.Vector3 =>
      assign_param (ValueFromObject plat c_Vector3 object) params index
  | ValueType.Vector4 =>
      assign_param (ValueFromObject plat c_Vector4 object) params index
  | ValueType.Matrix4x4 =>
      (* ValueFromObject<Vector2>, written through a Vector2* *)
      assign_param (ValueFromObject plat c_Vector2 object) params index
  | ValueType.Void | ValueType.Function =>
      (* default: *)
      stop Terminate
  end.

(** [CreatePyObject(params->GetArgument<T>(index))] *)
Definition object_of_argument (T : CType) (params : Parameters) (index : nat)
  : M (option PyObject) :=
  v ← GetArgument T params index; CreatePyObject v.

(** [CreatePyObject] of the object behind [params->GetArgument<T*>(index)] *)
Definition object_behind_argument (T : CType) (params : Parameters)
    (index : nat) : M (option PyObject) :=
  v ← GetArgument_deref (Scalar T) params index; CreatePyObject v.

(** [CreatePyObjectList] of the vector behind
    [params->GetArgument<const std::vector<T>*>(index)] *)
Definition list_behind_argument (T : CType) (params : Parameters)
    (index : nat) : M (option PyObject) :=
  v ← GetArgument_deref (VectorOf T) params index; CreatePyObjectList v.

(** [ParamToObject] *)
Definition ParamToObject (env : Env) (paramType : Property)
    (params : Parameters) (index : nat) : M (option PyObject) :=
  match type paramType with
  | ValueType.Bool => object_of_argument c_bool params index
  | ValueType.Char8 => object_of_argument c_char params index
  | ValueType.Char16 => object_of_argument c_char16_t params index
  | ValueType.Int8 => object_of_argument c_int8_t params index
  | ValueType.Int16 => object_of_argument c_int16_t params index
  | ValueType.Int32 => object_of_argument c_int32_t params index
  | ValueType.Int64 => object_of_argument c_int64_t params index
  | ValueType.UInt8 => object_of_argument c_uint8_t params index
  | ValueType.UInt16 => object_of_argument c_uint16_t params index
  | ValueType.UInt32 => object_of_argument c_uint32_t params index
  | ValueType.UInt64 => object_of_argument c_uint64_t params index
  | ValueType.Pointer => object_of_argument c_void_ptr params index
  | ValueType.Float => object_of_argument c_float params index
  | ValueType.Double => object_of_argument c_double params index
  | ValueType.Function =>
      method ← deref_prototype paramType;
      funcAddr ← GetArgument_ptr params index;
      GetOrCreateFunctionObject env method funcAddr
  | ValueType.String => object_behind_argument c_string params index
  | ValueType.ArrayBool => list_behind_argument c_bool params index
  | ValueType.ArrayChar8 => list_behind_argument c_char params index
  | ValueType.ArrayChar16 => list_behind_argument c_char16_t params index
  | ValueType.ArrayInt8 => list_behind_argument c_int8_t params index
  | ValueType.ArrayInt16 => list_behind_argument c_int16_t params index
  | ValueType.ArrayInt32 => list_behind_argument c_int32_t params index
  | ValueType.ArrayInt64 => list_behind_argument c_int64_t params index
  | ValueType.ArrayUInt8 => list_behind_argument c_uint8_t params index
  | ValueType.ArrayUInt16 => list_behind_argument c_uint16_t params index
  | ValueType.ArrayUInt32 => list_behind_argument c_uint32_t params index
  | ValueType.ArrayUInt64 => list_behind_argument c_uint64_t params index
  | ValueType.ArrayPointer => list_behind_argument c_void_ptr params index
  | ValueType.ArrayFloat => list_behind_argument c_float params index
  | ValueType.ArrayDouble => list_behind_argument c_double params index
  | ValueType.ArrayString => list_behind_argument c_string params index
  | ValueType.Vector2 => object_behind_argument c_Vector2 params index
  | ValueType.Vector3 => object_behind_argument c_Vector3 params index
  | ValueType.Vector4 => object_behind_argument c_Vector4 params index
  | ValueType.Matrix4x4 => object_behind_argument c_Matrix4x4 params index
  | ValueType.Void =>
      (* default: *)
      stop Terminate
  end.

(** [ParamRefToObject] *)
Definition ParamRefToObject (env : Env) (paramType : Property)
    (params : Parameters) (index : nat) : M (option PyObject) :=
  match type paramType with
  | ValueType.Bool => object_behind_argument c_bool params index
  | ValueType.Char8 => object_behind_argument c_char params index
  | ValueType.Char16 => object_behind_argument c_char16_t params index
  | ValueType.Int8 => object_behind_argument c_int8_t params index
  | ValueType.Int16 => object_behind_argument c_int16_t params index
  | ValueType.Int32 => object_behind_argument c_int32_t params index
  | ValueType.Int64 => object_behind_argument c_int64_t params index
  | ValueType.UInt8 => object_behind_argument c_uint8_t params index
  | ValueType.UInt16 => object_behind_argument c_uint16_t params index
  | ValueType.UInt32 => object_behind_argument c_uint32_t params index
  | ValueType.UInt64 => object_behind_argument c_uint64_t params index
  | ValueType.Pointer => object_behind_argument c_void_ptr params index
  | ValueType.Float => object_behind_argument c_float params index
  | ValueType.Double => object_behind_argument c_double params index
  | ValueType.String => object_behind_argument c_string params index
  | ValueType.ArrayBool => list_behind_argument c_bool params index
  | ValueType.ArrayChar8 => list_behind_argument c_char params index
  | ValueType.ArrayChar16 => list_behind_argument c_char16_t params index
  | ValueType.ArrayInt8 => list_behind_argument c_int8_t params index
  | ValueType.ArrayInt16 => list_behind_argument c_int16_t params index
  | ValueType.ArrayInt32 => list_behind_argument c_int32_t params index
  | ValueType.ArrayInt64 => list_behind_argument c_int64_t params index
  | ValueType.ArrayUInt8 => list_behind_argument c_uint8_t params index
  | ValueType.ArrayUInt16 => list_behind_argument c_uint16_t params index
  | ValueType.ArrayUInt32 => list_behind_argument c_uint32_t params index
  | ValueType.ArrayUInt64 => list_behind_argument c_uint64_t params index
  | ValueType.ArrayPointer => list_behind_argument c_void_ptr params index
  | ValueType.ArrayFloat => list_behind_argument c_float params index
  | ValueType.ArrayDouble => list_behind_argument c_double params index
  | ValueType.ArrayString => list_behind_argument c_string params index
  | ValueType.Vector2 => object_behind_argument c_Vector2 params index
  | ValueType.Vector3 => object_behind_argument c_Vector3 params index
  | ValueType.Vector4 => object_behind_argument c_Vector4 params index
  | ValueType.Matrix4x4 => object_behind_argument c_Matrix4x4 params index
  | ValueType.Void | ValueType.Function =>
      (* default: *)
      stop Terminate
  end.

(** ** The inbound dispatcher *)

Inductive ParamProcess : Type := NoError | Error | ErrorWithException.

(** [PyObject_CallObject] on a script callable: what it raises becomes the
    pending exception. *)
Definition PyObject_CallObject (env : Env) (func : PyObject)
    (args : list PyObject) : M (option PyObject) :=
  match py_call env func args with
  | inl result => ret_M (Some result)
  | inr e => modify (set_pyerr (Some e)) ;; ret_M None
  end.

(** The first loop of [InternalCall]: the argument tuple is built from the
    slots, counting the reference parameters on the way; it stops at the
    first argument that does not convert. *)
Fixpoint InternalCall_arguments (env : Env) (params : Parameters)
    (paramsStartIndex : nat) (todo : list Property)
    (index refParamsCount : nat) (argTuple : list PyObject)
  : M (ParamProcess * nat * list PyObject) :=
  match todo with
  | [] => ret_M (NoError, refParamsCount, argTuple)
  | paramType :: rest =>
      let refParamsCount :=
        if ref paramType then uint8 (S refParamsCount) else refParamsCount in
      let convertFunc :=
        if ref paramType then ParamRefToObject else ParamToObject in
      arg ← convertFunc env paramType params (uint8 (paramsStartIndex + index));
      match arg with
      | None =>
          (* convertFunc may set error *)
          occurred ← PyErr_Occurred;
          ret_M (if occurred : bool then ErrorWithException else Error,
                 refParamsCount, argTuple)
      | Some o =>
          InternalCall_arguments env params paramsStartIndex rest
            (S index) refParamsCount (argTuple ++ [o])
      end
  end.

(** The write-back loop of [InternalCall]: element [1 + k] of the result
    goes to the [k]-th reference parameter; a failed write is reported and
    the loop goes on. *)
Fixpoint InternalCall_write_back (plat : Platform) (params : Parameters)
    (paramsStartIndex : nat) (result : list PyObject) (refParamsCount : nat)
    (todo : list Property) (index k : nat) : M unit :=
  match todo with
  | [] => ret_M tt
  | paramType :: rest =>
      if negb (ref paramType) then
        InternalCall_write_back plat params paramsStartIndex result
          refParamsCount rest (S index) k
      else
        match result !! (1 + k)%nat with
        | None => stop BadFrame
        | Some item =>
            ok ← SetRefParam plat item paramType params
                   (uint8 (paramsStartIndex + index));
            (if negb ok then
               (* SetRefParam may set error *)
               occurred ← PyErr_Occurred;
               if occurred : bool then PyErr_Print else ret_M tt
             else ret_M tt) ;;
            let k := uint8 (S k) in
            if (k =? refParamsCount)%nat then ret_M tt
            else InternalCall_write_back plat params paramsStartIndex result
                   refParamsCount rest (S index) k
        end
  end.

(** [InternalCall]: [func] is the script callable carried by the trampoline
    ([data]), [params] the native frame; the return slot is [ret] of the
    world. *)
Definition InternalCall (env : Env) (method : Method) (func : PyObject)
    (params : Parameters) : M unit :=
  let plat := platform env in
  let paramsCount := uint8 (length (paramTypes method)) in
  let paramsStartIndex :=
    if ValueUtils.IsHiddenParam plat (type (retType method)) then 1%nat
    else 0%nat in
  '(processResult, refParamsCount, argTuple) ←
    InternalCall_arguments env params paramsStartIndex
      (take paramsCount (paramTypes method)) 0 0 [];
  match processResult with
  | Error => SetFallbackReturn plat (type (retType method)) params
  | ErrorWithException =>
      PyErr_Print ;; SetFallbackReturn plat (type (retType method)) params
  | NoError =>
      let hasRefParams := negb (refParamsCount =? 0)%nat in
      result ← PyObject_CallObject env func argTuple;
      match result with
      | None =>
          PyErr_Print ;; SetFallbackReturn plat (type (retType method)) params
      | Some result =>
          if hasRefParams then
            match result with
            | PyTuple items =>
                let tupleSize := length items in
                if negb (tupleSize =? 1 + refParamsCount)%nat then
                  PyErr_SetString PyExc_TypeError
                    ("Returned tuple wrong size " +:+ pretty tupleSize
                     +:+ ", expected " +:+ pretty (1 + refParamsCount)%nat) ;;
                  PyErr_Print ;;
                  SetFallbackReturn plat (type (retType method)) params
                else
                  match items !! 0%nat with
                  | None => stop BadFrame
                  | Some returnObject =>
                      InternalCall_write_back plat params paramsStartIndex
                        items refParamsCount
                        (take paramsCount (paramTypes method)) 0 0 ;;
                      ok ← SetReturn env returnObject (retType method) params;
                      if negb ok then
                        occurred ← PyErr_Occurred;
                        (if occurred : bool then PyErr_Print else ret_M tt) ;;
                        SetFallbackReturn plat (type (retType method)) params
                      else ret_M tt
                  end
            | _ =>
                PyErr_SetString PyExc_TypeError "Returned value not tuple" ;;
                PyErr_Print ;;
                SetFallbackReturn plat (type (retType method)) params
            end
          else
            ok ← SetReturn env result (retType method) params;
            if negb ok then
              occurred ← PyErr_Occurred;
              (if occurred : bool then PyErr_Print else ret_M tt) ;;
              SetFallbackReturn plat (type (retType method)) params
            else ret_M tt
      end
  end.

(** ** The call argument scope *)

(** [ArgsScope]: the arguments pushed on the call machine so far, the
    temporaries the scope owns with their tags, and the number of fields of
    the aggregate descriptor when one was made. *)
Record ArgsScope : Type := {
  vm : list NativeValue;
  storage : list (N * ValueType.t);
  ag : option nat
}.

Definition ArgsScope_new : ArgsScope :=
  {| vm := []; storage := []; ag := None |}.

(** [dcArg...(a.vm, value)] *)
Definition dcArg (v : NativeValue) (a : ArgsScope) : ArgsScope :=
  {| vm := vm a ++ [v]; storage := storage a; ag := ag a |}.

(** [a.storage.emplace_back(value, type)] *)
Definition storage_emplace_back (value : N) (t : ValueType.t) (a : ArgsScope)
  : ArgsScope :=
  {| vm := vm a; storage := storage a ++ [(value, t)]; ag := ag a |}.

(** [a.ag = dcNewAggr(n, ...)] with its fields, closed and begun. *)
Definition dcBeginCallAggr (n : nat) (a : ArgsScope) : ArgsScope :=
  {| vm := vm a; storage := storage a; ag := Some n |}.

(** The type named in the [delete reinterpret_cast<T*>(ptr)] of each case of
    the destructor; [None] is the [default:] case. *)
Definition delete_type (t : ValueType.t) : option CppType :=
  match t with
  | ValueType.Bool => Some (Scalar c_bool)
  | ValueType.Char8 => Some (Scalar c_char)
  | ValueType.Char16 => Some (Scalar c_char16_t)
  | ValueType.Int8 => Some (Scalar c_int8_t)
  | ValueType.Int16 => Some (Scalar c_int16_t)
  | ValueType.Int32 => Some (Scalar c_int32_t)
  | ValueType.Int64 => Some (Scalar c_int64_t)
  | ValueType.UInt8 => Some (Scalar c_uint8_t)
  | ValueType.UInt16 => Some (Scalar c_uint16_t)
  | ValueType.UInt32 => Some (Scalar c_uint32_t)
  | ValueType.UInt64 => Some (Scalar c_uint64_t)
  | ValueType.Pointer => Some (Scalar c_uintptr_t)
  | ValueType.Float => Some (Scalar c_float)
  | ValueType.Double => Some (Scalar c_double)
  | ValueType.String => Some (Scalar c_string)
  | ValueType.ArrayBool => Some (VectorOf c_bool)
  | ValueType.ArrayChar8 => Some (VectorOf c_char)
  | ValueType.ArrayChar16 => Some (VectorOf c_char16_t)
  | ValueType.ArrayInt8 => Some (VectorOf c_int16_t)
  | ValueType.ArrayInt16 => Some (VectorOf c_int16_t)
  | ValueType.ArrayInt32 => Some (VectorOf c_int32_t)
  | ValueType.ArrayInt64 => Some (VectorOf c_int64_t)
  | ValueType.ArrayUInt8 => Some (VectorOf c_uint8_t)
  | ValueType.ArrayUInt16 => Some (VectorOf c_uint16_t)
  | ValueType.ArrayUInt32 => Some (VectorOf c_uint32_t)
  | ValueType.ArrayUInt64 => Some (VectorOf c_uint64_t)
  | ValueType.ArrayPointer => Some (VectorOf c_uintptr_t)
  | ValueType.ArrayFloat => Some (VectorOf c_float)
  | ValueType.ArrayDouble => Some (VectorOf c_double)
  | ValueType.ArrayString => Some (VectorOf c_string)
  | ValueType.Vector2 => Some (Scalar c_Vector2)
  | ValueType.Vector3 => Some (Scalar c_Vector3)
  | ValueType.Vector4 => Some (Scalar c_Vector4)
  | ValueType.Matrix4x4 => Some (Scalar c_Matrix4x4)
  | ValueType.Void | ValueType.Function => None
  end.

(** [delete reinterpret_cast<T*>(ptr)]: the object leaves the heap, and the
    world remembers as what it was deleted and what it was. *)
Definition delete_as (T : CppType) (ptr : N) : M unit :=
  modify (λ w,
    set_frees (frees w ++ [{| free_ptr := ptr; free_as := T;
                              free_actual := cpp_type_of <$> heap w !! ptr |}])
      (set_heap (delete ptr (heap w)) w)).

(** [ArgsScope::~ArgsScope] *)
Fixpoint ArgsScope_destroy (storage : list (N * ValueType.t)) : M unit :=
  match storage with
  | [] => ret_M tt
  | (ptr, t) :: rest =>
      match delete_type t with
      | Some T => delete_as T ptr ;; ArgsScope_destroy rest
      | None => stop Terminate
      end
  end.

(** The type with which the temporary of each tag is allocated: the template
    argument of [CreateValue] or [CreateArray] in [PushObjectAsRefParam]
    (the same as in [PushObjectAsParam] and [BeginExternalCall] where they
    allocate); [None] for the tags that get no temporary. *)
Definition allocation_type (t : ValueType.t) : option CppType :=
  match t with
  | ValueType.Bool => Some (Scalar c_bool)
  | ValueType.Char8 => Some (Scalar c_char)
  | ValueType.Char16 => Some (Scalar c_char16_t)
  | ValueType.Int8 => Some (Scalar c_int8_t)
  | ValueType.Int16 => Some (Scalar c_int16_t)
  | ValueType.Int32 => Some (Scalar c_int32_t)
  | ValueType.Int64 => Some (Scalar c_int64_t)
  | ValueType.UInt8 => Some (Scalar c_uint8_t)
  | ValueType.UInt16 => Some (Scalar c_uint16_t)
  | ValueType.UInt32 => Some (Scalar c_uint32_t)
  | ValueType.UInt64 => Some (Scalar c_uint64_t)
  | ValueType.Pointer => Some (Scalar c_uintptr_t)
  | ValueType.Float => Some (Scalar c_float)
  | ValueType.Double => Some (Scalar c_double)
  | ValueType.String => Some (Scalar c_string)
  | ValueType.ArrayBool => Some (VectorOf c_bool)
  | ValueType.ArrayChar8 => Some (VectorOf c_char)
  | ValueType.ArrayChar16 => Some (VectorOf c_char16_t)
  | ValueType.ArrayInt8 => Some (VectorOf c_int8_t)
  | ValueType.ArrayInt16 => Some (VectorOf c_int16_t)
  | ValueType.ArrayInt32 => Some (VectorOf c_int32_t)
  | ValueType.ArrayInt64 => Some (VectorOf c_int64_t)
  | ValueType.ArrayUInt8 => Some (VectorOf c_uint8_t)
  | ValueType.ArrayUInt16 => Some (VectorOf c_uint16_t)
  | ValueType.ArrayUInt32 => Some (VectorOf c_uint32_t)
  | ValueType.ArrayUInt64 => Some (VectorOf c_uint64_t)
  | ValueType.ArrayPointer => Some (VectorOf c_uintptr_t)
  | ValueType.ArrayFloat => Some (VectorOf c_float)
  | ValueType.ArrayDouble => Some (VectorOf c_double)
  | ValueType.ArrayString => Some (VectorOf c_string)
  | ValueType.Vector2 => Some (Scalar c_Vector2)
  | ValueType.Vector3 => Some (Scalar c_Vector3)
  | ValueType.Vector4 => Some (Scalar c_Vector4)
  | ValueType.Matrix4x4 => Some (Scalar c_Matrix4x4)
  | ValueType.Void | ValueType.Function => None
  end.

(** A temporary for the return value: [new T()], owned by the scope and
    pushed as the hidden first argument. *)
Definition return_temporary (v : NativeValue) (t : ValueType.t)
    (a : ArgsScope) : M ArgsScope :=
  value ← new v;
  ret_M (dcArg (VPtr value) (storage_emplace_back value t a)).

(** [BeginExternalCall] *)
Definition BeginExternalCall (method : Method) (a : ArgsScope) : M ArgsScope :=
  let t := type (retType method) in
  match t with
  | ValueType.String => return_temporary (VString []) t a
  | ValueType.ArrayBool => return_temporary (VVector c_bool []) t a
  | ValueType.ArrayChar8 => return_temporary (VVector c_char []) t a
  | ValueType.ArrayChar16 => return_temporary (VVector c_char16_t []) t a
  | ValueType.ArrayInt8 => return_temporary (VVector c_int8_t []) t a
  | ValueType.ArrayInt16 => return_temporary (VVector c_int16_t []) t a
  | ValueType.ArrayInt32 => return_temporary (VVector c_int32_t []) t a
  | ValueType.ArrayInt64 => return_temporary (VVector c_int64_t []) t a
  | ValueType.ArrayUInt8 => return_temporary (VVector c_uint8_t []) t a
  | ValueType.ArrayUInt16 => return_temporary (VVector c_uint16_t []) t a
  | ValueType.ArrayUInt32 => return_temporary (VVector c_uint32_t []) t a
  | ValueType.ArrayUInt64 => return_temporary (VVector c_uint64_t []) t a
  | ValueType.ArrayPointer => return_temporary (VVector c_uintptr_t []) t a
  | ValueType.ArrayFloat => return_temporary (VVector c_float []) t a
  | ValueType.ArrayDouble => return_temporary (VVector c_double []) t a
  | ValueType.ArrayString => return_temporary (VVector c_string []) t a
  | ValueType.Vector2 => ret_M (dcBeginCallAggr 2 a)
  | ValueType.Vector3 => ret_M (dcBeginCallAggr 3 a)
  | ValueType.Vector4 => ret_M (dcBeginCallAggr 4 a)
  | ValueType.Matrix4x4 => ret_M (dcBeginCallAggr 16 a)
  | _ =>
      (* Should not require storage *)
      ret_M a
  end.

(** ** The outbound dispatcher *)

(** The number held by a converted integer. *)
Definition int_of (v : NativeValue) : M Z :=
  match v with
  | VInt _ z => ret_M z
  | _ => stop BadFrame
  end.

(** A case of [PushObjectAsParam] for an integer type: the value converted
    by [ValueFromObject<T>] is pushed as the [dc] type, after a
    [static_cast] where the source has one. *)
Definition push_integer (plat : Platform) (T dc : CType) (pItem : PyObject)
    (a : ArgsScope) : M (bool * ArgsScope) :=
  value ← ValueFromObject plat T pItem;
  match value with
  | None => ret_M (false, a)
  | Some v =>
      z ← int_of v;
      ret_M (true, dcArg (VInt dc (static_cast (int_kind plat dc) z)) a)
  end.

(** A case that pushes the converted value as it is. *)
Definition push_value (plat : Platform) (T : CType) (pItem : PyObject)
    (a : ArgsScope) : M (bool * ArgsScope) :=
  value ← ValueFromObject plat T pItem;
  match value with
  | None => ret_M (false, a)
  | Some v => ret_M (true, dcArg v a)
  end.

(** A case that allocates a temporary, files it in the scope under the
    parameter's tag and pushes its address; a null [value] is the failed
    conversion. *)
Definition push_temporary (value : N) (t : ValueType.t) (a : ArgsScope)
  : M (bool * ArgsScope) :=
  if (value =? 0)%N then ret_M (false, a)
  else ret_M (true, dcArg (VPtr value) (storage_emplace_back value t a)).

Definition unsupported_param : M unit :=
  PyErr_SetString PyExc_TypeError "Param unsupported type".

(** [PushObjectAsParam] *)
Definition PushObjectAsParam (env : Env) (paramType : Property)
    (pItem : PyObject) (a : ArgsScope) : M (bool * ArgsScope) :=
  let plat := platform env in
  let t := type paramType in
  match t with
  | ValueType.Bool => push_value plat c_bool pItem a
  | ValueType.Char8 => push_integer plat c_char c_char pItem a
  | ValueType.Char16 => push_integer plat c_char16_t c_short pItem a
  | ValueType.Int8 => push_integer plat c_int8_t c_char pItem a
  | ValueType.Int16 => push_integer plat c_int16_t c_short pItem a
  | ValueType.Int32 => push_integer plat c_int32_t c_int pItem a
  | ValueType.Int64 => push_integer plat c_int64_t c_longlong pItem a
  | ValueType.UInt8 => push_integer plat c_uint8_t c_char pItem a
  | ValueType.UInt16 => push_integer plat c_uint16_t c_short pItem a
  | ValueType.UInt32 => push_integer plat c_uint32_t c_int pItem a
  | ValueType.UInt64 => push_integer plat c_uint64_t c_longlong pItem a
  | ValueType.Pointer =>
      value ← ValueFromObject plat c_uintptr_t pItem;
      match value with
      | None => ret_M (false, a)
      | Some v => z ← int_of v; ret_M (true, dcArg (VPtr (Z.to_N z)) a)
      end
  | ValueType.Float => push_value plat c_float pItem a
  | ValueType.Double => push_value plat c_double pItem a
  | ValueType.String =>
      value ← CreateValue plat c_string pItem; push_temporary value t a
  | ValueType.Function =>
      method ← deref_prototype paramType;
      value ← GetOrCreateFunctionValue env method pItem;
      match value with
      | None => ret_M (false, a)
      | Some addr => ret_M (true, dcArg (VPtr addr) a)
      end
  | ValueType.ArrayBool =>
      value ← CreateArray plat c_bool pItem; push_temporary value t a
  | ValueType.ArrayChar8 =>
      value ← CreateArray plat c_char pItem; push_temporary value t a
  | ValueType.ArrayChar16 =>
      value ← CreateArray plat c_char16_t pItem; push_temporary value t a
  | ValueType.ArrayInt8 =>
      value ← CreateArray plat c_int8_t pItem; push_temporary value t a
  | ValueType.ArrayInt16 =>
      value ← CreateArray plat c_int16_t pItem; push_temporary value t a
  | ValueType.ArrayInt32 =>
      value ← CreateArray plat c_int32_t pItem; push_temporary value t a
  | ValueType.ArrayInt64 =>
      value ← CreateArray plat c_int64_t pItem; push_temporary value t a
  | ValueType.ArrayUInt8 =>
      value ← CreateArray plat c_uint8_t pItem; push_temporary value t a
  | ValueType.ArrayUInt16 =>
      value ← CreateArray plat c_uint16_t pItem; push_temporary value t a
  | ValueType.ArrayUInt32 =>
      value ← CreateArray plat c_uint32_t pItem; push_temporary value t a
  | ValueType.ArrayUInt64 =>
      value ← CreateArray plat c_uint64_t pItem; push_temporary value t a
  | ValueType.ArrayPointer =>
      value ← CreateArray plat c_uintptr_t pItem; push_temporary value t a
  | ValueType.ArrayFloat =>
      value ← CreateArray plat c_float pItem; push_temporary value t a
  | ValueType.ArrayDouble =>
      value ← CreateArray plat c_double pItem; push_temporary value t a
  | ValueType.ArrayString =>
      value ← CreateArray plat c_string pItem; push_temporary value t a
  | ValueType.Vector2 =>
      value ← CreateValue plat c_Vector2 pItem; push_temporary value t a
  | ValueType.Vector3 =>
      value ← CreateValue plat c_Vector3 pItem; push_temporary value t a
  | ValueType.Vector4 =>
      value ← CreateValue plat c_Vector4 pItem; push_temporary value t a
  | ValueType.Matrix4x4 =>
      value ← CreateValue plat c_Matrix4x4 pItem; push_temporary value t a
  | ValueType.Void =>
      (* default: *)
      unsupported_param ;; ret_M (false, a)
  end.

(** [PushObjectAsRefParam]: every supported tag gets a temporary, made by
    [CreateValue<T>] or [CreateArray<T>] with the [T] of [allocation_type]. *)
Definition PushObjectAsRefParam (env : Env) (paramType : Property)
    (pItem : PyObject) (a : ArgsScope) : M (bool * ArgsScope) :=
  let plat := platform env in
  match allocation_type (type paramType) with
  | Some (Scalar T) =>
      value ← CreateValue plat T pItem;
      push_temporary value (type paramType) a
  | Some (VectorOf T) =>
      value ← CreateArray plat T pItem;
      push_temporary value (type paramType) a
  | None =>
      (* default: *)
      unsupported_param ;; ret_M (false, a)
  end.

(** The object behind [std::get<0>(a.storage[index])], read as a [T].  When
    the object there is of another type, the read through the cast is
    behaviour the C++ standard leaves undefined: the model stops with
    [BadFrame] at that point, where the compiled module goes on with
    whatever the bytes of the object mean as a [T]. *)
Definition storage_deref (T : CppType) (a : ArgsScope) (index : nat)
  : M NativeValue :=
  match storage a !! index with
  | None => stop BadFrame
  | Some (p, _) =>
      λ w, match heap w !! p with
           | Some v =>
               if CppType_eqb (cpp_type_of v) T then Ok v w
               else Stop BadFrame
           | None => Stop BadFrame
           end
  end.

(** [StorageValueToObject]: the cast of each case names the type of
    [allocation_type]. *)
Definition StorageValueToObject (paramType : Property) (a : ArgsScope)
    (index : nat) : M (option PyObject) :=
  match allocation_type (type paramType) with
  | Some (Scalar T) =>
      v ← storage_deref (Scalar T) a index; CreatePyObject v
  | Some (VectorOf T) =>
      v ← storage_deref (VectorOf T) a index; CreatePyObjectList v
  | None =>
      (* default: *)
      stop Terminate
  end.

(** [dcCall...(a.vm, addr)]: the native function runs on the pushed
    arguments and the heap; the call is logged. *)
Definition dcCall (env : Env) (a : ArgsScope) (addr : N) : M NativeValue :=
  λ w, let '(r, h) := native_fn env addr (vm a) (heap w) in
       Ok r (set_heap h
               (set_native_calls
                  (native_calls w ++ [{| call_addr := addr;
                                         call_args := vm a |}]) w)).

(** A case of [MakeExternalCall] for an integer type: the returned number
    converted to the declared type. *)
Definition call_integer (env : Env) (T : CType) (a : ArgsScope) (addr : N)
  : M (option PyObject) :=
  r ← dcCall env a addr;
  z ← int_of r;
  CreatePyObject (VInt T (static_cast (int_kind (platform env) T) z)).

(** A case for a type returned through the hidden first argument. *)
Definition call_hidden (env : Env) (T : CppType) (a : ArgsScope) (addr : N)
  : M (option PyObject) :=
  dcCall env a addr ;;
  v ← storage_deref T a 0;
  match T with
  | Scalar _ => CreatePyObject v
  | VectorOf _ => CreatePyObjectList v
  end.

(** A case for a type returned by value in the declared representation. *)
Definition call_value (env : Env) (T : CType) (a : ArgsScope) (addr : N)
  : M (option PyObject) :=
  r ← dcCall env a addr;
  if CppType_eqb (cpp_type_of r) (Scalar T) then CreatePyObject r
  else stop BadFrame.

(** [MakeExternalCall] *)
Definition MakeExternalCall (env : Env) (method : Method) (addr : N)
    (a : ArgsScope) : M (option PyObject) :=
  match type (retType method) with
  | ValueType.Void => dcCall env a addr ;; ret_M (Some PyNone)
  | ValueType.Bool => call_value env c_bool a addr
  | ValueType.Char8 => call_integer env c_char a addr
  | ValueType.Char16 => call_integer env c_char16_t a addr
  | ValueType.Int8 => call_integer env c_int8_t a addr
  | ValueType.Int16 => call_integer env c_int16_t a addr
  | ValueType.Int32 => call_integer env c_int32_t a addr
  | ValueType.Int64 => call_integer env c_int64_t a addr
  | ValueType.UInt8 => call_integer env c_uint8_t a addr
  | ValueType.UInt16 => call_integer env c_uint16_t a addr
  | ValueType.UInt32 => call_integer env c_uint32_t a addr
  | ValueType.UInt64 => call_integer env c_uint64_t a addr
  | ValueType.Pointer =>
      r ← dcCall env a addr;
      match r with
      | VPtr p => CreatePyObject (VInt c_uintptr_t (Z.of_N p))
      | _ => stop BadFrame
      end
  | ValueType.Float => call_value env c_float a addr
  | ValueType.Double => call_value env c_double a addr
  | ValueType.Function =>
      r ← dcCall env a addr;
      match r with
      | VPtr val =>
          prototype ← deref_prototype (retType method);
          GetOrCreateFunctionObject env prototype val
      | _ => stop BadFrame
      end
  | ValueType.String => call_hidden env (Scalar c_string) a addr
  | ValueType.ArrayBool => call_hidden env (VectorOf c_bool) a addr
  | ValueType.ArrayChar8 => call_hidden env (VectorOf c_char) a addr
  | ValueType.ArrayChar16 => call_hidden env (VectorOf c_char16_t) a addr
  | ValueType.ArrayInt8 => call_hidden env (VectorOf c_int8_t) a addr
  | ValueType.ArrayInt16 => call_hidden env (VectorOf c_int16_t) a addr
  | ValueType.ArrayInt32 => call_hidden env (VectorOf c_int32_t) a addr
  | ValueType.ArrayInt64 => call_hidden env (VectorOf c_int64_t) a addr
  | ValueType.ArrayUInt8 => call_hidden env (VectorOf c_uint8_t) a addr
  | ValueType.ArrayUInt16 => call_hidden env (VectorOf c_uint16_t) a addr
  | ValueType.ArrayUInt32 => call_hidden env (VectorOf c_uint32_t) a addr
  | ValueType.ArrayUInt64 => call_hidden env (VectorOf c_uint64_t) a addr
  | ValueType.ArrayPointer => call_hidden env (VectorOf c_uintptr_t) a addr
  | ValueType.ArrayFloat => call_hidden env (VectorOf c_float) a addr
  | ValueType.ArrayDouble => call_hidden env (VectorOf c_double) a addr
  | ValueType.ArrayString => call_hidden env (VectorOf c_string) a addr
  | ValueType.Vector2 => call_value env c_Vector2 a addr
  | ValueType.Vector3 => call_value env c_Vector3 a addr
  | ValueType.Vector4 => call_value env c_Vector4 a addr
  | ValueType.Matrix4x4 => call_value env c_Matrix4x4 a addr
  end.

(** The push loop of [ExternalCall]: each argument goes through
    [PushObjectAsParam] or [PushObjectAsRefParam]; the first failed push
    ends the loop. *)
Fixpoint ExternalCall_push (env : Env) (todo : list (Property * PyObject))
    (refParamsCount : nat) (a : ArgsScope) : M (bool * nat * ArgsScope) :=
  match todo with
  | [] => ret_M (true, refParamsCount, a)
  | (paramType, item) :: rest =>
      let refParamsCount :=
        if ref paramType then S refParamsCount else refParamsCount in
      let pushParamFunc :=
        if ref paramType then PushObjectAsRefParam else PushObjectAsParam in
      '(pushResult, a) ← pushParamFunc env paramType item a;
      if negb pushResult then ret_M (false, refParamsCount, a)
      else ExternalCall_push env rest refParamsCount a
  end.

(** The read-back loop of [ExternalCall]: [j] is the index in the scope's
    storage from which the next reference parameter is read. *)
Fixpoint ExternalCall_read_back (a : ArgsScope) (refParamsCount : nat)
    (todo : list Property) (j k : nat) (retTuple : list PyObject)
  : M (option (list PyObject)) :=
  match todo with
  | [] => ret_M (Some retTuple)
  | paramType :: rest =>
      if negb (ref paramType) then
        ExternalCall_read_back a refParamsCount rest j k retTuple
      else
        value ← StorageValueToObject paramType a (uint8 j);
        match value with
        | None => ret_M None
        | Some v =>
            let retTuple := retTuple ++ [v] in
            let k := S k in
            let j := S j in
            if (refParamsCount + 1 <=? k)%nat then ret_M (Some retTuple)
            else ExternalCall_read_back a refParamsCount rest j k retTuple
        end
  end.

Definition quote : string := String (Ascii.ascii_of_nat 34) EmptyString.

(** The part of [ExternalCall] that runs with the scope alive; the result
    comes with the scope, which the caller destroys. *)
Definition ExternalCall_in_scope (env : Env) (method : Method) (addr : N)
    (items : list PyObject) (paramCount : nat) (a : ArgsScope)
  : M (option PyObject * ArgsScope) :=
  let paramsStartIndex :=
    if ValueUtils.IsObject (type (retType method)) then 1%nat else 0%nat in
  a ← BeginExternalCall method a;
  '(pushResult, refParamsCount, a) ←
    ExternalCall_push env (zip (paramTypes method) items) 0 a;
  if negb pushResult then ret_M (None, a)
  else
    retObj ← MakeExternalCall env method addr a;
    match retObj with
    | None => ret_M (None, a)
    | Some retObj =>
        if negb (refParamsCount =? 0)%nat then
          retTuple ← ExternalCall_read_back a refParamsCount
                       (take paramCount (paramTypes method))
                       paramsStartIndex 1 [retObj];
          match retTuple with
          | None => ret_M (None, a)
          | Some l => ret_M (Some (PyTuple l), a)
          end
        else ret_M (Some retObj, a)
    end.

(** [ExternalCall]: [addr] is the native function carried by the trampoline,
    [args] the script-side argument object; the result is what the
    trampoline hands back to the interpreter, [None] for [nullptr]. *)
Definition ExternalCall (env : Env) (method : Method) (addr : N)
    (args : PyObject) : M (option PyObject) :=
  match args with
  | PyTuple items =>
      let paramCount := uint8 (length (paramTypes method)) in
      let size := length items in
      if negb (size =? paramCount)%nat then
        PyErr_SetString PyExc_TypeError
          ("Wrong number of parameters, " +:+ pretty size +:+ " when "
           +:+ pretty paramCount +:+ " required.") ;;
        ret_M None
      else
        '(result, a) ← ExternalCall_in_scope env method addr items paramCount
                         ArgsScope_new;
        ArgsScope_destroy (storage a) ;;
        ret_M result
  | _ =>
      PyErr_SetString PyExc_TypeError
        ("Function " +:+ quote +:+ funcName method +:+ quote
         +:+ " expects a tuple of arguments") ;;
      ret_M None
  end.

(** [ExternalCallNoArgs] *)
Definition ExternalCallNoArgs (env : Env) (method : Method) (addr : N)
  : M (option PyObject) :=
  a ← BeginExternalCall method ArgsScope_new;
  retObj ← MakeExternalCall env method addr a;
  ArgsScope_destroy (storage a) ;;
  ret_M retObj.

(** ** Worlds, environments and signatures used in the examples *)

Definition initial_world : World :=
  {| locale := C_locale; pyerr := None; printed := [];
     _externalMap := ∅; _internalMap := ∅;
     heap := ∅; next_addr := 4096%N; ret := None; native_calls := [];
     frees := [] |}.

Definition with_heap (cells : list (N * NativeValue)) (w : World) : World :=
  set_heap (list_to_map cells) w.

Definition by_value (t : ValueType.t) : Property := mkProperty t false None.
Definition by_reference (t : ValueType.t) : Property := mkProperty t true None.

Definition signature (params : list Property) (r : ValueType.t) : Method :=
  mkMethod "method" "plugin.method" params (by_value r).

(** A native function that returns zero and touches nothing. *)
Definition idle_native (addr : N) (args : list NativeValue)
    (h : gmap N NativeValue) : NativeValue * gmap N NativeValue :=
  (VInt c_int 0, h).

(** An environment on [plat] in which every script callable returns
    [result] and every signature has a trampoline. *)
Definition returning (plat : Platform) (result : PyObject) : Env :=
  {| platform := plat;
     py_call := λ _ _, inl result;
     jit_supported := λ _, true;
     jit_error := λ _, "";
     native_fn := idle_native |}.

(** An environment for outbound calls to the native function [f]. *)
Definition calling (plat : Platform)
    (f : list NativeValue → gmap N NativeValue →
         NativeValue * gmap N NativeValue) : Env :=
  {| platform := plat;
     py_call := λ _ _, inl PyNone;
     jit_supported := λ _, true;
     jit_error := λ _, "";
     native_fn := λ _, f |}.

(** The outcome of a computation started in a world. *)
Definition result_of {A} (r : Res A) : option A :=
  match r with Ok a _ => Some a | Stop _ => None end.
Definition world_of {A} (r : Res A) : option World :=
  match r with Ok _ w => Some w | Stop _ => None end.

(** ** What the design asks of a fallback *)






(** The frame-independent data of an inbound call: the start index of the
    declared parameters and the parameters the loops walk. *)
Definition paramsStartIndex_of (env : Env) (method : Method) : nat :=
  if ValueUtils.IsHiddenParam (platform env) (type (retType method))
  then 1%nat else 0%nat.
Definition walked_params (method : Method) : list Property :=
  take (uint8 (length (paramTypes method))) (paramTypes method).

(** The element the return conversion works on. *)
Definition return_object (refParamsCount : nat) (result : PyObject)
  : option PyObject :=
  if (refParamsCount =? 0)%nat then Some result
  else match result with
       | PyTuple items => items !! 0%nat
       | _ => None
       end.

(** The result has the shape the reference parameters ask for. *)
Definition well_shaped (refParamsCount : nat) (result : PyObject) : bool :=
  (refParamsCount =? 0)%nat ||
  match result with
  | PyTuple items => (length items =? 1 + refParamsCount)%nat
  | _ => false
  end.

(** The exception is [SystemExit]. *)
Definition is_exit (e : PyErr) : bool :=
  match exc e with PyExc_SystemExit => true | _ => false end.

(** The pending exception is [SystemExit]: [PyErr_Print] called in this
    world ends the process. *)
Definition exit_pending (w : World) : bool :=
  match pyerr w with
  | Some e => is_exit e
  | None => false
  end.

(** The failures of an inbound call that are answered with the fallback:
    an argument does not convert, the script callable raises, the result
    has the wrong shape, or the converter of the primary result refuses it
    ([SetReturn] answers [false]); and the exception that is then handed
    to [PyErr_Print] is not [SystemExit]. *)
Inductive inbound_failure (env : Env) (method : Method) (func : PyObject)
    (params : Parameters) (w : World) : Prop :=
| argument_conversion_failed pr n l w1 :
    InternalCall_arguments env params (paramsStartIndex_of env method)
      (walked_params method) 0 0 [] w = Ok (pr, n, l) w1 →
    pr ≠ NoError →
    exit_pending w1 = false →
    inbound_failure env method func params w
| invocation_failed n l w1 e :
    InternalCall_arguments env params (paramsStartIndex_of env method)
      (walked_params method) 0 0 [] w = Ok (NoError, n, l) w1 →
    py_call env func l = inr e →
    exc e ≠ PyExc_SystemExit →
    inbound_failure env method func params w
| result_shape_wrong n l w1 r :
    InternalCall_arguments env params (paramsStartIndex_of env method)
      (walked_params method) 0 0 [] w = Ok (NoError, n, l) w1 →
    py_call env func l = inl r →
    well_shaped n r = false →
    inbound_failure env method func params w
| return_conversion_failed n l w1 r items returnObject w2 w3 :
    InternalCall_arguments env params (paramsStartIndex_of env method)
      (walked_params method) 0 0 [] w = Ok (NoError, n, l) w1 →
    py_call env func l = inl r →
    well_shaped n r = true →
    return_object n r = Some returnObject →
    (if (n =? 0)%nat then w2 = w1
     else r = PyTuple items ∧
          InternalCall_write_back (platform env) params
            (paramsStartIndex_of env method) items n
            (walked_params method) 0 0 w1 = Ok tt w2) →
    SetReturn env returnObject (retType method) params w2 = Ok false w3 →
    exit_pending w3 = false →
    inbound_failure env method func params w.

(** ** Scenarios *)

(** A callable that adds one to its integer argument. *)
Definition add_one (plat : Platform) : Env :=
  {| platform := plat;
     py_call := λ _ args,
       match args with
       | [PyLong z] => inl (PyLong (z + 1))
       | _ => inr {| exc := PyExc_TypeError; msg := "add_one" |}
       end;
     jit_supported := λ _, true;
     jit_error := λ _, "";
     native_fn := idle_native |}.

(** The native length function of a [(String) -> Int32] method. *)
Definition native_length (args : list NativeValue) (h : gmap N NativeValue)
  : NativeValue * gmap N NativeValue :=
  match args with
  | [VPtr p] =>
      match h !! p with
      | Some (VString bytes) => (VInt c_int (Z.of_nat (length bytes)), h)
      | _ => (VInt c_int (-1), h)
      end
  | _ => (VInt c_int (-1), h)
  end.

(** A native function of two pointer arguments that stores the one-letter
    string [Z] through the second. *)
Definition native_store_second (args : list NativeValue)
    (h : gmap N NativeValue) : NativeValue * gmap N NativeValue :=
  match args with
  | [_; VPtr p] => (VInt c_int 0, <[p := VString [90%Z]]> h)
  | _ => (VInt c_int 0, h)
  end.

Definition int32_to_int32 : Method :=
  signature [by_value ValueType.Int32] ValueType.Int32.
Definition string_to_int32 : Method :=
  signature [by_value ValueType.String] ValueType.Int32.
Definition int32_ref_to_void : Method :=
  signature [by_reference ValueType.Int32] ValueType.Void.
Definition two_int32_refs_to_int32 : Method :=
  signature [by_reference ValueType.Int32; by_reference ValueType.Int32]
            ValueType.Int32.
Definition int32_ref_to_bool_array : Method :=
  signature [by_reference ValueType.Int32] ValueType.ArrayBool.
Definition matrix_ref_to_void : Method :=
  signature [by_reference ValueType.Matrix4x4] ValueType.Void.
Definition string_and_string_ref_to_void : Method :=
  signature [by_value ValueType.String; by_reference ValueType.String]
            ValueType.Void.
Definition int8_array_to_void : Method :=
  signature [by_value ValueType.ArrayInt8] ValueType.Void.
Definition char8_to_void : Method :=
  signature [by_value ValueType.Char8] ValueType.Void.

(** The matrix in the native slot of the write-back scenario: entries 1
    to 16. *)
Definition old_matrix : NativeValue :=
  VMatrix4x4 (map (λ i, FloatBits (Z.of_nat i)) (seq 1 16)).

Definition matrix_row_object (k : Z) : PyObject :=
  PyList (map (λ i, PyFloat (DoubleBits (k + Z.of_nat i))) (seq 0 4)).

(** The script matrix the callable hands back for it: rows starting at
    100, 200, 300 and 400. *)
Definition new_matrix_object : PyObject :=
  PyInstance Matrix4x4Type
    [("elements", PyList [matrix_row_object 100; matrix_row_object 200;
                          matrix_row_object 300; matrix_row_object 400])].

Definition TypeError (message : string) : PyErr :=
  {| exc := PyExc_TypeError; msg := message |}.

(** ** Tables read off the converters *)

(** The number a script float holds: a [float] itself or an instance of a
    subclass of [float], the objects [PyFloat_Check] accepts. *)
Definition float_value (o : PyObject) : option double :=
  match o with
  | PyFloat d | PyFloatSubclass d => Some d
  | _ => None
  end.

(** The attribute of that name, when it is a script float. *)
Definition float_attribute (attr_name : string)
    (attrs : list (string * PyObject)) : option double :=
  assoc_lookup attr_name attrs ≫= float_value.

(** The two floating-point tags and the C type of their slots. *)
Definition is_floating (t : ValueType.t) : bool :=
  match t with
  | ValueType.Float | ValueType.Double => true
  | _ => false
  end.
Definition floating_ctype (t : ValueType.t) : CType :=
  match t with ValueType.Float => c_float | _ => c_double end.

(** The native value a floating-point slot receives for the number [d]:
    narrowed by [static_cast<float>] in a [Float] slot, unchanged in a
    [Double] slot. *)
Definition floating_native (t : ValueType.t) (d : double) : NativeValue :=
  match t with
  | ValueType.Float => VFloat (FloatOfDouble d)
  | _ => VDouble d
  end.

(** The integer targets of [ValueFromNumberObject] with the result type of
    the extractor each specialisation passes. *)
Definition integer_extractor (T : CType) : option CType :=
  match T with
  | c_int8_t | c_int16_t | c_int32_t => Some c_long
  | c_int64_t => Some c_longlong
  | c_uint8_t | c_uint16_t | c_uint32_t => Some c_ulong
  | c_uint64_t | c_uintptr_t => Some c_ulonglong
  | _ => None
  end.

(** The integer tags and the C type of their slots. *)
Definition integer_ctype (t : ValueType.t) : option CType :=
  match t with
  | ValueType.Int8 => Some c_int8_t
  | ValueType.Int16 => Some c_int16_t
  | ValueType.Int32 => Some c_int32_t
  | ValueType.Int64 => Some c_int64_t
  | ValueType.UInt8 => Some c_uint8_t
  | ValueType.UInt16 => Some c_uint16_t
  | ValueType.UInt32 => Some c_uint32_t
  | ValueType.UInt64 => Some c_uint64_t
  | _ => None
  end.

(** The number of reference parameters of a signature. *)
Definition refCount (method : Method) : nat :=
  length (List.filter ref (paramTypes method)).

(** A computation [reports] its failures when, whatever it returns, it has
    issued no native call, and a result that counts as [failed] comes with
    a pending exception. *)
Definition reports {A} (failed : A → bool) (m : M A) : Prop :=
  ∀ w a w', m w = Ok a w' →
            native_calls w' = native_calls w ∧
            (failed a = true → pyerr w' ≠ None).

Definition no_value {A} (o : option A) : bool :=
  match o with None => true | Some _ => false end.
Definition null (p : N) : bool := (p =? 0)%N.
Definition push_failed (r : bool * ArgsScope) : bool := negb r.1.
Definition never {A} (a : A) : bool := false.

(** Every temporary of the scope carries a tag the destructor has a case
    for. *)
Definition deletable (a : ArgsScope) : Prop :=
  Forall (λ entry : N * ValueType.t, delete_type entry.2 ≠ None) (storage a).

(** What a computation returns satisfies [Q]. *)
Definition yields {A} (Q : A → Prop) (m : M A) : Prop :=
  ∀ w a w', m w = Ok a w' → Q a.

(** The scope [a'] is [a] after pushes that filed temporaries under
    deletable tags only. *)
Definition extends (a a' : ArgsScope) : Prop :=
  deletable a → deletable a'.

(** The failures of an outbound call before the native function is
    reached: the argument object is not a tuple, the number of arguments
    is not the number of declared parameters, or a push reports failure. *)
Inductive outbound_marshaling_failure (env : Env) (method : Method)
    (args : PyObject) (w : World) : Prop :=
| arguments_not_a_tuple :
    PyTuple_Check args = false →
    outbound_marshaling_failure env method args w
| wrong_number_of_arguments items :
    args = PyTuple items →
    length items ≠ length (paramTypes method) →
    outbound_marshaling_failure env method args w
| push_reported_failure items a0 w0 n a1 w1 :
    args = PyTuple items →
    length items = length (paramTypes method) →
    BeginExternalCall method ArgsScope_new w = Ok a0 w0 →
    ExternalCall_push env (zip (paramTypes method) items) 0 a0 w0
    = Ok (false, n, a1) w1 →
    outbound_marshaling_failure env method args w.


(** ** [std::string] *)

(** A [std::string] that the module searches or edits is the list of its
    characters; [None] stands for [std::string::npos]. *)

(** The first position at which [from] starts in [str]. *)
Fixpoint find_prefix (from str : list ascii) : option nat :=
  if bool_decide (from `prefix_of` str) then Some 0%nat
  else match str with
       | [] => None
       | _ :: rest => S <$> find_prefix from rest
       end.

(** [str.find(from, pos)] *)
Definition string_find (str from : list ascii) (pos : nat) : option nat :=
  if bool_decide (pos ≤ length str)%nat
  then (λ i, pos + i)%nat <$> find_prefix from (drop pos str)
  else None.

(** [str.replace(pos, len, to)] for a range that lies inside the string. *)
Definition string_replace (str : list ascii) (pos len : nat) (to : list ascii)
  : list ascii :=
  take pos str ++ to ++ drop (pos + len) str.

(** [str.find_first_of(chars)] *)
Fixpoint find_first_of (str chars : list ascii) : option nat :=
  match str with
  | [] => None
  | ch :: rest =>
      if bool_decide (ch ∈ chars) then Some 0%nat
      else S <$> find_first_of rest chars
  end.

(** [str.find_last_of(ch)] *)
Fixpoint find_last_of (str : list ascii) (ch : ascii) : option nat :=
  match str with
  | [] => None
  | c :: rest =>
      match find_last_of rest ch with
      | Some i => Some (S i)
      | None => if bool_decide (c = ch) then Some 0%nat else None
      end
  end.

(** The loop of [ReplaceAll]: [fuel] bounds the number of iterations, and
    [None] is a loop that has not ended within the bound. *)
Fixpoint ReplaceAll_loop (fuel : nat) (str from to : list ascii)
    (start_pos : nat) : option (list ascii) :=
  match fuel with
  | O => None
  | S fuel =>
      match string_find str from start_pos with
      | None => Some str
      | Some start_pos =>
          ReplaceAll_loop fuel
            (string_replace str start_pos (length from) to) from to
            (start_pos + length to)
      end
  end.

(** [ReplaceAll] *)
Definition ReplaceAll (fuel : nat) (str from to : list ascii)
  : option (list ascii) :=
  ReplaceAll_loop fuel str from to 0.

(** ** The plugin life cycle *)

(** The part of [plugify::IPlugin] and of its descriptor that the module
    reads: the plugin's name, the entry point and the exported signatures
    of its descriptor, and the methods the host has for it, each a name
    with the address of its native entry. *)
Record PluginDescriptor : Type := {
  entryPoint : string;
  exportedMethods : list Method
}.
Record IPlugin : Type := {
  GetName : string;
  GetDescriptor : PluginDescriptor;
  GetMethods : list (string * N)
}.

Module Severity.
Inductive t : Type := Fatal | Error | Verbose.
End Severity.

(** What [OnPluginLoad] answers: [ErrorData] with its message, or
    [LoadResultData] with the exported methods and their addresses. *)
Inductive LoadResult : Type :=
| ErrorData (error : string)
| LoadResultData (methods : list (string * N)).

(** Modelled from the spec: [PluginData] is declared in the module's header.
    Its members are named as [Shutdown] and [TryCallPluginMethodNoArgs] read
    them, and [try_emplace] fills them in the order module, instance.
    [_instance] is tested for null before it is used. *)
Record PluginData : Type := {
  _module : PyObject;
  _instance : option PyObject
}.

(** [PythonMethodData]: the trampoline (by the address [GetFunction]
    returns) and the script callable it calls. *)
Record PythonMethodData : Type := {
  jitFunction : N;
  pythonFunction : PyObject
}.

Record PyMethodDef : Type := {
  ml_name : option string;
  ml_meth : N;
  ml_flags : Z;
  ml_doc : option string
}.

Definition METH_VARARGS : Z := 1.
Definition METH_NOARGS : Z := 4.
Definition METH_STATIC : Z := 32.

(** The members of [Python3LanguageModule] the life cycle works on, and the
    log of the provider. *)
Record Members : Type := {
  _ppsModule : option PyObject;
  _pluginsMap : gmap string PluginData;
  _pythonMethods : list PythonMethodData;
  _moduleMethods : list (list PyMethodDef);
  provider_log : list (Severity.t * string)
}.

Definition set_ppsModule (m : option PyObject) (s : Members) : Members :=
  {| _ppsModule := m; _pluginsMap := _pluginsMap s;
     _pythonMethods := _pythonMethods s; _moduleMethods := _moduleMethods s;
     provider_log := provider_log s |}.
Definition set_pluginsMap (m : gmap string PluginData) (s : Members)
  : Members :=
  {| _ppsModule := _ppsModule s; _pluginsMap := m;
     _pythonMethods := _pythonMethods s; _moduleMethods := _moduleMethods s;
     provider_log := provider_log s |}.
Definition set_pythonMethods (l : list PythonMethodData) (s : Members)
  : Members :=
  {| _ppsModule := _ppsModule s; _pluginsMap := _pluginsMap s;
     _pythonMethods := l; _moduleMethods := _moduleMethods s;
     provider_log := provider_log s |}.
Definition set_moduleMethods (l : list (list PyMethodDef)) (s : Members)
  : Members :=
  {| _ppsModule := _ppsModule s; _pluginsMap := _pluginsMap s;
     _pythonMethods := _pythonMethods s; _moduleMethods := l;
     provider_log := provider_log s |}.

(** [_provider->Log(message, severity)] *)
Definition Log (message : string) (severity : Severity.t) (s : Members)
  : Members :=
  {| _ppsModule := _ppsModule s; _pluginsMap := _pluginsMap s;
     _pythonMethods := _pythonMethods s; _moduleMethods := _moduleMethods s;
     provider_log := provider_log s ++ [(severity, message)] |}.

(** What the life cycle reads from its surroundings besides [Env]: the
    trampoline generator's account of a refusal ([Function::GetError]) and
    the flags of the method definition behind a built-in function object. *)
Record Host : Type := {
  GetError : Method → string;
  ml_flags_of : N → Z
}.

(** *** Script objects of the life cycle *)

(** Modules and classes are objects with attributes.  The class [module]
    of the interpreter takes the first class identifier. *)
Definition PyModule_Type : PyClass := OtherClass 1.

(** [PyMethod_New]: a new method object, [func] bound to [self]. *)
Definition PyMethod_New (func self : PyObject) : M (option PyObject) :=
  p ← fresh_address;
  ret_M (Some (PyMethod p func self)).

(** Assignment in an attribute dictionary: an existing entry is replaced
    where it stands, a new one is added at the end. *)
Fixpoint assoc_set (key : string) (v : PyObject) (l : list (string * PyObject))
  : list (string * PyObject) :=
  match l with
  | [] => [(key, v)]
  | (k, x) :: l' =>
      if String.eqb k key then (k, v) :: l' else (k, x) :: assoc_set key v l'
  end.

(** [PyObject_SetAttrString]: the object after the assignment (objects are
    values in this model, so the caller keeps the new one), null pointer
    included as the source passes it on unchecked; an object without
    attributes raises. *)
Definition PyObject_SetAttrString (o : option PyObject) (attr_name : string)
    (v : PyObject) : M (option PyObject) :=
  match o with
  | None => stop NullDeref
  | Some (PyInstance cls attrs) =>
      ret_M (Some (PyInstance cls (assoc_set attr_name v attrs)))
  | Some o =>
      PyErr_SetString PyExc_AttributeError attr_name ;; ret_M (Some o)
  end.

(** The bytes of a C string. *)
Definition bytes_of (s : string) : list Z :=
  (λ c, Z.of_nat (nat_of_ascii c)) <$> list_ascii_of_string s.

(** [PyModule_New]: a module object with the attributes every new module
    has; null with [UnicodeDecodeError] raised when the name is not UTF-8. *)
Definition PyModule_New (module_name : string) : M (option PyObject) :=
  nameobj ← PyUnicode_FromStringAndSize (bytes_of module_name);
  match nameobj with
  | None => ret_M None
  | Some nameobj =>
      ret_M (Some (PyInstance PyModule_Type
                     [("__name__", nameobj); ("__doc__", PyNone);
                      ("__package__", PyNone); ("__loader__", PyNone);
                      ("__spec__", PyNone)]))
  end.

(** The functions [PyModule_Create] adds to the new module: one built-in
    function object per entry of the table, up to the sentinel. *)
Fixpoint PyModule_AddFunctions (module : PyObject) (defs : list PyMethodDef)
  : M (option PyObject) :=
  match defs with
  | [] => ret_M (Some module)
  | def :: rest =>
      match ml_name def with
      | None => ret_M (Some module)
      | Some fname =>
          p ← fresh_address;
          module ← PyObject_SetAttrString (Some module) fname (PyCFunction p);
          match module with
          | None => ret_M None
          | Some module => PyModule_AddFunctions module rest
          end
      end
  end.

(** [PyModule_Create] for a definition with a name and a method table. *)
Definition PyModule_Create (m_name : string) (m_methods : list PyMethodDef)
  : M (option PyObject) :=
  module ← PyModule_New m_name;
  match module with
  | None => ret_M None
  | Some module => PyModule_AddFunctions module m_methods
  end.

(** [IsStaticMethod] *)
Definition IsStaticMethod (host : Host) (obj : PyObject) : bool :=
  match obj with
  | PyCFunction p => negb (Z.land (ml_flags_of host p) METH_STATIC =? 0)%Z
  | _ => false
  end.

(** [CreateInternalCall]: whether a trampoline was generated, and its
    address. *)
Definition CreateInternalCall (env : Env) (method : Method) (func : PyObject)
  : M (bool * N) :=
  methodAddr ← GetJitFunc env method;
  ret_M (negb (methodAddr =? 0)%N, methodAddr).

Inductive MethodExportResult : Type :=
| MethodExportError (error : string)
| MethodExportData (data : PythonMethodData).

(** [GenerateMethodExport] *)
Definition GenerateMethodExport (env : Env) (host : Host) (method : Method)
    (pluginModule pluginInstance : PyObject) : M MethodExportResult :=
  let funcName_ := list_ascii_of_string (funcName method) in
  let '(className, methodName) :=
    match string_find funcName_ ["."%char] 0 with
    | Some pos => (take pos funcName_, drop (pos + 1) funcName_)
    | None => ([], funcName_)
    end in
  let funcIsMethod := negb (bool_decide (className = [])) in
  func ← (if funcIsMethod then
            classType ← PyObject_GetAttrString pluginModule
                          (string_of_list_ascii className);
            match classType with
            | Some classType =>
                PyObject_GetAttrString classType
                  (string_of_list_ascii methodName)
            | None => ret_M None
            end
          else PyObject_GetAttrString pluginModule
                 (string_of_list_ascii methodName));
  match func with
  | None =>
      ret_M (MethodExportError
               (name method +:+ " (Not found '" +:+ funcName method
                +:+ "' in module)"))
  | Some func =>
      if negb (PyFunction_Check func) then
        ret_M (MethodExportError
                 (name method +:+ " ('" +:+ funcName method
                  +:+ "' not function type)"))
      else
        bound ← (if funcIsMethod && negb (IsStaticMethod host func)
                 then PyMethod_New func pluginInstance
                 else ret_M (Some func));
        match bound with
        | None =>
            ret_M (MethodExportError (name method +:+ " (instance bind fail)"))
        | Some func =>
            '(result, function) ← CreateInternalCall env method func;
            if negb result then
              ret_M (MethodExportError
                       (name method +:+ " (jit error: "
                        +:+ GetError host method +:+ ")"))
            else
              ret_M (MethodExportData
                       {| jitFunction := function; pythonFunction := func |})
        end
  end.

(** The checks [OnPluginLoad] makes on the entry point before it looks for
    the file: the error it answers with, or the class name and the module
    path the entry point splits into. *)
Definition OnPluginLoad_entry_point (plugin : IPlugin)
  : string + list ascii * list ascii :=
  let entryPoint_ := list_ascii_of_string (entryPoint (GetDescriptor plugin)) in
  if bool_decide (entryPoint_ = []) then
    inl "Incorrect entry point: empty"
  else if bool_decide
            (is_Some (find_first_of entryPoint_ ["/"%char; "\"%char])) then
    inl "Incorrect entry point: contains '/' or '\'"
  else
    match find_last_of entryPoint_ "."%char with
    | None => inl "Incorrect entry point: not have any dot '.' character"
    | Some lastDotPos =>
        let className := drop (lastDotPos + 1) entryPoint_ in
        if bool_decide (className = []) then
          inl "Incorrect entry point: empty class name part"
        else
          let modulePathRel := take lastDotPos entryPoint_ in
          if bool_decide (modulePathRel = []) then
            inl "Incorrect entry point: empty module path part"
          else inr (className, modulePathRel)
    end.

(** The export loop of [OnPluginLoad]: every exported method goes through
    [GenerateMethodExport]; the errors and the generated methods are
    collected in order. *)
Fixpoint OnPluginLoad_generate (env : Env) (host : Host)
    (todo : list Method) (pluginModule pluginInstance : PyObject)
    (exportResult : bool) (exportErrors : list string)
    (methodsHolders : list (Method * PythonMethodData))
  : M (bool * list string * list (Method * PythonMethodData)) :=
  match todo with
  | [] => ret_M (exportResult, exportErrors, methodsHolders)
  | method :: rest =>
      generateResult ← GenerateMethodExport env host method pluginModule
                         pluginInstance;
      match generateResult with
      | MethodExportError data =>
          OnPluginLoad_generate env host rest pluginModule pluginInstance
            false (exportErrors ++ [data]) methodsHolders
      | MethodExportData data =>
          OnPluginLoad_generate env host rest pluginModule pluginInstance
            exportResult exportErrors (methodsHolders ++ [(method, data)])
      end
  end.

(** The registration loop of [OnPluginLoad]. *)
Fixpoint OnPluginLoad_register
    (methodsHolders : list (Method * PythonMethodData))
    (methods : list (string * N)) (s : Members)
  : M (list (string * N) * Members) :=
  match methodsHolders with
  | [] => ret_M (methods, s)
  | (method, methodData) :: rest =>
      let methodAddr := jitFunction methodData in
      AddToFunctionsMap methodAddr (pythonFunction methodData) ;;
      OnPluginLoad_register rest (methods ++ [(name method, methodAddr)])
        (set_pythonMethods (_pythonMethods s ++ [methodData]) s)
  end.

(** [std::format_to(..., ", {}", *it)] over the errors after the first. *)
Fixpoint format_errors (errorString : string) (errors : list string)
  : string :=
  match errors with
  | [] => errorString
  | e :: rest => format_errors (errorString +:+ ", " +:+ e) rest
  end.

(** [OnPluginLoad] from the point where the plugin's module and instance
    exist: the export of its methods and their registration. *)
Definition OnPluginLoad_export (env : Env) (host : Host) (plugin : IPlugin)
    (pluginModule pluginInstance : PyObject) (s : Members)
  : M (LoadResult * Members) :=
  if bool_decide (is_Some (_pluginsMap s !! GetName plugin)) then
    ret_M (ErrorData "Plugin name duplicate", s)
  else
    '(exportResult, exportErrors, methodsHolders) ←
      OnPluginLoad_generate env host
        (exportedMethods (GetDescriptor plugin)) pluginModule pluginInstance
        true [] [];
    if negb exportResult then
      match exportErrors with
      | [] => stop BadFrame
      | first :: others =>
          ret_M (ErrorData
                   (format_errors ("Methods export error(s): " +:+ first)
                      others), s)
      end
    else
      match _pluginsMap s !! GetName plugin with
      | Some _ => ret_M (ErrorData "Save plugin data to map unsuccessful", s)
      | None =>
          let s :=
            set_pluginsMap
              (<[GetName plugin := {| _module := pluginModule;
                                      _instance := Some pluginInstance |}]>
                 (_pluginsMap s)) s in
          '(methods, s) ← OnPluginLoad_register methodsHolders [] s;
          ret_M (LoadResultData methods, s)
      end.

(** [Python3LanguageModule::FindPythonMethod] *)
Fixpoint FindPythonMethod (_pythonMethods : list PythonMethodData) (addr : N)
  : option PyObject :=
  match _pythonMethods with
  | [] => None
  | data :: rest =>
      if (jitFunction data =? addr)%N then Some (pythonFunction data)
      else FindPythonMethod rest addr
  end.

(** The first exported method with the given name. *)
Fixpoint find_exported (method_name : string) (exported : list Method)
  : option Method :=
  match exported with
  | [] => None
  | method :: rest =>
      if String.eqb method_name (name method) then Some method
      else find_exported method_name rest
  end.

(** The loop of [CreateInternalModule] over the plugin's methods. *)
Fixpoint CreateInternalModule_loop (plugin : IPlugin) (s : Members)
    (todo : list (string * N)) (moduleObject : option PyObject)
  : M (option PyObject) :=
  match todo with
  | [] => ret_M moduleObject
  | (method_name, addr) :: rest =>
      match find_exported method_name (exportedMethods (GetDescriptor plugin))
      with
      | Some _ =>
          match FindPythonMethod (_pythonMethods s) addr with
          | None => stop Terminate
          | Some methodObject =>
              moduleObject ← PyObject_SetAttrString moduleObject method_name
                               methodObject;
              CreateInternalModule_loop plugin s rest moduleObject
          end
      | None => CreateInternalModule_loop plugin s rest moduleObject
      end
  end.

(** [Python3LanguageModule::CreateInternalModule] *)
Definition CreateInternalModule (plugin : IPlugin) (s : Members)
  : M (option PyObject) :=
  if negb (bool_decide (is_Some (_pluginsMap s !! GetName plugin))) then
    ret_M None
  else
    moduleObject ← PyModule_New (GetName plugin);
    CreateInternalModule_loop plugin s (GetMethods plugin) moduleObject.

(** The entry that closes a method table: every field null. *)
Definition sentinel : PyMethodDef :=
  {| ml_name := None; ml_meth := 0%N; ml_flags := 0%Z; ml_doc := None |}.

(** The loop of [CreateExternalModule]: a trampoline and a table entry for
    every method of the plugin that has an exported signature; a method
    whose trampoline is refused gets no entry. *)
Fixpoint CreateExternalModule_loop (env : Env) (plugin : IPlugin)
    (todo : list (string * N)) (moduleMethods : list PyMethodDef)
  : M (list PyMethodDef) :=
  match todo with
  | [] => ret_M moduleMethods
  | (method_name, addr) :: rest =>
      match find_exported method_name (exportedMethods (GetDescriptor plugin))
      with
      | Some method =>
          let noArgs := bool_decide (paramTypes method = []) in
          methodAddr ← GetJitFunc env method;
          if (methodAddr =? 0)%N then
            CreateExternalModule_loop env plugin rest moduleMethods
          else
            CreateExternalModule_loop env plugin rest
              (moduleMethods ++
               [{| ml_name := Some method_name; ml_meth := methodAddr;
                   ml_flags := if noArgs then METH_NOARGS else METH_VARARGS;
                   ml_doc := None |}])
      | None => CreateExternalModule_loop env plugin rest moduleMethods
      end
  end.

(** [Python3LanguageModule::CreateExternalModule] *)
Definition CreateExternalModule (env : Env) (plugin : IPlugin) (s : Members)
  : M (option PyObject * Members) :=
  moduleMethods ← CreateExternalModule_loop env plugin (GetMethods plugin) [];
  let moduleMethods := moduleMethods ++ [sentinel] in
  let s := set_moduleMethods (_moduleMethods s ++ [moduleMethods]) s in
  moduleObject ← PyModule_Create (GetName plugin) moduleMethods;
  ret_M (moduleObject, s).

(** [Python3LanguageModule::OnMethodExport] *)
Definition OnMethodExport (env : Env) (plugin : IPlugin) (s : Members)
  : M Members :=
  let failed s :=
    ret_M (Log ("[py3lm] Fail to export '" +:+ GetName plugin
                +:+ "' plugin methods") Severity.Error s) in
  match _ppsModule s with
  | Some ppsModule =>
      moduleObject ← CreateInternalModule plugin s;
      '(moduleObject, s) ←
        match moduleObject with
        | Some _ => ret_M (moduleObject, s)
        | None => CreateExternalModule env plugin s
        end;
      match moduleObject with
      | Some moduleObject =>
          ppsModule ← PyObject_SetAttrString (Some ppsModule) (GetName plugin)
                        moduleObject;
          ret_M (set_ppsModule ppsModule s)
      | None => failed s
      end
  | None => failed s
  end.

(** [PyObject_HasAttr]: whether the attribute can be read; what the lookup
    raises is swallowed. *)
Definition PyObject_HasAttr (o : PyObject) (attr_name : string) : bool :=
  match o with
  | PyInstance _ attrs =>
      match assoc_lookup attr_name attrs with Some _ => true | None => false end
  | _ => false
  end.

(** [PyObject_CallMethodNoArgs]: the attribute is read and called with no
    arguments. *)
Definition PyObject_CallMethodNoArgs (env : Env) (o : PyObject)
    (attr_name : string) : M (option PyObject) :=
  method ← PyObject_GetAttrString o attr_name;
  match method with
  | None => ret_M None
  | Some method => PyObject_CallObject env method []
  end.

(** [Python3LanguageModule::TryCallPluginMethodNoArgs].  The name of the
    hook is one of the two literals of [OnPluginStart] and [OnPluginEnd],
    which [PyUnicode_DecodeFSDefault] always decodes, so the branch for a
    name string that could not be made is not taken. *)
Definition TryCallPluginMethodNoArgs (env : Env) (plugin : IPlugin)
    (method_name context : string) (s : Members) : M Members :=
  match _pluginsMap s !! GetName plugin with
  | None =>
      ret_M (Log ("[py3lm] " +:+ context +:+ ": plugin '" +:+ GetName plugin
                  +:+ "' not found in map") Severity.Error s)
  | Some pluginData =>
      match _instance pluginData with
      | None =>
          ret_M (Log ("[py3lm] " +:+ context +:+ ": null plugin instance")
                   Severity.Error s)
      | Some instance =>
          if PyObject_HasAttr instance method_name then
            returnObject ← PyObject_CallMethodNoArgs env instance method_name;
            match returnObject with
            | None =>
                PyErr_Print ;;
                ret_M (Log ("[py3lm] " +:+ context +:+ ": call '"
                            +:+ method_name +:+ "' failed") Severity.Error s)
            | Some _ => ret_M s
            end
          else ret_M s
      end
  end.

(** [Python3LanguageModule::OnPluginStart] *)
Definition OnPluginStart (env : Env) (plugin : IPlugin) (s : Members)
  : M Members :=
  TryCallPluginMethodNoArgs env plugin "plugin_start" "OnPluginStart" s.

(** [Python3LanguageModule::OnPluginEnd] *)
Definition OnPluginEnd (env : Env) (plugin : IPlugin) (s : Members)
  : M Members :=
  TryCallPluginMethodNoArgs env plugin "plugin_end" "OnPluginEnd" s.

(** ** What the properties of the life cycle speak of *)

(** The plugin as the host holds it after the load: with the methods
    [OnPluginLoad] handed back. *)
Definition with_methods (plugin : IPlugin) (methods : list (string * N))
  : IPlugin :=
  {| GetName := GetName plugin; GetDescriptor := GetDescriptor plugin;
     GetMethods := methods |}.

(** The entry of the load result for a generated method. *)
Definition registered (holder : Method * PythonMethodData) : string * N :=
  (name holder.1, jitFunction holder.2).

(** An entry of the method table made for a method of the plugin: it is
    named after a method that has an exported signature, holds a trampoline,
    and carries the calling flag of that signature. *)
Definition table_entry_of (plugin : IPlugin) (def : PyMethodDef) : Prop :=
  ∃ n addr method,
    (n, addr) ∈ GetMethods plugin ∧
    find_exported n (exportedMethods (GetDescriptor plugin)) = Some method ∧
    ml_name def = Some n ∧ ml_meth def ≠ 0%N ∧
    ml_flags def = (if bool_decide (paramTypes method = [])
                    then METH_NOARGS else METH_VARARGS) ∧
    ml_doc def = None.

(** The split of [funcName] at its first dot, as [GenerateMethodExport]
    makes it: the class name, empty when there is no dot, and the name of
    the function. *)
Definition class_and_function (method : Method) : list ascii * list ascii :=
  let funcName_ := list_ascii_of_string (funcName method) in
  match string_find funcName_ ["."%char] 0 with
  | Some pos => (take pos funcName_, drop (pos + 1) funcName_)
  | None => ([], funcName_)
  end.

(** The attribute of an object, when it has it. *)
Definition attribute (o : PyObject) (attr_name : list ascii)
  : option PyObject :=
  match o with
  | PyInstance _ attrs => assoc_lookup (string_of_list_ascii attr_name) attrs
  | _ => None
  end.

(** The script callable a signature of the plugin is exported as: the
    function that [funcName] names in the plugin's module, or, for a name
    [Class.function], a method object that binds that function of the
    class to the plugin instance. *)
Definition exported_as (pluginModule pluginInstance : PyObject)
    (method : Method) (f : PyObject) : Prop :=
  ∃ p,
    if bool_decide ((class_and_function method).1 = []) then
      attribute pluginModule (class_and_function method).2
      = Some (PyFunction p) ∧
      f = PyFunction p
    else
      ∃ classType a,
        attribute pluginModule (class_and_function method).1
        = Some classType ∧
        attribute classType (class_and_function method).2
        = Some (PyFunction p) ∧
        f = PyMethod a (PyFunction p) pluginInstance.

(** The methods of the plugin that get an entry in the table of
    [CreateExternalModule]: those with an exported signature for which a
    trampoline is granted, in the order of the plugin's methods. *)
Definition has_entry (env : Env) (plugin : IPlugin) (entry : string * N)
  : bool :=
  match find_exported entry.1 (exportedMethods (GetDescriptor plugin)) with
  | Some method => jit_supported env method
  | None => false
  end.
Definition tabled (env : Env) (plugin : IPlugin) : list (string * N) :=
  List.filter (has_entry env plugin) (GetMethods plugin).

(** The module [OnMethodExport] has to publish: the one
    [CreateInternalModule] makes or, when that makes none, the one
    [CreateExternalModule] makes. *)
Definition made_for (env : Env) (plugin : IPlugin) (s : Members) (w : World)
    (moduleObject : PyObject) : Prop :=
  (∃ w1, CreateInternalModule plugin s w = Ok (Some moduleObject) w1) ∨
  (∃ w1 s2 w2,
     CreateInternalModule plugin s w = Ok None w1 ∧
     CreateExternalModule env plugin s w1 = Ok (Some moduleObject, s2) w2).


(** One character for another. *)
Definition replace_char (c d x : ascii) : ascii :=
  if bool_decide (x = c) then d else x.

(** A script list of rows, each a list: the shape
    [Matrix4x4ValueFromObject] reads. *)
Definition rows_object (rows : list (list PyObject)) : PyObject :=
  PyList (PyList <$> rows).

(** ** Scenarios of the life cycle *)

Definition no_members : Members :=
  {| _ppsModule := None; _pluginsMap := ∅; _pythonMethods := [];
     _moduleMethods := []; provider_log := [] |}.

Definition plain_host : Host :=
  {| GetError := λ _, "unsupported signature"; ml_flags_of := λ _, 0%Z |}.

(** A plugin module with a function [add] and a class [Greeter] that has a
    function [hello], and an instance of the plugin class. *)
Definition greeter_class : PyObject :=
  PyInstance (OtherClass 3) [("hello", PyFunction 11)].
Definition demo_module : PyObject :=
  PyInstance PyModule_Type
    [("add", PyFunction 10); ("Greeter", greeter_class)].
Definition demo_instance : PyObject := PyInstance (OtherClass 7) [].

Definition add_export : Method :=
  mkMethod "Add" "add" [by_value ValueType.Int32] (by_value ValueType.Int32).
Definition hello_export : Method :=
  mkMethod "Hello" "Greeter.hello" [] (by_value ValueType.Void).
Definition gone_export : Method :=
  mkMethod "Gone" "missing" [] (by_value ValueType.Void).
Definition hello_again_export : Method :=
  mkMethod "HelloAgain" "Greeter.hello" [] (by_value ValueType.Void).

Definition demo_plugin (exported : list Method) (methods : list (string * N))
  : IPlugin :=
  {| GetName := "demo";
     GetDescriptor := {| entryPoint := "demo.main.Demo";
                         exportedMethods := exported |};
     GetMethods := methods |}.


(** An instance whose [plugin_start] calls [sys.exit]. *)
Definition exiting_start (plat : Platform) : Env :=
  {| platform := plat;
     py_call := λ _ _, inr {| exc := PyExc_SystemExit; msg := "0" |};
     jit_supported := λ _, true;
     jit_error := λ _, "";
     native_fn := idle_native |}.

(** A trampoline generator that refuses the signature of [Hello]. *)
Definition refusing_hello (plat : Platform) : Env :=
  {| platform := plat;
     py_call := λ _ _, inl PyNone;
     jit_supported := λ method, negb (String.eqb (name method) "Hello");
     jit_error := λ _, "unsupported signature";
     native_fn := idle_native |}.

Definition started_members : Members :=
  set_pluginsMap
    (<["demo" := {| _module := demo_module;
                    _instance := Some (PyInstance (OtherClass 7)
                                         [("plugin_start", PyFunction 12)]) |}]> ∅)
    no_members.

(** * Properties *)

(** ** Tactics *)

Ltac unfold_M :=
  unfold PyErr_SetString, PyErr_SetNone, PyErr_Occurred, get_locale in *;
  unfold mbind, M_bind, bind_M, mret, M_ret, ret_M, modify, stop in *.

Lemma uint8_small n : (n < 256)%nat → uint8 n = n.
Proof. intros H. unfold uint8. by apply Nat.mod_small. Qed.

(** ** The scenarios of the design *)

(** Inbound, no reference parameters: [(Int32) -> Int32] bound to a callable
    that adds one; the native call with 41 returns 42. *)
Example inbound_add_one :
  ret <$> world_of (InternalCall (add_one Linux) int32_to_int32 (PyFunction 1)
                      [VInt c_int32_t 41] initial_world)
  = Some (Some (VInt c_int32_t 42)).
Proof. reflexivity. Qed.

(** Outbound, string argument: [(String) -> Int32] bound to the native
    length function; the script call with [hello] returns 5. *)
Example outbound_length_of_hello :
  result_of (ExternalCall (calling Linux native_length) string_to_int32 500
               (PyTuple [PyUnicode [104; 101; 108; 108; 111]%Z]) initial_world)
  = Some (Some (PyLong 5)).
Proof. vm_compute. reflexivity. Qed.

(** One reference parameter: [(Int32 ref) -> Void], the callable returns
    [(None, 7)]; after the call the native slot of the parameter holds 7. *)
Example inbound_reference_written_back :
  (λ w, heap w !! 16%N) <$>
    world_of (InternalCall (returning Linux (PyTuple [PyNone; PyLong 7]))
                int32_ref_to_void (PyFunction 1) [VPtr 16]
                (with_heap [(16%N, VInt c_int32_t 0)] initial_world))
  = Some (Some (VInt c_int32_t 7)).
Proof. vm_compute. reflexivity. Qed.

(** Array all-or-nothing: the list [[1, 2, "x"]] does not convert to an
    [Int32] array, and no partial array is produced. *)
Example array_all_or_nothing :
  result_of (ArrayFromObject Linux c_int32_t
               (PyList [PyLong 1; PyLong 2; PyUnicode [120%Z]]) initial_world)
  = Some None.
Proof. reflexivity. Qed.

(** ** The function identity cache *)

(** C1 (the code departs from the claim).  For every method and every
    native address that is not in the cache yet: when
    [GetOrCreateFunctionObject] succeeds with the callable [c], the way
    back does not return the address; [GetOrCreateFunctionValue] fails on
    [c] with [TypeError "Not function"].  The wrapper is a built-in
    function object, filed in both maps, and the function check comes
    before the look-up that would find it. *)
Theorem wrapper_of_native_address_is_not_converted_back
    env method funcAddr w c w' :
  _externalMap w !! funcAddr = None →
  GetOrCreateFunctionObject env method funcAddr w = Ok (Some c) w' →
  _externalMap w' !! funcAddr = Some c ∧
  (_internalMap w !! object_address c = None →
   _internalMap w' !! object_address c = Some funcAddr) ∧
  GetOrCreateFunctionValue env method c w'
  = Ok None (set_pyerr (Some (TypeError "Not function")) w').
Proof.
  intros Hnone Hget. unfold GetOrCreateFunctionObject, FindExternal in Hget.
  unfold_M. rewrite Hnone in Hget.
  destruct (GetJitFunc env method w) as [methodAddr w1|] eqn:Hjit;
    [|discriminate].
  assert (Hmaps : _externalMap w1 = _externalMap w
                  ∧ _internalMap w1 = _internalMap w).
  { unfold GetJitFunc, fresh_address in Hjit. unfold_M.
    by destruct (jit_supported env method); injection Hjit as <- <-. }
  destruct Hmaps as [He Hi].
  destruct (methodAddr =? 0)%N; [discriminate|].
  unfold fresh_address, AddToFunctionsMap in Hget. unfold_M.
  injection Hget as <- <-. cbn.
  split; [|split].
  - unfold emplace. rewrite He, Hnone. apply lookup_insert_eq.
  - intros Hfree. unfold emplace. rewrite Hi, Hfree. apply lookup_insert_eq.
  - reflexivity.
Qed.

(** C1, at the native address 100 in the initial world. *)
Lemma wrapper_of_address_100_is_refused :
  let env := returning Linux PyNone in
  _externalMap initial_world !! 100%N = None ∧
  ∃ c w',
    GetOrCreateFunctionObject env int32_to_int32 100 initial_world
    = Ok (Some c) w' ∧
    _externalMap w' !! 100%N = Some c ∧
    GetOrCreateFunctionValue env int32_to_int32 c w'
    = Ok None (set_pyerr (Some (TypeError "Not function")) w').
Proof.
  intros env. split; [reflexivity|].
  destruct (GetOrCreateFunctionObject env int32_to_int32 100 initial_world)
    as [[c|] w'|] eqn:Hget; [|vm_compute in Hget; discriminate..].
  exists c, w'. split; [reflexivity|].
  destruct (wrapper_of_native_address_is_not_converted_back env
              int32_to_int32 100 initial_world c w' eq_refl Hget)
    as (Hfiled & _ & Hrefused).
  split; [exact Hfiled|exact Hrefused].
Defined.

Lemma GetJitFunc_maps env method w methodAddr w1 :
  GetJitFunc env method w = Ok methodAddr w1 →
  _externalMap w1 = _externalMap w ∧ _internalMap w1 = _internalMap w.
Proof.
  unfold GetJitFunc, fresh_address. unfold_M.
  destruct (jit_supported env method); intros [= <- <-]; done.
Qed.

Lemma lookup_emplace_eq {V} (k : N) (v : V) (m : gmap N V) :
  m !! k = None → emplace k v m !! k = Some v.
Proof. intros H. unfold emplace. rewrite H. apply lookup_insert_eq. Qed.

Lemma lookup_emplace_Some {V} (k : N) (v v' : V) (m : gmap N V) :
  m !! k = Some v' → emplace k v m = m.
Proof. intros H. unfold emplace. by rewrite H. Qed.

(** X25.  Identity, native side: asked twice for the same address, the cache
    hands out the same script callable. *)
Lemma same_address_same_callable env method funcAddr w c w' :
  GetOrCreateFunctionObject env method funcAddr w = Ok (Some c) w' →
  GetOrCreateFunctionObject env method funcAddr w' = Ok (Some c) w'.
Proof.
  unfold GetOrCreateFunctionObject, FindExternal. unfold_M.
  destruct (_externalMap w !! funcAddr) as [o|] eqn:Hfind.
  - intros [= <- <-]. rewrite Hfind. reflexivity.
  - destruct (GetJitFunc env method w) as [methodAddr w1|] eqn:Hjit;
      [|discriminate].
    apply GetJitFunc_maps in Hjit as [He _].
    destruct (methodAddr =? 0)%N; [discriminate|].
    unfold fresh_address, AddToFunctionsMap. unfold_M.
    intros [= <- <-]. cbn.
    rewrite lookup_emplace_eq by (by rewrite He). reflexivity.
Qed.

(** X25, at the native address 100 in the initial world. *)
Lemma address_100_gets_the_same_callable_twice :
  let env := returning Linux PyNone in
  ∃ c w',
    GetOrCreateFunctionObject env int32_to_int32 100 initial_world
    = Ok (Some c) w' ∧
    GetOrCreateFunctionObject env int32_to_int32 100 w' = Ok (Some c) w'.
Proof.
  intros env.
  destruct (GetOrCreateFunctionObject env int32_to_int32 100 initial_world)
    as [[c|] w'|] eqn:Hget; [|vm_compute in Hget; discriminate..].
  exists c, w'. split; [reflexivity|].
  apply (same_address_same_callable env int32_to_int32 100 initial_world c w'
           Hget).
Defined.

(** X26.  The other direction of the cache: a script function that got its trampoline
    is found again under the trampoline's address. *)
Lemma script_function_round_trip env method method' p w addr w' :
  _internalMap w !! p = None →
  _externalMap w !! N.succ (next_addr w) = None →
  GetOrCreateFunctionValue env method (PyFunction p) w = Ok (Some addr) w' →
  GetOrCreateFunctionObject env method' addr w'
  = Ok (Some (PyFunction p)) w'.
Proof.
  intros Hi He. unfold GetOrCreateFunctionValue, FindInternal. unfold_M. cbn.
  rewrite Hi. cbn. unfold GetJitFunc, fresh_address. unfold_M.
  destruct (jit_supported env method); cbn; [|discriminate].
  destruct (N.succ (next_addr w) =? 0)%N; [discriminate|].
  unfold AddToFunctionsMap. unfold_M. intros [= <- <-].
  unfold GetOrCreateFunctionObject, FindExternal. unfold_M. cbn.
  by rewrite lookup_emplace_eq.
Qed.

(** X26, at the script function at address 7 in the initial world. *)
Lemma script_function_7_is_found_under_its_trampoline :
  let env := returning Linux PyNone in
  ∃ addr w',
    GetOrCreateFunctionValue env int32_to_int32 (PyFunction 7) initial_world
    = Ok (Some addr) w' ∧
    GetOrCreateFunctionObject env int32_ref_to_void addr w'
    = Ok (Some (PyFunction 7)) w'.
Proof.
  intros env.
  destruct (GetOrCreateFunctionValue env int32_to_int32 (PyFunction 7)
              initial_world)
    as [[addr|] w'|] eqn:Hget; [|vm_compute in Hget; discriminate..].
  exists addr, w'. split; [reflexivity|].
  apply (script_function_round_trip env int32_to_int32 int32_ref_to_void 7
           initial_world addr w'); [reflexivity|reflexivity|exact Hget].
Defined.

(** ** Reference parameters of matrix type *)

(** The matrix's own extractor reads all sixteen entries of the script
    matrix of the scenario. *)
Example matrix_extractor_reads_sixteen :
  result_of (Matrix4x4ValueFromObject new_matrix_object initial_world)
  = Some (Some (VMatrix4x4
       (map (λ z, FloatOfDouble (DoubleBits z))
          [100; 101; 102; 103; 200; 201; 202; 203;
           300; 301; 302; 303; 400; 401; 402; 403]%Z))).
Proof. reflexivity. Qed.

(** C2 (the code departs from the claim).  The write-back of a [Matrix4x4]
    reference parameter goes through the [Vector2] extractor: every script
    matrix is refused with [TypeError "Not Vector2"] and nothing is
    written.  So for the method [(Matrix4x4 ref) -> Void] whose callable
    returns [(None, m)] for the script matrix [m] of the scenario, the
    error is reported and the native slot keeps the old matrix, although
    the matrix's own extractor reads all sixteen entries of [m]. *)
Theorem matrix_reference_written_through_vector2_extractor :
  (∀ plat attrs r proto params index w,
      SetRefParam plat (PyInstance Matrix4x4Type attrs)
        (mkProperty ValueType.Matrix4x4 r proto) params index w
      = Ok false (set_pyerr (Some (TypeError "Not Vector2")) w)) ∧
  let w := with_heap [(16%N, old_matrix)] initial_world in
  ∃ w',
    InternalCall (returning Linux (PyTuple [PyNone; new_matrix_object]))
      matrix_ref_to_void (PyFunction 1) [VPtr 16] w = Ok tt w' ∧
    heap w' !! 16%N = Some old_matrix ∧
    printed w' = [TypeError "Not Vector2"].
Proof.
  split; [reflexivity|].
  eexists. split; [vm_compute; reflexivity|].
  split; vm_compute; reflexivity.
Qed.

(** With a script [Vector2] in the place of the matrix the same write-back
    succeeds and overwrites the first two entries of the native matrix. *)
Example matrix_reference_accepts_a_vector2 :
  let v := PyInstance Vector2Type
             [("x", PyFloat (DoubleBits 7)); ("y", PyFloat (DoubleBits 8))] in
  (λ w, heap w !! 16%N) <$>
    world_of (InternalCall (returning Linux (PyTuple [PyNone; v]))
                matrix_ref_to_void (PyFunction 1) [VPtr 16]
                (with_heap [(16%N, old_matrix)] initial_world))
  = Some (Some (VMatrix4x4
       (FloatOfDouble (DoubleBits 7) :: FloatOfDouble (DoubleBits 8)
        :: map (λ i, FloatBits (Z.of_nat i)) (seq 3 14)))).
Proof. vm_compute. reflexivity. Qed.

(** ** Integers *)

Lemma static_cast_in_range k z :
  (0 < bits k)%Z → (int_min k ≤ z ≤ int_max k)%Z → static_cast k z = z.
Proof.
  unfold static_cast, int_min, int_max. intros Hb Hz.
  assert (Hp : (2 ^ bits k = 2 * 2 ^ (bits k - 1))%Z).
  { rewrite <- Z.pow_succ_r by lia. f_equal. lia. }
  assert (0 < 2 ^ (bits k - 1))%Z by (apply Z.pow_pos_nonneg; lia).
  destruct (signed k); cbn.
  - destruct (Z.neg_nonneg_cases z) as [Hneg|Hpos].
    + rewrite <- (Z.mod_unique z (2 ^ bits k) (-1) (z + 2 ^ bits k)); [|lia|lia].
      destruct (Z.leb_spec (2 ^ (bits k - 1)) (z + 2 ^ bits k)); lia.
    + rewrite Z.mod_small by lia.
      destruct (Z.leb_spec (2 ^ (bits k - 1)) z); lia.
  - rewrite Z.mod_small by lia. reflexivity.
Qed.

(** The extractor's result type covers the range of the target. *)
Lemma extractor_covers plat T ct :
  integer_extractor T = Some ct →
  (0 < bits (int_kind plat ct))%Z ∧
  (0 < bits (int_kind plat T))%Z ∧
  (int_min (int_kind plat ct) ≤ int_min (int_kind plat T))%Z ∧
  (int_max (int_kind plat T) ≤ int_max (int_kind plat ct))%Z ∧
  (int_min (int_kind plat T) ≤ int_max (int_kind plat T))%Z.
Proof.
  intros HT.
  destruct T; try discriminate; injection HT as <-; destruct plat;
    vm_compute; intuition congruence.
Qed.

Lemma ValueFromObject_integer plat T ct object :
  integer_extractor T = Some ct →
  ValueFromObject plat T object = ValueFromNumberObject plat T ct object.
Proof. destruct T; try discriminate; intros [= <-]; reflexivity. Qed.

(** An integer inside the range of the target converts to itself when no
    exception is pending. *)
Lemma integer_in_range_converts plat T ct z w :
  integer_extractor T = Some ct →
  (int_min (int_kind plat T) ≤ z ≤ int_max (int_kind plat T))%Z →
  pyerr w = None →
  ValueFromObject plat T (PyLong z) w = Ok (Some (VInt T z)) w.
Proof.
  intros HT Hz Hw. rewrite (ValueFromObject_integer _ _ _ _ HT).
  destruct (extractor_covers plat T ct HT) as (Hbc & Hbt & Hmin & Hmax & _).
  unfold ValueFromNumberObject, PyLong_As. unfold_M. cbn.
  destruct (Z.leb_spec (int_min (int_kind plat ct)) z); [|lia].
  destruct (Z.leb_spec z (int_max (int_kind plat ct))); [|lia].
  cbn. rewrite Hw. cbn.
  rewrite !static_cast_in_range by lia.
  rewrite Z.geb_leb.
  destruct (Z.leb_spec z (int_max (int_kind plat T))); [|lia].
  destruct (Z.leb_spec (int_min (int_kind plat T)) z); [|lia].
  reflexivity.
Qed.

(** An integer outside the range of the target is refused, whatever the
    world: nothing is returned and the exception left pending is
    [TypeError "Not integer"], the [OverflowError] raised on the way being
    replaced by it. *)
Lemma integer_out_of_range_refused plat T ct z w :
  integer_extractor T = Some ct →
  (z < int_min (int_kind plat T) ∨ int_max (int_kind plat T) < z)%Z →
  ValueFromObject plat T (PyLong z) w
  = Ok None (set_pyerr (Some (TypeError "Not integer")) w).
Proof.
  intros HT Hz. rewrite (ValueFromObject_integer _ _ _ _ HT).
  destruct (extractor_covers plat T ct HT) as (Hbc & Hbt & Hmin & Hmax & Hle).
  unfold ValueFromNumberObject, PyLong_As. unfold_M. cbn.
  destruct ((int_min (int_kind plat ct) <=? z)%Z
            && (z <=? int_max (int_kind plat ct))%Z) eqn:Hin; cbn.
  - destruct (pyerr w) eqn:Hw; cbn; [reflexivity|].
    rewrite !static_cast_in_range by lia.
    rewrite Z.geb_leb.
    destruct (Z.leb_spec z (int_max (int_kind plat T)));
      destruct (Z.leb_spec (int_min (int_kind plat T)) z); try lia;
      reflexivity.
  - reflexivity.
Qed.

(** C4 (the code departs from the claim).  For every integer return type,
    on every platform, a script integer outside the range of the type is
    refused and the return slot is untouched (nothing but the error
    indicator changes), but the exception left pending is
    [TypeError "Not integer"], not a range error: the [OverflowError] that
    is raised on the way is replaced, because the error path falls through
    to the closing [TypeError]. *)
Theorem integer_slot_refuses_out_of_range_with_type_error
    env t T z params w :
  integer_ctype t = Some T →
  (z < int_min (int_kind (platform env) T)
   ∨ int_max (int_kind (platform env) T) < z)%Z →
  SetReturn env (PyLong z) (by_value t) params w
  = Ok false (set_pyerr (Some (TypeError "Not integer")) w) ∧
  exc <$> pyerr (set_pyerr (Some (TypeError "Not integer")) w)
  ≠ Some PyExc_OverflowError.
Proof.
  intros Ht Hz. split; [|discriminate].
  assert (∃ ct, integer_extractor T = Some ct) as [ct Hct]
    by (destruct t; try discriminate; injection Ht as <-; eexists;
        reflexivity).
  pose proof (integer_out_of_range_refused (platform env) T ct z w Hct Hz)
    as Hconv.
  destruct t; try discriminate; injection Ht as <-;
    cbn [SetReturn type by_value]; unfold return_in_register;
    unfold mbind, M_bind, bind_M; rewrite Hconv; reflexivity.
Qed.

(** C4, at the script integer [2^63] and an [Int32] return slot. *)
Lemma int32_slot_refuses_two_to_63_with_type_error :
  let env := returning Linux PyNone in
  integer_ctype ValueType.Int32 = Some c_int32_t ∧
  (int_max (int_kind Linux c_int32_t) < 2 ^ 63)%Z ∧
  SetReturn env (PyLong (2 ^ 63)) (by_value ValueType.Int32) []
    initial_world
  = Ok false (set_pyerr (Some (TypeError "Not integer")) initial_world).
Proof.
  intros env. split; [reflexivity|]. split; [vm_compute; reflexivity|].
  apply (integer_slot_refuses_out_of_range_with_type_error env
           ValueType.Int32 c_int32_t (2 ^ 63) [] initial_world);
    [reflexivity|right; vm_compute; reflexivity].
Defined.

(** The same happens one past the range of the target, where the module's
    own range check raises the [OverflowError]. *)
Example int32_slot_refuses_two_to_31 :
  ValueFromObject Linux c_int32_t (PyLong (2 ^ 31)) initial_world
  = Ok None (set_pyerr (Some (TypeError "Not integer")) initial_world).
Proof. reflexivity. Qed.

(** ** Single characters *)

(** The empty string is the zero character, at either width. *)
Lemma empty_string_is_zero_character plat T w :
  T = c_char ∨ T = c_char16_t →
  ValueFromObject plat T (PyUnicode []) w = Ok (Some (VInt T 0)) w.
Proof. intros [-> | ->]; reflexivity. Qed.

(** ["A"] is 65 as a [Char8]. *)
Example letter_A_is_65 :
  ValueFromObject Linux c_char (PyUnicode [65%Z]) initial_world
  = Ok (Some (VInt c_char 65)) initial_world.
Proof. reflexivity. Qed.

(** In a UTF-8 locale a character of the basic plane is its one UTF-16
    code unit; in the C locale, in which the module runs unless the host
    has set another, [mbrtoc16] refuses its first byte and with it the
    character. *)
Example euro_sign_is_one_code_unit :
  let w := set_locale UTF8_locale initial_world in
  ValueFromObject Linux c_char16_t (PyUnicode [8364%Z]) w
  = Ok (Some (VInt c_char16_t 8364)) w.
Proof. reflexivity. Qed.

Example euro_sign_is_refused_in_the_C_locale :
  ValueFromObject Linux c_char16_t (PyUnicode [8364%Z]) initial_world
  = Ok None (set_pyerr (Some (TypeError "Not string")) initial_world).
Proof. reflexivity. Qed.

(** A string of more than one character is refused at either width, and
    the exception left pending is [TypeError "Not string"]: the
    [ValueError] set for it is replaced on the way out. *)
Lemma long_string_refused plat T s w :
  T = c_char ∨ T = c_char16_t →
  (1 < length s)%nat →
  ValueFromObject plat T (PyUnicode s) w
  = Ok None (set_pyerr (Some (TypeError "Not string")) w).
Proof.
  intros HT Hlen.
  destruct s as [|c1 [|c2 s]]; cbn in Hlen; try lia.
  assert (Hl : (Z.of_nat (length (c1 :: c2 :: s)) =? 0)%Z = false
               ∧ (Z.of_nat (length (c1 :: c2 :: s)) =? 1)%Z = false).
  { cbn [length]. split; apply Z.eqb_neq; lia. }
  destruct Hl as [H0 H1].
  destruct HT as [-> | ->]; cbn [ValueFromObject];
    unfold ValueFromObject_char, ValueFromObject_char16_t, not_string;
    cbn [PyUnicode_Check PyUnicode_GetLength]; rewrite H0, H1; reflexivity.
Qed.

(** C8 (the code departs from the claim).  The values are as claimed (the
    empty string gives 0, ["A"] gives 65), and the strings the claim wants
    refused are refused, but not with an encoding error: for ["AB"] as a
    [Char8] and for a lone surrogate half as a [Char16] the pending
    exception is [TypeError "Not string"], the [ValueError] being replaced
    by the closing statement of the converter.  A lone surrogate half as a
    [Char8] is read through the null buffer the encoder returns.  And one
    string of length 1 that has a code unit is refused as a [Char16]: the
    null character, for which [mbrtoc16] returns 0. *)
Theorem single_character_errors_are_type_errors :
  ValueFromObject Linux c_char (PyUnicode []) initial_world
  = Ok (Some (VInt c_char 0)) initial_world ∧
  ValueFromObject Linux c_char (PyUnicode [65%Z]) initial_world
  = Ok (Some (VInt c_char 65)) initial_world ∧
  ValueFromObject Linux c_char (PyUnicode [65%Z; 66%Z]) initial_world
  = Ok None (set_pyerr (Some (TypeError "Not string")) initial_world) ∧
  ValueFromObject Linux c_char16_t (PyUnicode [55296%Z]) initial_world
  = Ok None (set_pyerr (Some (TypeError "Not string")) initial_world) ∧
  ValueFromObject Linux c_char (PyUnicode [55296%Z]) initial_world
  = Stop NullDeref ∧
  ValueFromObject Linux c_char16_t (PyUnicode [0%Z]) initial_world
  = Ok None (set_pyerr (Some (TypeError "Not string")) initial_world).
Proof. repeat split; reflexivity. Qed.

(** ** Floating-point slots *)

Lemma ValueFromObject_floating plat t v w :
  is_floating t = true →
  PyFloat_Check v = false →
  ValueFromObject plat (floating_ctype t) v w
  = Ok None (set_pyerr (Some (TypeError "Not float")) w).
Proof.
  intros Ht Hv. destruct t; try discriminate; destruct v; try discriminate;
    reflexivity.
Qed.

(** A conversion to [float] or [double] that succeeds started from a script
    float, and it changes nothing in the world. *)
Lemma floating_conversion_succeeds_on_floats_only plat t v w x w' :
  is_floating t = true →
  ValueFromObject plat (floating_ctype t) v w = Ok (Some x) w' →
  PyFloat_Check v = true ∧ w' = w.
Proof.
  intros Ht. destruct t; try discriminate; destruct v; cbn;
    unfold_M; intros [= <-]; try done.
Qed.

(** C10 (as amended).  Where a [Float] or [Double] is declared, the
    conversion follows [PyFloat_Check]: a script float, be it a [float]
    itself or an instance of a subclass of [float], is converted to the
    number it holds and nothing is raised; every other script value (an
    integer, for one) is refused with [TypeError "Not float"] and never
    converted: by the converter itself, and with it by the return slot,
    the reference write-back and both pushes of an outbound argument, none
    of which touches its slot, the call machine or the scope. *)
Theorem floating_slots_follow_PyFloat_Check env t v w params index a :
  is_floating t = true →
  let refused := set_pyerr (Some (TypeError "Not float")) w in
  (PyFloat_Check v = true →
   ∃ d, float_value v = Some d ∧
        ValueFromObject (platform env) (floating_ctype t) v w
        = Ok (Some (floating_native t d)) w) ∧
  (PyFloat_Check v = false →
   ValueFromObject (platform env) (floating_ctype t) v w = Ok None refused ∧
   SetReturn env v (by_value t) params w = Ok false refused ∧
   SetRefParam (platform env) v (by_reference t) params index w
   = Ok false refused ∧
   PushObjectAsParam env (by_value t) v a w = Ok (false, a) refused ∧
   PushObjectAsRefParam env (by_reference t) v a w = Ok (false, a) refused).
Proof.
  intros Ht refused. split.
  - intros Hv. destruct v; try discriminate; exists d;
      (split; [reflexivity|]); destruct t; try discriminate; reflexivity.
  - intros Hv.
    pose proof (ValueFromObject_floating (platform env) t v w Ht Hv) as H.
    destruct t; try discriminate; cbn [floating_ctype] in H;
      (split; [exact H|]);
      cbn [SetReturn SetRefParam PushObjectAsParam PushObjectAsRefParam
           type by_value by_reference allocation_type];
      unfold return_in_register, assign_param, push_value, CreateValue;
      unfold mbind, M_bind, bind_M; rewrite H; repeat split; reflexivity.
Qed.

(** C10 (as amended), at a [Double] slot: the script integer 3 is refused,
    the script float of bit pattern 0 is converted. *)
Lemma double_slot_refuses_an_integer_and_takes_a_float :
  is_floating ValueType.Double = true ∧
  PyFloat_Check (PyLong 3) = false ∧
  ValueFromObject Linux c_double (PyLong 3) initial_world
  = Ok None (set_pyerr (Some (TypeError "Not float")) initial_world) ∧
  PyFloat_Check (PyFloat (DoubleBits 0)) = true ∧
  ∃ d, float_value (PyFloat (DoubleBits 0)) = Some d ∧
       ValueFromObject Linux c_double (PyFloat (DoubleBits 0)) initial_world
       = Ok (Some (VDouble d)) initial_world.
Proof.
  split; [reflexivity|]. split; [reflexivity|]. split.
  - apply (floating_slots_follow_PyFloat_Check (returning Linux PyNone)
             ValueType.Double (PyLong 3) initial_world [] 0%nat ArgsScope_new);
      reflexivity.
  - split; [reflexivity|].
    apply (floating_slots_follow_PyFloat_Check (returning Linux PyNone)
             ValueType.Double (PyFloat (DoubleBits 0)) initial_world [] 0%nat
             ArgsScope_new); reflexivity.
Defined.

(** C10 (counterexample to the claim as stated).  An instance of a script
    class derived from [float] is not an exact float object, and it is
    converted in a [Double] and in a [Float] slot all the same. *)
Lemma float_subclass_instance_is_converted :
  let v := PyFloatSubclass (DoubleBits 0) in
  PyFloat_CheckExact v = false ∧
  ValueFromObject Linux c_double v initial_world
  = Ok (Some (VDouble (DoubleBits 0))) initial_world ∧
  ValueFromObject Linux c_float v initial_world
  = Ok (Some (VFloat (FloatOfDouble (DoubleBits 0)))) initial_world.
Proof. repeat split. Qed.

(** ** The call argument scope *)

(** Apart from [ArrayInt8], every tag that gets a temporary is deleted as
    the type it was allocated with. *)
Lemma delete_type_is_allocation_type t :
  t ≠ ValueType.ArrayInt8 → delete_type t = allocation_type t.
Proof. destruct t; intros H; try reflexivity; contradiction. Qed.

(** C9 (the code departs from the claim).  The destructor's case for
    [ArrayInt8] names [std::vector<int16_t>], while the temporary of that
    tag is a [std::vector<int8_t>]: an outbound call with one [ArrayInt8]
    argument allocates the vector of bytes at address 4097 and the scope
    deletes it through the cast to a vector of 16-bit integers. *)
Theorem int8_array_deleted_as_int16_array :
  delete_type ValueType.ArrayInt8 = Some (VectorOf c_int16_t) ∧
  allocation_type ValueType.ArrayInt8 = Some (VectorOf c_int8_t) ∧
  frees <$> world_of (ExternalCall (calling Linux native_store_second)
                        int8_array_to_void 500
                        (PyTuple [PyList [PyLong 1; PyLong 2]])
                        initial_world)
  = Some [{| free_ptr := 4097; free_as := VectorOf c_int16_t;
             free_actual := Some (VectorOf c_int8_t) |}].
Proof. repeat split; vm_compute; reflexivity. Qed.

(** ** The outbound dispatcher *)

(** C7 (the code departs from the claim).  A method
    [(String, String ref) -> Void] called with [("a", "b")]; the native
    function stores ["Z"] through the reference.  The scope holds the
    temporary of the first, non-reference, argument at index 0 and the
    reference's at index 1, and the read-back starts at index 0: the
    second element of the result is the first argument's ["a"], not the
    post-call value ["Z"] of the reference. *)
Theorem reference_read_back_takes_the_wrong_temporary :
  result_of (ExternalCall (calling Linux native_store_second)
               string_and_string_ref_to_void 500
               (PyTuple [PyUnicode [97%Z]; PyUnicode [98%Z]]) initial_world)
  = Some (Some (PyTuple [PyNone; PyUnicode [97%Z]])) ∧
  PyUnicode [97%Z] ≠ PyUnicode [90%Z].
Proof. split; [vm_compute; reflexivity|discriminate]. Qed.

(** With reference parameters only, the read-back returns their post-call
    values in declared order. *)
Example reference_read_back_of_references_only :
  result_of (ExternalCall (calling Linux native_store_second)
               (signature [by_reference ValueType.String;
                           by_reference ValueType.String] ValueType.Void)
               500 (PyTuple [PyUnicode [97%Z]; PyUnicode [98%Z]])
               initial_world)
  = Some (Some (PyTuple [PyNone; PyUnicode [97%Z]; PyUnicode [90%Z]])).
Proof. vm_compute. reflexivity. Qed.

(** C6 (the code departs from the claim).  Two arguments that cannot be
    converted and do not end in an exception with the native function left
    alone.  A [(Char8) -> Void] method called with a string that is one
    lone surrogate half: the converter reads the first byte of the UTF-8
    buffer, and for this string the encoder returns a null buffer, so the
    call ends in a read through null and no exception reaches the script
    caller.  A [(String) -> Int32] method called with the same string: the
    encoder fails and raises, but the converter builds the empty string
    from the null buffer and reports success, so the native function is
    invoked (with the empty string) while the exception is pending. *)
Theorem unconvertible_arguments_escape_the_error_path :
  ExternalCall (calling Linux native_store_second) char8_to_void 500
    (PyTuple [PyUnicode [55296%Z]]) initial_world
  = Stop NullDeref ∧
  let r := ExternalCall (calling Linux native_length) string_to_int32 500
             (PyTuple [PyUnicode [55296%Z]]) initial_world in
  result_of r = Some (Some (PyLong 0)) ∧
  pyerr <$> world_of r
  = Some (Some {| exc := PyExc_UnicodeEncodeError;
                  msg := "surrogates not allowed" |}) ∧
  native_calls <$> world_of r
  = Some [{| call_addr := 500; call_args := [VPtr 4097] |}].
Proof. repeat split; vm_compute; reflexivity. Qed.

(** ** The inbound dispatcher *)

(** Reference arity: two [Int32] reference parameters and a callable that
    returns a pair; the call is answered with the fallback 0 and the
    error is reported. *)
Example pair_for_two_references_is_an_arity_error :
  let r := InternalCall (returning Linux (PyTuple [PyLong 1; PyLong 2]))
             two_int32_refs_to_int32 (PyFunction 1) [VPtr 16; VPtr 17]
             (with_heap [(16%N, VInt c_int32_t 41); (17%N, VInt c_int32_t 42)]
                initial_world) in
  ret <$> world_of r = Some (Some (VInt c_uintptr_t 0)) ∧
  printed <$> world_of r
  = Some [TypeError "Returned tuple wrong size 2, expected 3"].
Proof. split; vm_compute; reflexivity. Qed.

(** *** The fallback *)

Lemma PyErr_Print_clears w :
  exit_pending w = false →
  ∃ w', PyErr_Print w = Ok tt w' ∧ pyerr w' = None ∧
        heap w' = heap w ∧ ret w' = ret w.
Proof.
  unfold PyErr_Print, exit_pending, is_exit.
  destruct (pyerr w) as [e|] eqn:E.
  - destruct (exc e); try discriminate; intros _;
      (eexists; split; [reflexivity|]); cbn; auto.
  - intros _. eexists; split; [reflexivity|]. auto.
Qed.

(** [SystemExit] handed to [PyErr_Print] ends the process. *)
Lemma PyErr_Print_exits w :
  exit_pending w = true → PyErr_Print w = Stop ProcessExit.
Proof.
  unfold PyErr_Print, exit_pending, is_exit.
  destruct (pyerr w) as [e|]; [|discriminate].
  by destruct (exc e).
Qed.





(** *** Failures of an inbound call *)









(** What the amended claim leaves out, beside [ArrayBool].  A result that
    the converter ought to refuse and does not: for a [String] method whose
    callable returns a lone surrogate half the conversion reports success
    (the slip of C6, met here on the result), so nothing is printed, the
    caller
    reads the empty string and the [UnicodeEncodeError] of the encoder
    stays pending; for an [ArrayString] method the caller reads an array of
    one empty string. *)
Example unencodable_result_is_not_refused :
  let raised := {| exc := PyExc_UnicodeEncodeError;
                   msg := "surrogates not allowed" |} in
  (∃ w', InternalCall (returning Linux (PyUnicode [55296%Z]))
           (signature [] ValueType.String) (PyFunction 1) [VPtr 16]
           (with_heap [(16%N, VString [120%Z])] initial_world)
         = Ok tt w' ∧
         heap w' !! 16%N = Some (VString []) ∧
         pyerr w' = Some raised ∧ printed w' = []) ∧
  (∃ w', InternalCall (returning Linux (PyList [PyUnicode [55296%Z]]))
           (signature [] ValueType.ArrayString) (PyFunction 1) [VPtr 16]
           (with_heap [(16%N, VVector c_string [])] initial_world)
         = Ok tt w' ∧
         heap w' !! 16%N = Some (VVector c_string [VString []]) ∧
         pyerr w' = Some raised ∧ printed w' = []).
Proof.
  intros raised. split; eexists; (split; [vm_compute; reflexivity|]);
    split_and!; vm_compute; reflexivity.
Qed.

(** And a callable that raises [SystemExit]: [PyErr_Print] ends the
    process, and the native caller does not get the call back. *)
Example script_exit_ends_the_process :
  InternalCall (exiting_start Linux) int32_to_int32 (PyFunction 1)
    [VInt c_int32_t 1] initial_world
  = Stop ProcessExit.
Proof. vm_compute. reflexivity. Qed.

(** *** Reference arity *)





(** *** The return type without a fallback *)

Lemma terminate_without_fallback plat t params w :
  t = ValueType.ArrayBool → SetFallbackReturn plat t params w = Stop Terminate.
Proof. by intros ->. Qed.

Lemma terminate_after_report plat t params w :
  t = ValueType.ArrayBool →
  exit_pending w = false →
  (PyErr_Print ;; SetFallbackReturn plat t params) w = Stop Terminate.
Proof.
  intros -> Hexit. destruct (PyErr_Print_clears w Hexit) as (w0 & Hp & _).
  unfold mbind, M_bind, bind_M. rewrite Hp. reflexivity.
Qed.

Lemma terminate_after_failed_return plat t params w :
  t = ValueType.ArrayBool →
  exit_pending w = false →
  (occurred ← PyErr_Occurred;
   (if occurred : bool then PyErr_Print else ret_M tt) ;;
   SetFallbackReturn plat t params) w = Stop Terminate.
Proof.
  intros -> Hexit. unfold mbind, M_bind, bind_M, PyErr_Occurred.
  destruct (pyerr w) eqn:E; [|reflexivity].
  destruct (PyErr_Print_clears w Hexit) as (w0 & Hp & _). rewrite Hp.
  reflexivity.
Qed.

(** C5 (the code departs from the claim).  For a method whose return type
    is [ArrayBool], every failure that is to be answered with the
    fallback, an ill-shaped result of a method with reference parameters
    among them, ends in [std::terminate] instead: [SetFallbackReturn] has
    no case for the tag.  The native return slot does not receive the
    empty array. *)
Theorem failure_of_bool_array_method_terminates env method func params w :
  type (retType method) = ValueType.ArrayBool →
  inbound_failure env method func params w →
  InternalCall env method func params w = Stop Terminate.
Proof.
  intros Ht Hfail. unfold InternalCall.
  destruct Hfail as [pr n l w1 Hargs Hpr Hexit
                    | n l w1 e Hargs Hcall Hexit
                    | n l w1 r Hargs Hcall Hshape
                    | n l w1 r items returnObject w2 w3 Hargs Hcall Hshape
                        Hobj Hwb Hret Hexit];
    unfold paramsStartIndex_of, walked_params in *;
    unfold mbind at 1, M_bind at 1, bind_M at 1; rewrite Hargs;
    cbn beta iota.
  - destruct pr; [contradiction| |by apply terminate_after_report].
    by apply terminate_without_fallback.
  - unfold PyObject_CallObject. rewrite Hcall.
    unfold mbind at 1, M_bind at 1, bind_M at 1. cbn.
    apply terminate_after_report; [done|].
    unfold exit_pending, is_exit. cbn. by destruct (exc e).
  - unfold PyObject_CallObject. rewrite Hcall.
    unfold mbind at 1, M_bind at 1, bind_M at 1. cbn beta iota.
    unfold ret_M at 1. cbn beta iota.
    unfold well_shaped in Hshape. apply orb_false_iff in Hshape as [Hn Hr].
    rewrite Hn. cbn [negb].
    destruct r; try (unfold PyErr_SetString at 1;
                     unfold mbind at 1, M_bind at 1, bind_M at 1, modify;
                     by apply terminate_after_report).
    cbn zeta. rewrite Hr. cbn [negb].
    unfold PyErr_SetString at 1.
    unfold mbind at 1, M_bind at 1, bind_M at 1, modify.
    by apply terminate_after_report.
  - unfold PyObject_CallObject. rewrite Hcall.
    unfold mbind at 1, M_bind at 1, bind_M at 1. cbn beta iota.
    unfold ret_M at 1. cbn beta iota.
    unfold well_shaped in Hshape. unfold return_object in Hobj.
    destruct (n =? 0)%nat eqn:Hn; cbn [negb].
    + subst w2. injection Hobj as <-.
      unfold mbind at 1, M_bind at 1, bind_M at 1. rewrite Hret.
      cbn [negb]. by apply terminate_after_failed_return.
    + destruct Hwb as [-> Hwb]. cbn [orb] in Hshape. cbn zeta.
      rewrite Hshape. cbn [negb]. rewrite Hobj.
      unfold mbind at 1, M_bind at 1, bind_M at 1. rewrite Hwb.
      unfold mbind at 1, M_bind at 1, bind_M at 1. rewrite Hret.
      cbn [negb]. by apply terminate_after_failed_return.
Qed.

(** C5, at a method [(Int32 ref) -> ArrayBool] whose callable returns
    [None]. *)
Lemma ill_shaped_result_of_bool_array_method_terminates :
  let env := returning Linux PyNone in
  let params := [VPtr 8; VPtr 16] in
  let w := with_heap [(16%N, VInt c_int32_t 41)] initial_world in
  refCount int32_ref_to_bool_array = 1%nat ∧
  inbound_failure env int32_ref_to_bool_array (PyFunction 1) params w ∧
  InternalCall env int32_ref_to_bool_array (PyFunction 1) params w
  = Stop Terminate.
Proof.
  intros env params w. split; [reflexivity|].
  assert (Hfail : inbound_failure env int32_ref_to_bool_array (PyFunction 1)
                    params w).
  { eapply result_shape_wrong; vm_compute; reflexivity. }
  split; [exact Hfail|].
  apply (failure_of_bool_array_method_terminates env int32_ref_to_bool_array
           (PyFunction 1) params w); [reflexivity|exact Hfail].
Defined.

(** *** Failures of an outbound call *)

Ltac crunch H :=
  repeat first
    [ discriminate H
    | progress (cbn beta iota zeta in H)
    | match type of H with
      | context [match ?x with _ => _ end] =>
          lazymatch x with
          | context [match _ with _ => _ end] => fail
          | _ => destruct x eqn:?
          end
      end ].

Ltac finish H :=
  injection H as <- <-; split; [reflexivity | try discriminate; try done].

Ltac open_M H :=
  unfold PyErr_SetString, PyErr_SetNone, PyErr_Occurred, get_locale in H;
  unfold mbind, M_bind, bind_M, mret, M_ret, ret_M, modify, stop in H.

Lemma reports_bool object : reports no_value (ValueFromObject_bool object).
Proof.
  intros w a w' H. unfold ValueFromObject_bool in H. open_M H.
  crunch H; finish H.
Qed.

Lemma reports_float object : reports no_value (ValueFromObject_float object).
Proof.
  intros w a w' H. unfold ValueFromObject_float in H. open_M H.
  crunch H; finish H.
Qed.

Lemma reports_double object : reports no_value (ValueFromObject_double object).
Proof.
  intros w a w' H. unfold ValueFromObject_double in H. open_M H.
  crunch H; finish H.
Qed.

Lemma reports_char object : reports no_value (ValueFromObject_char object).
Proof.
  intros w a w' H.
  unfold ValueFromObject_char, not_string, PyUnicode_AsUTF8,
    PyUnicode_AsUTF8AndSize in H. open_M H.
  crunch H; finish H.
Qed.

Lemma reports_char16_t object :
  reports no_value (ValueFromObject_char16_t object).
Proof.
  intros w a w' H.
  unfold ValueFromObject_char16_t, not_string, PyUnicode_AsUTF8AndSize in H.
  open_M H. crunch H; finish H.
Qed.

Lemma reports_number plat vt ct object :
  reports no_value (ValueFromNumberObject plat vt ct object).
Proof.
  intros w a w' H.
  unfold ValueFromNumberObject, PyLong_As in H. open_M H.
  crunch H; finish H.
Qed.

Lemma reports_void_ptr object :
  reports no_value (ValueFromObject_void_ptr object).
Proof.
  intros w a w' H.
  unfold ValueFromObject_void_ptr, PyLong_AsVoidPtr in H. open_M H.
  crunch H; finish H.
Qed.

Lemma reports_string object :
  reports no_value (ValueFromObject_string object).
Proof.
  intros w a w' H.
  unfold ValueFromObject_string, PyUnicode_AsUTF8AndSize in H. open_M H.
  crunch H; finish H.
Qed.

Lemma reports_attribute object attr_name :
  reports no_value (GetObjectAttrAsValue_float object attr_name).
Proof.
  intros w a w' H.
  unfold GetObjectAttrAsValue_float, PyObject_GetAttrString,
    ValueFromObject_float in H. open_M H.
  crunch H; finish H.
Qed.

(** The rules by which reporting computations compose. *)
Lemma reports_bind {A B} (fa : A → bool) (fb : B → bool)
    (m : M A) (k : A → M B) :
  reports fa m →
  (∀ a, fa a = true → ∀ w, ∃ b, k a w = Ok b w) →
  (∀ a, fa a = false → reports fb (k a)) →
  reports fb (m ≫= k).
Proof.
  intros Hm Hfail Hgo w b w' H.
  unfold mbind, M_bind, bind_M in H.
  destruct (m w) as [a w1|] eqn:E; [|discriminate].
  destruct (Hm _ _ _ E) as [Hc He].
  destruct (fa a) eqn:Hfa.
  - destruct (Hfail a Hfa w1) as (b' & Hk). rewrite Hk in H.
    injection H as <- <-. auto.
  - destruct (Hgo a Hfa _ _ _ H) as [Hc' He']. split; [congruence|auto].
Qed.

Lemma reports_ret {A} (f : A → bool) (a : A) :
  f a = false → reports f (ret_M a).
Proof. intros Hf w b w' [= <- <-]. split; [done|congruence]. Qed.

Lemma reports_stop {A} (f : A → bool) (x : Fault) : reports f (stop x).
Proof. intros w b w' H. discriminate. Qed.

Lemma reports_raise {A} (f : A → bool) (e : PyExc) (message : string) (a : A) :
  reports f (PyErr_SetString e message ;; ret_M a).
Proof. intros w b w' [= <- <-]. split; [done|discriminate]. Qed.

Lemma reports_weaken {A} (f g : A → bool) m :
  reports f m → (∀ a, g a = true → f a = true) → reports g m.
Proof.
  intros Hm Hfg w a w' H. destruct (Hm _ _ _ H). split; auto.
Qed.

(** A step that may fail with no value, followed by the continuation of
    the source: leave on failure, go on with the value. *)
Ltac after_conversion L :=
  eapply (reports_bind no_value);
  [ apply L
  | intros [?|] ?; [discriminate | intros; eexists; reflexivity]
  | intros [?|] ?; [|discriminate] ].

Lemma reports_Vector2 object : reports no_value (Vector2ValueFromObject object).
Proof.
  unfold Vector2ValueFromObject.
  destruct (negb (PyObject_IsInstance object Vector2Type));
    [apply reports_raise|].
  after_conversion (reports_attribute object "x").
  after_conversion (reports_attribute object "y").
  by apply reports_ret.
Qed.

Lemma reports_Vector3 object : reports no_value (Vector3ValueFromObject object).
Proof.
  unfold Vector3ValueFromObject.
  destruct (negb (PyObject_IsInstance object Vector3Type));
    [apply reports_raise|].
  after_conversion (reports_attribute object "x").
  after_conversion (reports_attribute object "y").
  after_conversion (reports_attribute object "z").
  by apply reports_ret.
Qed.

Lemma reports_Vector4 object : reports no_value (Vector4ValueFromObject object).
Proof.
  unfold Vector4ValueFromObject.
  destruct (negb (PyObject_IsInstance object Vector4Type));
    [apply reports_raise|].
  after_conversion (reports_attribute object "x").
  after_conversion (reports_attribute object "y").
  after_conversion (reports_attribute object "z").
  after_conversion (reports_attribute object "w").
  by apply reports_ret.
Qed.

Lemma reports_matrix_row entries : reports no_value (matrix_row entries).
Proof.
  induction entries as [|mObject rest IH]; cbn [matrix_row].
  - by apply reports_ret.
  - intros w a w' H. unfold ValueFromObject_float in H.
    destruct mObject;
      try (open_M H; cbn in H; injection H as <- <-;
           split; [reflexivity|discriminate]).
    all: unfold mbind at 1, M_bind at 1, bind_M at 1, ret_M at 1 in H.
    all: unfold mbind, M_bind, bind_M in H.
    all: destruct (matrix_row rest w) as [more w1|] eqn:E; [|discriminate].
    all: destruct (IH _ _ _ E) as [Hc He].
    all: destruct more; injection H as <- <-; split; auto; discriminate.
Qed.

Lemma reports_matrix_rows rows : reports no_value (matrix_rows rows).
Proof.
  induction rows as [|row rest IH]; cbn [matrix_rows].
  - by apply reports_ret.
  - destruct row; try apply reports_raise.
    destruct (negb (length items =? 4)%nat); [apply reports_raise|].
    after_conversion (reports_matrix_row items).
    eapply (reports_bind no_value); [apply IH| |].
    + intros [?|] ?; [discriminate|]. intros; eexists; reflexivity.
    + intros [?|] ?; [|discriminate]. by apply reports_ret.
Qed.

Lemma reports_Matrix4x4 object :
  reports no_value (Matrix4x4ValueFromObject object).
Proof.
  unfold Matrix4x4ValueFromObject.
  destruct (negb (PyObject_IsInstance object Matrix4x4Type));
    [apply reports_raise|].
  eapply (reports_bind no_value).
  - intros w a w' H. unfold PyObject_GetAttrString in H. open_M H.
    crunch H; finish H.
  - intros [?|] ?; [discriminate|]. intros; eexists; reflexivity.
  - intros [elements|] ?; [|discriminate].
    destruct elements; try apply reports_raise.
    destruct (negb (length items =? 4)%nat); [apply reports_raise|].
    eapply (reports_bind no_value); [apply reports_matrix_rows| |].
    + intros [?|] ?; [discriminate|]. intros; eexists; reflexivity.
    + intros [?|] ?; [|discriminate]. by apply reports_ret.
Qed.

(** Every converter reports its failures. *)
Lemma reports_ValueFromObject plat T object :
  reports no_value (ValueFromObject plat T object).
Proof.
  destruct T; cbn [ValueFromObject];
    first [ apply reports_bool | apply reports_char | apply reports_char16_t
          | apply reports_number | apply reports_void_ptr
          | apply reports_float | apply reports_double | apply reports_string
          | apply reports_Vector2 | apply reports_Vector3
          | apply reports_Vector4 | apply reports_Matrix4x4
          | apply reports_stop ].
Qed.

Lemma reports_ArrayFromObject_loop plat T items :
  reports no_value (ArrayFromObject_loop plat T items).
Proof.
  induction items as [|valueObject rest IH]; cbn [ArrayFromObject_loop].
  - by apply reports_ret.
  - after_conversion (reports_ValueFromObject plat T valueObject).
    eapply (reports_bind no_value); [apply IH| |].
    + intros [?|] ?; [discriminate|]. intros; eexists; reflexivity.
    + intros [?|] ?; [|discriminate]. by apply reports_ret.
Qed.

Lemma reports_ArrayFromObject plat T arrayObject :
  reports no_value (ArrayFromObject plat T arrayObject).
Proof.
  unfold ArrayFromObject. destruct arrayObject; try apply reports_raise.
  eapply (reports_bind no_value); [apply reports_ArrayFromObject_loop| |].
  - intros [?|] ?; [discriminate|]. intros; eexists; reflexivity.
  - intros [?|] ?; [|discriminate]. by apply reports_ret.
Qed.

Lemma reports_GetJitFunc env method : reports never (GetJitFunc env method).
Proof.
  intros w a w' H. unfold GetJitFunc, fresh_address in H. open_M H.
  crunch H; finish H.
Qed.

Lemma GetJitFunc_not_null env method w a w' :
  GetJitFunc env method w = Ok a w' →
  (a =? 0)%N = true → jit_supported env method = false ∧ w' = w.
Proof.
  unfold GetJitFunc, fresh_address, ret_M.
  destruct (jit_supported env method); intros [= <- <-] Hz; [|done].
  apply N.eqb_eq in Hz. lia.
Qed.

Lemma reports_GetOrCreateFunctionValue env method object :
  reports no_value (GetOrCreateFunctionValue env method object).
Proof.
  unfold GetOrCreateFunctionValue.
  destruct object; try apply reports_raise; try (by apply reports_ret).
  cbn [PyFunction_Check negb].
  intros w a w' H. unfold FindInternal, AddToFunctionsMap in H.
  unfold mbind at 1, M_bind at 1, bind_M at 1 in H. cbn beta iota in H.
  destruct (negb _); [open_M H; finish H|].
  unfold mbind at 1, M_bind at 1, bind_M at 1 in H.
  destruct (GetJitFunc env method w) as [methodAddr w1|] eqn:E;
    [|discriminate].
  destruct (reports_GetJitFunc _ _ _ _ _ E) as [Hc _].
  open_M H.
  destruct (methodAddr =? 0)%N; cbn in H; injection H as <- <-;
    (split; [exact Hc | try discriminate; try done]).
Qed.

Lemma reports_new v : reports null (new v).
Proof.
  intros w a w' H. unfold new, fresh_address in H. open_M H. cbn in H.
  injection H as <- <-. split; [reflexivity|].
  unfold null. intros Hz. apply N.eqb_eq in Hz. lia.
Qed.

Lemma reports_CreateValue plat T pItem : reports null (CreateValue plat T pItem).
Proof.
  unfold CreateValue.
  eapply (reports_bind no_value); [apply reports_ValueFromObject| |].
  - intros [?|] ?; [discriminate|]. intros; eexists; reflexivity.
  - intros [v|] ?; [|discriminate]. apply reports_new.
Qed.

Lemma reports_CreateArray plat T pItem : reports null (CreateArray plat T pItem).
Proof.
  unfold CreateArray.
  eapply (reports_bind no_value); [apply reports_ArrayFromObject| |].
  - intros [?|] ?; [discriminate|]. intros; eexists; reflexivity.
  - intros [v|] ?; [|discriminate]. apply reports_new.
Qed.

Lemma reports_int_of {A} (f : A → bool) v (k : Z → M A) :
  (∀ z, reports f (k z)) → reports f (int_of v ≫= k).
Proof.
  intros Hk w a w' H. unfold int_of in H.
  destruct v; try discriminate H. exact (Hk _ _ _ _ H).
Qed.

Lemma reports_push_integer plat T dc pItem a :
  reports push_failed (push_integer plat T dc pItem a).
Proof.
  unfold push_integer.
  eapply (reports_bind no_value); [apply reports_ValueFromObject| |].
  - intros [?|] ?; [discriminate|]. intros; eexists; reflexivity.
  - intros [v|] ?; [|discriminate]. apply reports_int_of.
    intros z. by apply reports_ret.
Qed.

Lemma reports_push_value plat T pItem a :
  reports push_failed (push_value plat T pItem a).
Proof.
  unfold push_value.
  eapply (reports_bind no_value); [apply reports_ValueFromObject| |].
  - intros [?|] ?; [discriminate|]. intros; eexists; reflexivity.
  - intros [v|] ?; [|discriminate]. by apply reports_ret.
Qed.

(** A temporary made by a creator that reports a null result. *)
Lemma reports_push_temporary (create : M N) t a :
  reports null create →
  reports push_failed (value ← create; push_temporary value t a).
Proof.
  intros Hc. eapply (reports_bind null); [exact Hc| |].
  - intros value Hv w. unfold push_temporary. unfold null in Hv.
    rewrite Hv. eexists; reflexivity.
  - intros value Hv. unfold push_temporary. unfold null in Hv.
    rewrite Hv. by apply reports_ret.
Qed.

Lemma reports_deref_prototype {A} (f : A → bool) p (k : Method → M A) :
  (∀ m, reports f (k m)) → reports f (deref_prototype p ≫= k).
Proof.
  intros Hk w a w' H. unfold deref_prototype in H.
  destruct (prototype p); [|discriminate H]. exact (Hk _ _ _ _ H).
Qed.

(** A push that reports failure has raised, and no push calls native
    code. *)
Lemma reports_PushObjectAsParam env paramType pItem a :
  reports push_failed (PushObjectAsParam env paramType pItem a).
Proof.
  unfold PushObjectAsParam.
  destruct (type paramType);
    first [ apply reports_push_value
          | apply reports_push_integer
          | apply reports_push_temporary;
            first [apply reports_CreateValue | apply reports_CreateArray]
          | idtac ].
  - (* Void *) apply reports_raise.
  - (* Pointer *)
    eapply (reports_bind no_value); [apply reports_ValueFromObject| |].
    + intros [?|] ?; [discriminate|]. intros; eexists; reflexivity.
    + intros [v|] ?; [|discriminate]. apply reports_int_of.
      intros z. by apply reports_ret.
  - (* Function *)
    apply reports_deref_prototype. intros method.
    eapply (reports_bind no_value);
      [apply reports_GetOrCreateFunctionValue| |].
    + intros [?|] ?; [discriminate|]. intros; eexists; reflexivity.
    + intros [v|] ?; [|discriminate]. by apply reports_ret.
Qed.

Lemma reports_PushObjectAsRefParam env paramType pItem a :
  reports push_failed (PushObjectAsRefParam env paramType pItem a).
Proof.
  unfold PushObjectAsRefParam.
  destruct (allocation_type (type paramType)) as [[T|T]|].
  - apply reports_push_temporary, reports_CreateValue.
  - apply reports_push_temporary, reports_CreateArray.
  - apply reports_raise.
Qed.

(** The rules for what a computation returns. *)
Lemma yields_bind {A B} (Q : B → Prop) (m : M A) (k : A → M B) :
  (∀ x, yields Q (k x)) → yields Q (m ≫= k).
Proof.
  intros Hk w b w' H. unfold mbind, M_bind, bind_M in H.
  destruct (m w) as [x w1|]; [|discriminate]. exact (Hk _ _ _ _ H).
Qed.

Lemma yields_ret {A} (Q : A → Prop) (a : A) : Q a → yields Q (ret_M a).
Proof. intros HQ w b w' [= <- <-]. exact HQ. Qed.

Lemma yields_stop {A} (Q : A → Prop) (x : Fault) : yields Q (stop x).
Proof. intros w b w' H. discriminate. Qed.

Ltac yield_steps :=
  repeat first
    [ apply yields_ret
    | apply yields_stop
    | apply yields_bind; intros ?
    | match goal with
      | |- yields _ (match ?x with _ => _ end) => destruct x
      end ].

Lemma deletable_dcArg v a : deletable a → deletable (dcArg v a).
Proof. done. Qed.

Lemma deletable_emplace_back value t a :
  delete_type t ≠ None → deletable a →
  deletable (storage_emplace_back value t a).
Proof.
  intros Ht Ha. unfold deletable, storage_emplace_back. cbn.
  apply Forall_app. split; [exact Ha|]. by constructor.
Qed.

Lemma allocated_is_deletable t T :
  allocation_type t = Some T → delete_type t ≠ None.
Proof. destruct t; done. Qed.

Lemma yields_push_temporary value t a :
  delete_type t ≠ None →
  yields (λ r : bool * ArgsScope, extends a r.2) (push_temporary value t a).
Proof.
  intros Ht. unfold push_temporary. yield_steps; intros Ha; cbn; [done|].
  by apply deletable_dcArg, deletable_emplace_back.
Qed.

(** The pushes file temporaries under deletable tags only. *)
Lemma PushObjectAsParam_extends env paramType pItem a :
  yields (λ r : bool * ArgsScope, extends a r.2)
         (PushObjectAsParam env paramType pItem a).
Proof.
  unfold PushObjectAsParam.
  destruct (type paramType);
    unfold push_integer, push_value, unsupported_param;
    first [ apply yields_bind; intros ?; by apply yields_push_temporary
          | yield_steps; intros Ha; cbn; done ].
Qed.

Lemma PushObjectAsRefParam_extends env paramType pItem a :
  yields (λ r : bool * ArgsScope, extends a r.2)
         (PushObjectAsRefParam env paramType pItem a).
Proof.
  unfold PushObjectAsRefParam.
  destruct (allocation_type (type paramType)) as [[T|T]|] eqn:E;
    try (apply yields_bind; intros ?; apply yields_push_temporary;
         eapply allocated_is_deletable, E).
  unfold unsupported_param. yield_steps. by intros Ha.
Qed.

Lemma BeginExternalCall_extends method a :
  yields (extends a) (BeginExternalCall method a).
Proof.
  unfold BeginExternalCall, return_temporary.
  destruct (type (retType method)); yield_steps; intros Ha; try done;
    by apply deletable_dcArg, deletable_emplace_back.
Qed.

Lemma reports_BeginExternalCall method a :
  reports never (BeginExternalCall method a).
Proof.
  unfold BeginExternalCall, return_temporary.
  destruct (type (retType method)); try (by apply reports_ret);
    (eapply (reports_bind null); [apply reports_new| |]);
    try (intros p Hp; by apply reports_ret).
  all: intros p Hp w; eexists; reflexivity.
Qed.

(** The push loop: a loop that reports failure has raised; it calls no
    native code and keeps the scope deletable. *)
Lemma ExternalCall_push_reports env todo :
  ∀ n a, reports (λ r : bool * nat * ArgsScope, negb r.1.1)
                 (ExternalCall_push env todo n a).
Proof.
  induction todo as [|[paramType item] rest IH]; intros n a;
    cbn [ExternalCall_push].
  - by apply reports_ret.
  - eapply (reports_bind push_failed).
    + destruct (ref paramType);
        [apply reports_PushObjectAsRefParam|apply reports_PushObjectAsParam].
    + intros [pushResult a'] Hf w. unfold push_failed in Hf. cbn in Hf.
      rewrite Hf. eexists; reflexivity.
    + intros [pushResult a'] Hf. unfold push_failed in Hf. cbn in Hf.
      rewrite Hf. apply IH.
Qed.

Lemma ExternalCall_push_extends env todo :
  ∀ n a, yields (λ r : bool * nat * ArgsScope, extends a r.2)
                (ExternalCall_push env todo n a).
Proof.
  induction todo as [|[paramType item] rest IH]; intros n a;
    cbn [ExternalCall_push].
  - apply yields_ret. by intros Ha.
  - intros w r w' H. unfold mbind, M_bind, bind_M in H.
    destruct ((if ref paramType then PushObjectAsRefParam
               else PushObjectAsParam) env paramType item a w)
      as [[pushResult a'] w1|] eqn:E; [|discriminate].
    assert (Hext : extends a a').
    { destruct (ref paramType);
        [exact (PushObjectAsRefParam_extends _ _ _ _ _ _ _ E)
        |exact (PushObjectAsParam_extends _ _ _ _ _ _ _ E)]. }
    destruct (negb pushResult).
    + injection H as <- <-. exact Hext.
    + intros Ha. exact (IH _ _ _ _ _ H (Hext Ha)).
Qed.

(** The destructor of a deletable scope returns, and changes neither the
    error indicator nor the log of native calls. *)
Lemma ArgsScope_destroy_returns st :
  Forall (λ entry : N * ValueType.t, delete_type entry.2 ≠ None) st →
  ∀ w, ∃ w', ArgsScope_destroy st w = Ok tt w' ∧
             pyerr w' = pyerr w ∧ native_calls w' = native_calls w.
Proof.
  induction 1 as [|[ptr t] rest Ht _ IH]; intros w; cbn [ArgsScope_destroy].
  - eexists; split; [reflexivity|done].
  - cbn in Ht. destruct (delete_type t) as [T|]; [|done].
    unfold mbind, M_bind, bind_M, delete_as, modify.
    destruct (IH (set_frees
                    (frees w ++ [{| free_ptr := ptr; free_as := T;
                                    free_actual := cpp_type_of <$> heap w !! ptr |}])
                    (set_heap (delete ptr (heap w)) w)))
      as (w' & Hd & He & Hc).
    exists w'. split; [exact Hd|]. split; [exact He|exact Hc].
Qed.

(** X28.  An outbound call whose marshaling fails before the native function is
    reached (and that is not cut short by a fault) returns null to the
    interpreter with an exception pending, and has not called the native
    function. *)
Lemma outbound_marshaling_failure_raises env method addr args w :
  (length (paramTypes method) < 256)%nat →
  outbound_marshaling_failure env method args w →
  ∃ w', ExternalCall env method addr args w = Ok None w' ∧
        pyerr w' ≠ None ∧
        native_calls w' = native_calls w.
Proof.
  intros Hlen Hfail. unfold ExternalCall.
  destruct Hfail as [Htuple | items -> Hcount
                    | items a0 w0 n a1 w1 -> Hcount Hbegin Hpush].
  - destruct args; try discriminate;
      (eexists; split; [reflexivity|split; [discriminate|reflexivity]]).
  - rewrite uint8_small by exact Hlen.
    apply Nat.eqb_neq in Hcount. rewrite Hcount. cbn [negb].
    eexists; split; [reflexivity|split; [discriminate|reflexivity]].
  - rewrite uint8_small by exact Hlen.
    apply Nat.eqb_eq in Hcount. rewrite Hcount. cbn [negb].
    unfold ExternalCall_in_scope.
    unfold mbind at 1, M_bind at 1, bind_M at 1.
    unfold mbind at 1, M_bind at 1, bind_M at 1. rewrite Hbegin.
    unfold mbind at 1, M_bind at 1, bind_M at 1. rewrite Hpush.
    cbn beta iota. cbn [negb]. unfold ret_M at 1. cbn beta iota.
    destruct (reports_BeginExternalCall _ _ _ _ _ Hbegin) as [Hc0 _].
    destruct (ExternalCall_push_reports _ _ _ _ _ _ _ Hpush) as [Hc1 He1].
    assert (Hdel : deletable a1).
    { apply (ExternalCall_push_extends _ _ _ _ _ _ _ Hpush).
      apply (BeginExternalCall_extends _ _ _ _ _ Hbegin). constructor. }
    destruct (ArgsScope_destroy_returns _ Hdel w1) as (w' & Hd & He & Hc).
    exists w'. unfold mbind, M_bind, bind_M. rewrite Hd.
    split; [reflexivity|]. split.
    + rewrite He. by apply He1.
    + congruence.
Qed.

(** X28, at a call with no argument of a method that has one
    parameter. *)
Lemma call_without_the_argument_raises :
  let env := returning Linux PyNone in
  outbound_marshaling_failure env int32_to_int32 (PyTuple []) initial_world ∧
  ∃ w', ExternalCall env int32_to_int32 100 (PyTuple []) initial_world
        = Ok None w' ∧
        pyerr w' ≠ None ∧
        native_calls w' = native_calls initial_world.
Proof.
  intros env.
  assert (Hfail : outbound_marshaling_failure env int32_to_int32 (PyTuple [])
                    initial_world).
  { apply (wrong_number_of_arguments _ _ _ _ []); [reflexivity|].
    cbn. lia. }
  split; [exact Hfail|].
  apply (outbound_marshaling_failure_raises env int32_to_int32 100
           (PyTuple []) initial_world); [cbn; lia|exact Hfail].
Defined.

(** *** Outbound calls without reference parameters *)

Lemma ExternalCall_push_counts_nothing env todo :
  Forall (λ entry : Property * PyObject, ref entry.1 = false) todo →
  ∀ n a w r w', ExternalCall_push env todo n a w = Ok r w' → r.1.2 = n.
Proof.
  induction 1 as [|[paramType item] rest Hp _ IH]; intros n a w r w';
    cbn [ExternalCall_push].
  - by intros [= <- <-].
  - cbn in Hp. rewrite Hp. unfold mbind, M_bind, bind_M.
    destruct (PushObjectAsParam env paramType item a w)
      as [[pushResult a'] w1|]; [|discriminate].
    destruct (negb pushResult); [by intros [= <- <-]|]. apply IH.
Qed.

Lemma no_reference_in_zip {B} (ps : list Property) (items : list B) :
  List.filter ref ps = [] →
  Forall (λ entry : Property * B, ref entry.1 = false) (zip ps items).
Proof.
  revert items. induction ps as [|p ps IH]; intros items Hf; cbn.
  - constructor.
  - cbn in Hf. destruct (ref p) eqn:Hp; [discriminate|].
    destruct items as [|item items]; constructor; [exact Hp|by apply IH].
Qed.

(** X29.  With no reference parameters, an outbound call whose arguments are all
    pushed hands back just the primary value made from the native
    return. *)
Lemma without_references_the_primary_value_is_returned
    env method addr items w a0 w0 n a1 w1 retObj w2 :
  (length (paramTypes method) < 256)%nat →
  length items = length (paramTypes method) →
  refCount method = 0%nat →
  BeginExternalCall method ArgsScope_new w = Ok a0 w0 →
  ExternalCall_push env (zip (paramTypes method) items) 0 a0 w0
  = Ok (true, n, a1) w1 →
  MakeExternalCall env method addr a1 w1 = Ok (Some retObj) w2 →
  result_of (ExternalCall env method addr (PyTuple items) w)
  = Some (Some retObj).
Proof.
  intros Hlen Hcount Href Hbegin Hpush Hcall. unfold ExternalCall.
  rewrite uint8_small by exact Hlen.
  apply Nat.eqb_eq in Hcount. rewrite Hcount. cbn [negb].
  assert (Hn : n = 0%nat).
  { apply (ExternalCall_push_counts_nothing _ _
             (no_reference_in_zip _ _ (nil_length_inv _ Href))
             _ _ _ _ _ Hpush). }
  subst n.
  unfold ExternalCall_in_scope.
  unfold mbind at 1, M_bind at 1, bind_M at 1.
  unfold mbind at 1, M_bind at 1, bind_M at 1. rewrite Hbegin.
  unfold mbind at 1, M_bind at 1, bind_M at 1. rewrite Hpush.
  cbn beta iota. cbn [negb].
  unfold mbind at 1, M_bind at 1, bind_M at 1. rewrite Hcall.
  cbn [Nat.eqb negb]. unfold ret_M at 1. cbn beta iota.
  assert (Hdel : deletable a1).
  { apply (ExternalCall_push_extends _ _ _ _ _ _ _ Hpush).
    apply (BeginExternalCall_extends _ _ _ _ _ Hbegin). constructor. }
  destruct (ArgsScope_destroy_returns _ Hdel w2) as (w' & Hd & _).
  unfold mbind, M_bind, bind_M. rewrite Hd. reflexivity.
Qed.

(** X29, at the length of the string ["hello"]. *)
Lemma length_of_hello_is_returned_alone :
  let env := calling Linux native_length in
  result_of (ExternalCall env string_to_int32 100
               (PyTuple [PyUnicode [104; 101; 108; 108; 111]%Z])
               initial_world)
  = Some (Some (PyLong 5)).
Proof.
  intros env.
  eapply (without_references_the_primary_value_is_returned env
            string_to_int32 100 [PyUnicode [104; 101; 108; 108; 111]%Z]
            initial_world).
  - cbn. lia.
  - reflexivity.
  - reflexivity.
  - vm_compute. reflexivity.
  - vm_compute. reflexivity.
  - vm_compute. reflexivity.
Defined.

(** * The plugin life cycle and the round trips of the converters *)

(** ** [ReplaceAll] *)

Lemma find_prefix_Some from str i :
  find_prefix from str = Some i →
  str = take i str ++ from ++ drop (i + length from) str ∧
  (i + length from ≤ length str)%nat.
Proof.
  revert i. induction str as [|c str IH]; intros i; cbn.
  - case_bool_decide as Hp; [|discriminate]. intros [= <-].
    apply prefix_nil_inv in Hp as ->. done.
  - case_bool_decide as Hp.
    + intros [= <-]. destruct Hp as [k Hk]. cbn [take app Nat.add].
      assert (Hl : length (c :: str) = length (from ++ k)) by (by rewrite Hk).
      rewrite length_app in Hl. cbn in Hl.
      rewrite Hk, drop_app_length. split; [done|lia].
    + destruct (find_prefix from str) as [j|] eqn:Hj; [|discriminate].
      intros [= <-]. cbn. destruct (IH j eq_refl) as [IH1 IH2].
      split; [by rewrite <- IH1|lia].
Qed.

Lemma string_find_app done rest from pos :
  string_find (done ++ rest) from (length done + pos)
  = (λ i, length done + i)%nat <$> string_find rest from pos.
Proof.
  unfold string_find. rewrite length_app.
  rewrite drop_app_add'; [|done].
  repeat case_bool_decide; try lia; [|done].
  destruct (find_prefix from (drop pos rest)); cbn; [f_equal; lia|done].
Qed.

Lemma string_replace_app done rest p len to :
  string_replace (done ++ rest) (length done + p) len to
  = done ++ string_replace rest p len to.
Proof.
  unfold string_replace.
  rewrite take_app_add'; [|done].
  rewrite <- Nat.add_assoc, drop_app_add'; [|done].
  by rewrite <- app_assoc.
Qed.

(** What lies before the position the loop has reached plays no part in
    what it does next. *)
Lemma ReplaceAll_loop_app fuel done rest from to pos :
  ReplaceAll_loop fuel (done ++ rest) from to (length done + pos)
  = (done ++.) <$> ReplaceAll_loop fuel rest from to pos.
Proof.
  revert rest pos. induction fuel as [|fuel IH]; intros rest pos; [done|].
  cbn [ReplaceAll_loop]. rewrite string_find_app.
  destruct (string_find rest from pos) as [p|];
    cbn [fmap option_fmap option_map]; [|done].
  rewrite string_replace_app, <- Nat.add_assoc. apply IH.
Qed.

Lemma string_find_0 str from : string_find str from 0 = find_prefix from str.
Proof.
  unfold string_find. rewrite bool_decide_true by lia. rewrite drop_0.
  by destruct (find_prefix from str).
Qed.

Lemma ReplaceAll_step fuel str from to i :
  find_prefix from str = Some i →
  ReplaceAll (S fuel) str from to
  = (λ r, take i str ++ to ++ r)
      <$> ReplaceAll fuel (drop (i + length from) str) from to.
Proof.
  intros Hi. unfold ReplaceAll. cbn. rewrite string_find_0, Hi.
  apply find_prefix_Some in Hi as [_ Hlen].
  unfold string_replace. rewrite app_assoc.
  replace (i + length to)%nat with (length (take i str ++ to) + 0)%nat.
  2:{ rewrite length_app, length_take. lia. }
  rewrite ReplaceAll_loop_app.
  destruct (ReplaceAll_loop fuel _ from to 0); cbn; [|done].
  by rewrite <- app_assoc.
Qed.

Lemma ReplaceAll_done fuel str from to :
  find_prefix from str = None → ReplaceAll (S fuel) str from to = Some str.
Proof. intros Hi. unfold ReplaceAll. cbn. by rewrite string_find_0, Hi. Qed.

(** X1.  One round of [ReplaceAll]: when [from] first occurs at
    position [i], the result is the text before [i], then [to], then what
    [ReplaceAll] makes of the text behind the occurrence.  The text put in
    is not searched again, and occurrences are taken from left to right
    without overlap. *)
Theorem ReplaceAll_goes_on_behind_the_replacement fuel str from to i :
  find_prefix from str = Some i →
  ReplaceAll (S fuel) str from to
  = (λ r, take i str ++ to ++ r)
      <$> ReplaceAll fuel (drop (i + length from) str) from to.
Proof. apply ReplaceAll_step. Qed.

(** X1, at ["a.b.c"] with ["."] replaced by ["/"]. *)
Lemma ReplaceAll_goes_on_behind_the_first_dot :
  let str := list_ascii_of_string "a.b.c" in
  find_prefix ["."%char] str = Some 1%nat ∧
  ReplaceAll 4 str ["."%char] ["/"%char]
  = (λ r, take 1 str ++ ["/"%char] ++ r)
      <$> ReplaceAll 3 (drop 2 str) ["."%char] ["/"%char].
Proof.
  intros str. split; [reflexivity|].
  apply (ReplaceAll_goes_on_behind_the_replacement 3 str ["."%char]
           ["/"%char] 1).
  reflexivity.
Defined.

(** X2.  [ReplaceAll] returns when [from] is not empty: more iterations
    than the text has characters are never needed. *)
Theorem ReplaceAll_returns_for_a_pattern_that_is_not_empty str from to fuel :
  from ≠ [] → (length str < fuel)%nat →
  is_Some (ReplaceAll fuel str from to).
Proof.
  intros Hne. revert str. induction fuel as [|fuel IH]; intros str Hf; [lia|].
  destruct (find_prefix from str) as [i|] eqn:Hi.
  - rewrite (ReplaceAll_step _ _ _ _ _ Hi).
    apply find_prefix_Some in Hi as [_ Hlen].
    destruct (IH (drop (i + length from) str)) as [r ->]; [|by eexists].
    rewrite length_drop. destruct from; [done|]. cbn in *. lia.
  - rewrite ReplaceAll_done by done. by eexists.
Qed.

(** X2, at ["a.b.c"] with ["."] replaced by ["/"]. *)
Lemma ReplaceAll_returns_for_the_dot :
  let str := list_ascii_of_string "a.b.c" in
  is_Some (ReplaceAll 6 str ["."%char] ["/"%char]).
Proof.
  intros str.
  apply (ReplaceAll_returns_for_a_pattern_that_is_not_empty str ["."%char]
           ["/"%char] 6).
  - discriminate.
  - cbn. lia.
Defined.

Lemma find_prefix_char c str :
  match find_prefix [c] str with
  | Some i => (c ∉ take i str) ∧ (str !! i = Some c)
  | None => c ∉ str
  end.
Proof.
  induction str as [|x str IH]; cbn.
  - case_bool_decide as Hp; [by apply prefix_nil_inv in Hp|].
    apply not_elem_of_nil.
  - case_bool_decide as Hp.
    + destruct Hp as [k Hk]. injection Hk as -> _. cbn.
      split; [apply not_elem_of_nil|done].
    + destruct (find_prefix [c] str) as [j|]; cbn.
      * destruct IH as [IH1 IH2]. split; [|done].
        rewrite not_elem_of_cons. split; [|done].
        intros ->. apply Hp. by exists str.
      * rewrite not_elem_of_cons. split; [|done].
        intros ->. apply Hp. by exists str.
Qed.

Lemma map_replace_char_absent c d l : c ∉ l → map (replace_char c d) l = l.
Proof.
  induction l as [|x l IH]; [done|]. rewrite not_elem_of_cons. intros [Hx Hl].
  cbn. rewrite IH by done. unfold replace_char.
  by rewrite bool_decide_false by congruence.
Qed.

(** X3.  With one character for [from] and one for [to], as [OnPluginLoad]
    calls it, [ReplaceAll] exchanges every occurrence of the character and
    nothing else. *)
Theorem ReplaceAll_of_one_character_replaces_each_occurrence str c d fuel :
  (length str < fuel)%nat →
  ReplaceAll fuel str [c] [d] = Some (map (replace_char c d) str).
Proof.
  revert str. induction fuel as [|fuel IH]; intros str Hf; [lia|].
  pose proof (find_prefix_char c str) as Hc.
  destruct (find_prefix [c] str) as [i|] eqn:Hi.
  - rewrite (ReplaceAll_step _ _ _ _ _ Hi).
    destruct Hc as [Hpre Hat].
    apply find_prefix_Some in Hi as [Hstr Hlen]. cbn in Hlen.
    rewrite IH by (rewrite length_drop; cbn [length]; lia). cbn. f_equal.
    rewrite Hstr at 3. rewrite !map_app. cbn.
    rewrite (map_replace_char_absent c d (take i str)) by done.
    replace (replace_char c d c) with d; [done|].
    unfold replace_char. by rewrite bool_decide_true.
  - rewrite ReplaceAll_done by done.
    by rewrite map_replace_char_absent.
Qed.

(** X3, at the module path ["pkg.main"] and the separator ["/"]. *)
Lemma ReplaceAll_turns_dots_into_slashes :
  ReplaceAll 9 (list_ascii_of_string "pkg.main") ["."%char] ["/"%char]
  = Some (list_ascii_of_string "pkg/main").
Proof.
  apply (ReplaceAll_of_one_character_replaces_each_occurrence
           (list_ascii_of_string "pkg.main") "."%char "/"%char 9).
  cbn. lia.
Defined.

Lemma ReplaceAll_loop_empty fuel str to pos :
  (pos ≤ length str)%nat → ReplaceAll_loop fuel str [] to pos = None.
Proof.
  revert str pos. induction fuel as [|fuel IH]; intros str pos Hp; [done|].
  cbn. unfold string_find. rewrite bool_decide_true by done.
  assert (find_prefix [] (drop pos str) = Some 0%nat) as ->.
  { destruct (drop pos str); cbn; rewrite bool_decide_true; try done;
      apply prefix_nil. }
  cbn. apply IH. unfold string_replace.
  rewrite !length_app, length_take, length_drop. lia.
Qed.

(** X4.  With the empty string for [from] the loop of [ReplaceAll] does
    not end: the search succeeds at every position it is started from, so
    whatever number of iterations is allowed, the function has not
    returned. *)
Theorem ReplaceAll_of_the_empty_pattern_does_not_return fuel str to :
  ReplaceAll fuel str [] to = None.
Proof. apply ReplaceAll_loop_empty. lia. Qed.

(** ** The entry point of a plugin *)

Lemma find_first_of_None str chars :
  find_first_of str chars = None ↔ ∀ ch, ch ∈ chars → ch ∉ str.
Proof.
  induction str as [|c str IH]; cbn.
  - split; [|done]. intros _ ch _. apply not_elem_of_nil.
  - case_bool_decide as Hc.
    + split; [done|]. intros H. exfalso. apply (H c Hc). left.
    + destruct (find_first_of str chars) as [i|]; cbn.
      * split; [done|]. intros H. exfalso.
        assert (Some i = None) as [=]. apply IH. intros ch Hch Hin.
        apply (H ch Hch). by right.
      * split; [|done]. intros _ ch Hch. rewrite not_elem_of_cons. split.
        -- intros ->. done.
        -- by apply IH.
Qed.

Lemma find_last_of_None str ch : find_last_of str ch = None ↔ ch ∉ str.
Proof.
  induction str as [|c str IH]; cbn.
  - split; [|done]. intros _. apply not_elem_of_nil.
  - destruct (find_last_of str ch) as [j|].
    + split; [done|]. rewrite not_elem_of_cons. intros [_ H].
      by apply IH in H.
    + case_bool_decide as Hc.
      * split; [done|]. rewrite not_elem_of_cons. intros [H _]. congruence.
      * split; [|done]. intros _. rewrite not_elem_of_cons.
        split; [congruence|]. by apply IH.
Qed.

Lemma find_last_of_Some str ch i :
  find_last_of str ch = Some i ↔
  str = take i str ++ ch :: drop (S i) str ∧ (ch ∉ drop (S i) str).
Proof.
  revert i. induction str as [|c str IH]; intros i.
  - cbn. split; [done|]. intros [H _]. by destruct (take i []).
  - cbn [find_last_of]. pose proof (find_last_of_None str ch) as HN.
    destruct (find_last_of str ch) as [j|].
    + destruct (IH j) as [(Hs & Hn) _]; [done|]. split.
      * intros [= <-]. cbn. split; [by rewrite <- Hs|done].
      * intros (H1 & H3). destruct i as [|i].
        -- cbn in *. rewrite drop_0 in H3. exfalso. apply H3. rewrite Hs.
           apply elem_of_app. right. left.
        -- cbn in *. injection H1 as H1. f_equal.
           assert (Some j = Some i) as [= ->]; [|done]. apply IH. done.
    + assert (Hnot : ch ∉ str) by (by apply HN).
      case_bool_decide as Hc.
      * subst c. split.
        -- intros [= <-]. cbn. rewrite drop_0. done.
        -- intros (H1 & H3). destruct i as [|i]; [done|]. exfalso.
           cbn in *. injection H1 as H1. apply Hnot. rewrite H1.
           apply elem_of_app. right. left.
      * split; [done|]. intros (H1 & H3). destruct i as [|i].
        -- cbn in H1. congruence.
        -- cbn in *. injection H1 as H1. exfalso. apply Hnot. rewrite H1.
           apply elem_of_app. right. left.
Qed.

(** X5.  [OnPluginLoad] accepts exactly the entry points of the shape
    [path.Class]: it splits the entry point at its last dot into a module
    path and a class name, both not empty, the class name without a dot,
    and neither part with a slash or a backslash.  Every other entry point
    is answered with an error. *)
Theorem entry_point_splits_at_the_last_dot plugin className modulePathRel :
  OnPluginLoad_entry_point plugin = inr (className, modulePathRel) ↔
  list_ascii_of_string (entryPoint (GetDescriptor plugin))
  = modulePathRel ++ "."%char :: className ∧
  modulePathRel ≠ [] ∧ className ≠ [] ∧ ("."%char ∉ className) ∧
  ("/"%char ∉ modulePathRel ++ className) ∧
  ("\"%char ∉ modulePathRel ++ className).
Proof.
  unfold OnPluginLoad_entry_point.
  set (e := list_ascii_of_string (entryPoint (GetDescriptor plugin))).
  split.
  - case_bool_decide as He; [done|].
    case_bool_decide as Hs; [done|].
    destruct (find_last_of e "."%char) as [i|] eqn:Hi; [|done].
    case_bool_decide as Hc; [done|].
    case_bool_decide as Hm; [done|].
    intros [= <- <-].
    apply find_last_of_Some in Hi as [Hsplit Hdot].
    replace (i + 1)%nat with (S i) in * by lia.
    split; [done|]. split; [done|]. split; [done|]. split; [done|].
    assert (find_first_of e ["/"%char; "\"%char] = None) as Hnone.
    { destruct (find_first_of e _); [|done]. exfalso. apply Hs. by eexists. }
    rewrite find_first_of_None in Hnone.
    assert (∀ ch, ch ∈ ["/"%char; "\"%char] →
                  ch ∉ take i e ++ drop (S i) e) as H.
    { intros ch Hch Hin. apply (Hnone ch Hch). rewrite Hsplit.
      rewrite elem_of_app in Hin. rewrite elem_of_app, elem_of_cons. tauto. }
    split; apply H; [left|right; left].
  - intros (Hsplit & Hm & Hc & Hdot & Hslash & Hback).
    assert (Htake : take (length modulePathRel) e = modulePathRel).
    { rewrite Hsplit. by rewrite take_app_length. }
    assert (Hdrop : drop (S (length modulePathRel)) e = className).
    { rewrite Hsplit, cons_middle, app_assoc. apply drop_app_length'.
      rewrite length_app. cbn. lia. }
    assert (Hi : find_last_of e "."%char = Some (length modulePathRel)).
    { apply find_last_of_Some. rewrite Htake, Hdrop. done. }
    rewrite bool_decide_false by (rewrite Hsplit; by destruct modulePathRel).
    rewrite bool_decide_false.
    2:{ intros [k Hk].
        assert (find_first_of e ["/"%char; "\"%char] = None) as HN;
          [|congruence].
        apply find_first_of_None. intros ch Hch. rewrite Hsplit.
        rewrite elem_of_app, elem_of_cons.
        rewrite elem_of_app in Hslash, Hback.
        apply elem_of_cons in Hch as [->|Hch];
          [|apply list_elem_of_singleton in Hch as ->];
          intros [Hin|[Heq|Hin]]; try discriminate; tauto. }
    rewrite Hi.
    replace (length modulePathRel + 1)%nat with (S (length modulePathRel))
      by lia.
    rewrite Hdrop, Htake. by rewrite !bool_decide_false.
Qed.

(** ** The export of a plugin's methods *)

Lemma find_prefix_first_char c pre post :
  c ∉ pre → find_prefix [c] (pre ++ c :: post) = Some (length pre).
Proof.
  induction pre as [|x pre IH]; cbn.
  - intros _. rewrite bool_decide_true; [done|]. by exists post.
  - rewrite not_elem_of_cons. intros [Hx Hpre].
    rewrite bool_decide_false.
    + by rewrite IH.
    + intros [k Hk]. injection Hk as -> _. done.
Qed.

Lemma PyObject_GetAttrString_inv o attr_name w r w' :
  PyObject_GetAttrString o attr_name w = Ok r w' →
  (∃ v, r = Some v ∧ w' = w) ∨
  (r = None ∧
   w' = set_pyerr (Some {| exc := PyExc_AttributeError; msg := attr_name |})
          w).
Proof.
  unfold PyObject_GetAttrString. unfold_M.
  destruct o; try (intros [= <- <-]; by right).
  destruct (assoc_lookup attr_name attrs); intros [= <- <-];
    [left; by eexists|by right].
Qed.

Lemma PyObject_GetAttrString_total o attr_name w :
  ∃ r w', PyObject_GetAttrString o attr_name w = Ok r w' ∧
          _externalMap w' = _externalMap w ∧
          _internalMap w' = _internalMap w ∧
          next_addr w' = next_addr w.
Proof.
  unfold PyObject_GetAttrString. unfold_M.
  destruct o; try (by eexists _, _).
  destruct (assoc_lookup attr_name attrs); by eexists _, _.
Qed.

(** X6.  A function exported under a class-qualified name
    ([Class.function]) is always handed on as a method bound to the plugin
    instance, static methods included: [IsStaticMethod] recognises built-in
    function objects only, and those have been refused by the
    [PyFunction_Check] before it. *)
Theorem class_qualified_export_is_always_bound
    env host method pluginModule pluginInstance cls meth w data w' :
  list_ascii_of_string (funcName method) = cls ++ "."%char :: meth →
  cls ≠ [] → "."%char ∉ cls →
  GenerateMethodExport env host method pluginModule pluginInstance w
  = Ok (MethodExportData data) w' →
  ∃ classType p a,
    PyObject_GetAttrString pluginModule (string_of_list_ascii cls) w
    = Ok (Some classType) w ∧
    PyObject_GetAttrString classType (string_of_list_ascii meth) w
    = Ok (Some (PyFunction p)) w ∧
    pythonFunction data = PyMethod a (PyFunction p) pluginInstance.
Proof.
  intros Hname Hcls Hdot. unfold GenerateMethodExport.
  rewrite string_find_0, Hname, find_prefix_first_char by done.
  rewrite take_app_length.
  replace (drop (length cls + 1) (cls ++ "."%char :: meth)) with meth.
  2:{ rewrite cons_middle, app_assoc. symmetry. apply drop_app_length'.
      rewrite length_app. cbn. lia. }
  rewrite bool_decide_false by done. cbn [negb].
  unfold mbind, M_bind, bind_M at 1.
  unfold mbind, M_bind, bind_M at 1.
  destruct (PyObject_GetAttrString pluginModule (string_of_list_ascii cls) w)
    as [classType w1|] eqn:Hc; [|done].
  apply PyObject_GetAttrString_inv in Hc as Hc'.
  destruct Hc' as [(c & -> & ->)|[-> ->]].
  2:{ unfold_M. cbn. discriminate. }
  destruct (PyObject_GetAttrString c (string_of_list_ascii meth) w)
    as [func w2|] eqn:Hf; [|done].
  apply PyObject_GetAttrString_inv in Hf as Hf'.
  destruct Hf' as [(f & -> & ->)|[-> ->]].
  2:{ unfold_M. cbn. discriminate. }
  destruct f; cbn [PyFunction_Check negb]; try (unfold_M; discriminate).
  cbn [IsStaticMethod negb andb].
  unfold PyMethod_New, CreateInternalCall, fresh_address.
  unfold_M. destruct (GetJitFunc env method _) as [a w3|]; [|done].
  destruct (negb (a =? 0)%N); cbn; [|discriminate].
  intros [= <- <-]. by eexists c, p, _.
Qed.

(** X6, at the export of [Greeter.hello] from the plugin module of the
    scenario. *)
Lemma hello_is_exported_as_a_bound_method :
  let env := returning Linux PyNone in
  let data :=
    {| jitFunction := 4098%N;
       pythonFunction := PyMethod 4097 (PyFunction 11) demo_instance |} in
  GenerateMethodExport env plain_host hello_export demo_module demo_instance
    initial_world
  = Ok (MethodExportData data) (set_next_addr 4098 initial_world) ∧
  ∃ classType p a,
    PyObject_GetAttrString demo_module "Greeter" initial_world
    = Ok (Some classType) initial_world ∧
    PyObject_GetAttrString classType "hello" initial_world
    = Ok (Some (PyFunction p)) initial_world ∧
    pythonFunction data = PyMethod a (PyFunction p) demo_instance.
Proof.
  intros env data. split; [vm_compute; reflexivity|].
  apply (class_qualified_export_is_always_bound env plain_host hello_export
           demo_module demo_instance (list_ascii_of_string "Greeter")
           (list_ascii_of_string "hello") initial_world data
           (set_next_addr 4098 initial_world)).
  - reflexivity.
  - discriminate.
  - apply (bool_decide_unpack _). vm_compute. exact I.
  - vm_compute. reflexivity.
Defined.

Lemma PyObject_GetAttrString_attribute o n w v w' :
  PyObject_GetAttrString o (string_of_list_ascii n) w = Ok (Some v) w' →
  attribute o n = Some v ∧ w' = w.
Proof.
  unfold PyObject_GetAttrString, attribute. unfold_M.
  destruct o; try discriminate.
  destruct (assoc_lookup _ attrs); [|discriminate]. by intros [= <- <-].
Qed.

(** What a successful export hands on is the function [funcName] names,
    bound to the instance when the name is class-qualified. *)
Lemma GenerateMethodExport_exported_as env host method pm pi w data w' :
  GenerateMethodExport env host method pm pi w
  = Ok (MethodExportData data) w' →
  exported_as pm pi method (pythonFunction data).
Proof.
  unfold GenerateMethodExport, exported_as, class_and_function.
  destruct (match string_find _ _ _ with Some pos => _ | None => _ end)
    as [className methodName].
  cbn [fst snd]. case_bool_decide as Hc; cbn [negb].
  - unfold mbind, M_bind, bind_M at 1.
    destruct (PyObject_GetAttrString pm _ w) as [[func|] w1|] eqn:Hf;
      [|unfold_M; discriminate|done].
    apply PyObject_GetAttrString_attribute in Hf as [Hf ->].
    destruct func; cbn [PyFunction_Check negb]; try (unfold_M; discriminate).
    cbn [andb]. unfold CreateInternalCall. unfold_M.
    destruct (GetJitFunc env method w) as [a w3|]; [|done].
    destruct (negb (a =? 0)%N); cbn; [|discriminate].
    intros [= <- <-]. by exists p.
  - unfold mbind, M_bind, bind_M at 1.
    unfold mbind, M_bind, bind_M at 1.
    destruct (PyObject_GetAttrString pm _ w) as [[classType|] w1|] eqn:Hcls;
      [|unfold_M; discriminate|done].
    apply PyObject_GetAttrString_attribute in Hcls as [Hcls ->].
    destruct (PyObject_GetAttrString classType _ w) as [[func|] w1|] eqn:Hf;
      [|unfold_M; discriminate|done].
    apply PyObject_GetAttrString_attribute in Hf as [Hf ->].
    destruct func; cbn [PyFunction_Check negb]; try (unfold_M; discriminate).
    cbn [IsStaticMethod negb andb].
    unfold PyMethod_New, CreateInternalCall, fresh_address.
    unfold_M. destruct (GetJitFunc env method _) as [a w3|]; [|done].
    destruct (negb (a =? 0)%N); cbn; [|discriminate].
    intros [= <- <-]. by eexists p, classType, _.
Qed.

(** Every export of a class-qualified name makes a method object of its
    own, so two exports of the same function of a class are filed under
    two keys of the internal map. *)
Example bound_methods_are_filed_apart :
  let plugin := demo_plugin [hello_export; hello_again_export] [] in
  (λ w, size (_internalMap w))
    <$> world_of (OnPluginLoad_export (returning Linux PyNone) plain_host
                    plugin demo_module demo_instance no_members
                    initial_world)
  = Some 2%nat.
Proof. vm_compute. reflexivity. Qed.

(** What one export does to the world: it always returns, the two cache
    maps stay as they are, and a generated trampoline takes the last
    address handed out. *)
Lemma GenerateMethodExport_world env host method pm pi w :
  ∃ r w', GenerateMethodExport env host method pm pi w = Ok r w' ∧
    _externalMap w' = _externalMap w ∧ _internalMap w' = _internalMap w ∧
    (next_addr w ≤ next_addr w')%N ∧
    match r with
    | MethodExportData data =>
        (next_addr w < jitFunction data)%N ∧ jitFunction data = next_addr w'
    | MethodExportError _ => True
    end.
Proof.
  unfold GenerateMethodExport.
  destruct (match string_find _ _ _ with Some pos => _ | None => _ end)
    as [className methodName].
  set (lookup := if negb (bool_decide (className = [])) then _ else _).
  assert (∃ r w', lookup w = Ok r w' ∧
          _externalMap w' = _externalMap w ∧
          _internalMap w' = _internalMap w ∧
          next_addr w' = next_addr w) as (func & w1 & Hl & He & Hi & Hn).
  { subst lookup. destruct (negb _).
    - unfold mbind, M_bind, bind_M.
      destruct (PyObject_GetAttrString_total pm
                  (string_of_list_ascii className) w)
        as (r & w1 & -> & ? & ? & ?).
      destruct r as [c|].
      + destruct (PyObject_GetAttrString_total c
                    (string_of_list_ascii methodName) w1)
          as (r & w2 & -> & ? & ? & ?).
        eexists _, _. split; [done|]. split_and!; congruence.
      + unfold_M. by eexists _, _.
    - apply PyObject_GetAttrString_total. }
  unfold mbind, M_bind, bind_M at 1. rewrite Hl.
  destruct func as [func|];
    [|unfold_M; eexists _, _; split_and!; try done; lia].
  destruct (PyFunction_Check func); cbn [negb];
    [|unfold_M; eexists _, _; split_and!; try done; lia].
  set (b := negb (bool_decide (className = []))
            && negb (IsStaticMethod host func)).
  unfold PyMethod_New, CreateInternalCall, GetJitFunc, fresh_address.
  destruct b; unfold_M; destruct (jit_supported env method); cbn.
  all: repeat match goal with
       | |- context [(N.succ ?x =? 0)%N] =>
           destruct (N.eqb_spec (N.succ x) 0); [lia|]
       end; cbn.
  all: eexists _, _; split; [done|]; cbn; split_and!; try congruence; lia.
Qed.

(** The export loop: it returns; it leaves the cache maps alone; the
    trampolines it generates have addresses of their own, handed out
    during the loop, each for the function its signature names; and it
    reports success exactly when it has added no error, in which case it
    has generated one method per signature. *)
Lemma OnPluginLoad_generate_spec env host todo pm pi :
  ∀ r errs holders w,
  ∃ r' more new w',
    OnPluginLoad_generate env host todo pm pi r errs holders w
    = Ok (r', errs ++ more, holders ++ new) w' ∧
    _externalMap w' = _externalMap w ∧ _internalMap w' = _internalMap w ∧
    (next_addr w ≤ next_addr w')%N ∧
    Forall (λ h, (next_addr w < jitFunction h.2 ≤ next_addr w')%N) new ∧
    NoDup ((λ h, jitFunction h.2) <$> new) ∧
    Forall (λ h, exported_as pm pi h.1 (pythonFunction h.2)) new ∧
    (r' = true → r = true ∧ more = [] ∧ fst <$> new = todo) ∧
    (r' = false → r = false ∨ more ≠ []).
Proof.
  induction todo as [|method todo IH]; intros r errs holders w; cbn.
  - exists r, [], [], w. rewrite !app_nil_r. unfold_M.
    split; [done|]. split; [done|]. split; [done|]. split; [lia|].
    split; [constructor|]. split; [constructor|]. split; [constructor|].
    split; [done|]. intros ->. by left.
  - unfold mbind, M_bind, bind_M.
    destruct (GenerateMethodExport_world env host method pm pi w)
      as (g & w1 & Hgen & He & Hi & Hle & Hg).
    rewrite Hgen. destruct g as [e|data].
    + destruct (IH false (errs ++ [e]) holders w1)
        as (r' & more & new & w' & -> & He' & Hi' & Hn' & Hf & Hd & Hx & Ht
            & Hfalse).
      exists r', (e :: more), new, w'. rewrite <- app_assoc. split; [done|].
      split_and!; try congruence; try done.
      * lia.
      * eapply Forall_impl; [exact Hf|]. cbn. lia.
      * intros ->. by destruct Ht.
      * intros _. by right.
    + destruct Hg as [Hj Hn].
      pose proof (GenerateMethodExport_exported_as _ _ _ _ _ _ _ _ Hgen)
        as Hexp.
      destruct (IH r errs (holders ++ [(method, data)]) w1)
        as (r' & more & new & w' & -> & He' & Hi' & Hn' & Hf & Hd & Hx & Ht
            & Hfalse).
      exists r', more, ((method, data) :: new), w'.
      rewrite <- app_assoc. split; [done|].
      split_and!; try congruence.
      * lia.
      * constructor; [cbn; lia|]. eapply Forall_impl; [exact Hf|]. cbn. lia.
      * cbn. constructor; [|done]. rewrite list_elem_of_fmap.
        intros (h & Hh & Hin). rewrite Forall_forall in Hf.
        specialize (Hf h Hin). cbn in Hf. lia.
      * by constructor.
      * intros Hr. destruct (Ht Hr) as (-> & -> & <-). done.
      * done.
Qed.

Lemma OnPluginLoad_register_spec holders :
  ∀ methods s w,
  ∃ w', OnPluginLoad_register holders methods s w
        = Ok (methods ++ (registered <$> holders),
              set_pythonMethods (_pythonMethods s ++ holders.*2) s) w' ∧
        next_addr w' = next_addr w ∧ pyerr w' = pyerr w.
Proof.
  induction holders as [|[method data] holders IH]; intros methods s w; cbn.
  - exists w. rewrite !app_nil_r. unfold_M. destruct s.
    split_and!; reflexivity.
  - unfold AddToFunctionsMap. unfold_M.
    edestruct IH as (w' & -> & Hn & Hp). exists w'.
    cbn in *. rewrite <- !app_assoc. cbn. by destruct s.
Qed.

Lemma FindPythonMethod_app_old old new addr :
  Forall (λ d, jitFunction d ≠ addr) old →
  FindPythonMethod (old ++ new) addr = FindPythonMethod new addr.
Proof.
  induction 1 as [|d old Hd _ IH]; [done|]. cbn.
  destruct (N.eqb_spec (jitFunction d) addr); done.
Qed.

Lemma FindPythonMethod_NoDup l d :
  NoDup (jitFunction <$> l) → d ∈ l →
  FindPythonMethod l (jitFunction d) = Some (pythonFunction d).
Proof.
  induction l as [|x l IH]; [by intros _ ?%elem_of_nil|].
  cbn. intros [Hx Hl]%NoDup_cons [->|Hin]%elem_of_cons.
  - by rewrite N.eqb_refl.
  - destruct (N.eqb_spec (jitFunction x) (jitFunction d)) as [Heq|];
      [|by apply IH].
    exfalso. apply Hx. rewrite Heq. apply list_elem_of_fmap. by exists d.
Qed.

Lemma assoc_lookup_set_eq k v l : assoc_lookup k (assoc_set k v l) = Some v.
Proof.
  induction l as [|[k' x] l IH]; cbn.
  - by rewrite String.eqb_refl.
  - destruct (String.eqb k' k) eqn:E; cbn; rewrite E; done.
Qed.

Lemma assoc_lookup_set_ne k k' v l :
  k ≠ k' → assoc_lookup k (assoc_set k' v l) = assoc_lookup k l.
Proof.
  intros Hne. induction l as [|[k'' x] l IH]; cbn.
  - destruct (String.eqb_spec k' k); [congruence|done].
  - destruct (String.eqb_spec k'' k') as [->|]; cbn.
    + destruct (String.eqb_spec k' k); [congruence|done].
    + destruct (String.eqb_spec k'' k); done.
Qed.

Lemma find_exported_Some n exported :
  n ∈ name <$> exported → is_Some (find_exported n exported).
Proof.
  induction exported as [|m l IH]; cbn; [by intros ?%elem_of_nil|].
  intros [->|Hin]%elem_of_cons.
  - rewrite String.eqb_refl. by eexists.
  - destruct (String.eqb n (name m)); [by eexists|by apply IH].
Qed.

Lemma CreateInternalModule_loop_spec plugin s todo :
  (∀ n addr, (n, addr) ∈ todo →
     is_Some (find_exported n (exportedMethods (GetDescriptor plugin))) ∧
     is_Some (FindPythonMethod (_pythonMethods s) addr)) →
  NoDup todo.*1 →
  ∀ cls attrs w0,
  ∃ attrs',
    CreateInternalModule_loop plugin s todo (Some (PyInstance cls attrs)) w0
    = Ok (Some (PyInstance cls attrs')) w0 ∧
    (∀ n addr, (n, addr) ∈ todo →
       ∃ f, FindPythonMethod (_pythonMethods s) addr = Some f ∧
            assoc_lookup n attrs' = Some f) ∧
    (∀ k, k ∉ todo.*1 → assoc_lookup k attrs' = assoc_lookup k attrs).
Proof.
  induction todo as [|[n addr] todo IH]; intros Hall Hnd cls attrs w0.
  - exists attrs. cbn. unfold_M. split; [done|]. split; [|done].
    by intros ?? ?%elem_of_nil.
  - cbn in Hnd. apply NoDup_cons in Hnd as [Hn Hnd].
    destruct (Hall n addr) as [[m Hm] [f Hf]]; [left|].
    cbn [CreateInternalModule_loop]. rewrite Hm, Hf.
    unfold PyObject_SetAttrString. unfold_M.
    destruct (IH (λ n' a' Hin, Hall n' a' (list_elem_of_further _ _ _ Hin))
                Hnd cls (assoc_set n f attrs) w0)
      as (attrs' & -> & Hin' & Hout).
    exists attrs'. split; [done|]. split.
    + intros n' a' [[= -> ->]|Hin]%elem_of_cons.
      * exists f. split; [done|]. rewrite Hout by done.
        apply assoc_lookup_set_eq.
      * by apply Hin'.
    + intros k Hk. cbn in Hk. apply not_elem_of_cons in Hk as [Hk1 Hk2].
      rewrite Hout by done. by apply assoc_lookup_set_ne.
Qed.

(** X7.  A load that is answered with an error registers nothing: the
    plugin map, the list of exported script methods and the two maps of
    the function cache are as they were, also when some of the methods had
    been generated before one failed. *)
Theorem failed_load_registers_nothing
    env host plugin pluginModule pluginInstance s w error s' w' :
  OnPluginLoad_export env host plugin pluginModule pluginInstance s w
  = Ok (ErrorData error, s') w' →
  s' = s ∧ _externalMap w' = _externalMap w ∧ _internalMap w' = _internalMap w.
Proof.
  unfold OnPluginLoad_export.
  case_bool_decide as Hc; [unfold_M; by intros [= <- <- <-]|].
  unfold mbind, M_bind, bind_M at 1.
  destruct (OnPluginLoad_generate_spec env host
              (exportedMethods (GetDescriptor plugin)) pluginModule
              pluginInstance true [] [] w)
    as (r' & more & new & w1 & -> & He & Hi & _). cbn [app].
  destruct r'; cbn [negb].
  - destruct (_pluginsMap s !! GetName plugin);
      [unfold_M; intros [= <- <- <-]; done|].
    unfold mbind, M_bind, bind_M at 1.
    edestruct OnPluginLoad_register_spec as (w2 & -> & _). discriminate.
  - destruct more; [done|]. unfold_M. intros [= <- <- <-]. done.
Qed.

(** X7, at a plugin that exports [add], which the module has, and
    [missing], which it has not. *)
Lemma load_with_a_missing_function_registers_nothing :
  let env := returning Linux PyNone in
  let plugin := demo_plugin [add_export; gone_export] [] in
  ∃ w',
    OnPluginLoad_export env plain_host plugin demo_module demo_instance
      no_members initial_world
    = Ok (ErrorData
            "Methods export error(s): Gone (Not found 'missing' in module)",
          no_members) w' ∧
    _externalMap w' = _externalMap initial_world ∧
    _internalMap w' = _internalMap initial_world.
Proof.
  intros env plugin.
  destruct (OnPluginLoad_export env plain_host plugin demo_module
              demo_instance no_members initial_world)
    as [[r s'] w'|] eqn:Hrun; [|vm_compute in Hrun; discriminate].
  assert (Hr : r = ErrorData
            "Methods export error(s): Gone (Not found 'missing' in module)").
  { vm_compute in Hrun. by injection Hrun as <- _ _. }
  subst r.
  destruct (failed_load_registers_nothing env plain_host plugin demo_module
              demo_instance no_members initial_world _ s' w' Hrun)
    as (-> & He & Hi).
  exists w'. split; [reflexivity|]. split; [exact He|exact Hi].
Defined.

(** Where a successful load leaves the members, and what
    [CreateInternalModule] then makes of the methods it handed back. *)
Lemma CreateInternalModule_after_load
    env host plugin pluginModule pluginInstance s w methods s' w' w0 :
  Forall (λ d, (jitFunction d ≤ next_addr w)%N) (_pythonMethods s) →
  NoDup (name <$> exportedMethods (GetDescriptor plugin)) →
  is_Some (utf8_decode (bytes_of (GetName plugin))) →
  OnPluginLoad_export env host plugin pluginModule pluginInstance s w
  = Ok (LoadResultData methods, s') w' →
  methods.*1 = name <$> exportedMethods (GetDescriptor plugin) ∧
  ∃ moduleObject mattrs,
    CreateInternalModule (with_methods plugin methods) s' w0
    = Ok (Some moduleObject) w0 ∧
    moduleObject = PyInstance PyModule_Type mattrs ∧
    ∀ n addr, (n, addr) ∈ methods →
      ∃ method f,
        method ∈ exportedMethods (GetDescriptor plugin) ∧ name method = n ∧
        exported_as pluginModule pluginInstance method f ∧
        FindPythonMethod (_pythonMethods s') addr = Some f ∧
        PyObject_GetAttrString moduleObject n w0 = Ok (Some f) w0.
Proof.
  intros Hold Hnd [nm Hutf]. unfold OnPluginLoad_export.
  case_bool_decide as Hc; [unfold_M; discriminate|].
  unfold mbind, M_bind, bind_M at 1.
  destruct (OnPluginLoad_generate_spec env host
              (exportedMethods (GetDescriptor plugin)) pluginModule
              pluginInstance true [] [] w)
    as (r' & more & new & w1 & -> & He & Hi & Hn & Hrange & Haddr & Hexp
        & Htrue & Hfalse).
  cbn [app]. destruct r'; cbn [negb].
  2:{ destruct (Hfalse eq_refl) as [|Hmore]; [done|].
      destruct more; [done|]. unfold_M. discriminate. }
  destruct (Htrue eq_refl) as (_ & -> & Hnames).
  destruct (_pluginsMap s !! GetName plugin) eqn:Hlook;
    [exfalso; apply Hc; by eexists|].
  unfold mbind, M_bind, bind_M at 1.
  edestruct OnPluginLoad_register_spec as (w2 & -> & _).
  unfold_M. cbn [app]. intros [= <- <- <-].
  assert (Hm1 : (registered <$> new).*1
                = name <$> exportedMethods (GetDescriptor plugin)).
  { rewrite <- Hnames. rewrite <- !list_fmap_compose. done. }
  split; [done|].
  assert (Hfind : ∀ m d, (m, d) ∈ new →
            FindPythonMethod (_pythonMethods s ++ new.*2) (jitFunction d)
            = Some (pythonFunction d)).
  { intros m d Hin. rewrite FindPythonMethod_app_old.
    - rewrite (FindPythonMethod_NoDup _ d); [done| |].
      + by rewrite <- list_fmap_compose.
      + apply list_elem_of_fmap. by exists (m, d).
    - rewrite Forall_forall in Hrange. specialize (Hrange _ Hin).
      cbn in Hrange. eapply Forall_impl; [exact Hold|]. cbn. lia. }
  unfold CreateInternalModule.
  cbn [GetName with_methods _pluginsMap set_pluginsMap set_pythonMethods].
  rewrite lookup_insert_eq. rewrite bool_decide_true by (by eexists).
  cbn [negb].
  unfold PyModule_New, PyUnicode_FromStringAndSize. rewrite Hutf. unfold_M.
  cbn [GetMethods].
  edestruct (CreateInternalModule_loop_spec
               (with_methods plugin (registered <$> new)))
    as (attrs' & Hloop & Hin & _); [| |rewrite Hloop].
  - intros n addr Hin. split.
    + apply find_exported_Some. cbn. rewrite <- Hm1.
      apply list_elem_of_fmap. by exists (n, addr).
    + cbn. apply list_elem_of_fmap in Hin as ([m d] & [= -> ->] & Hin).
      rewrite (Hfind m d Hin). by eexists.
  - cbn [GetMethods with_methods]. by rewrite Hm1.
  - eexists _, _. split; [done|]. split; [done|]. intros n addr Hin'.
    destruct (Hin n addr Hin') as (f & Hf & Hl).
    apply list_elem_of_fmap in Hin' as ([m d] & [= -> ->] & Hin').
    cbn in Hf. rewrite (Hfind m d Hin') in Hf. injection Hf as <-.
    exists m, (pythonFunction d). split_and!.
    + rewrite <- Hnames. apply list_elem_of_fmap. by exists (m, d).
    + done.
    + rewrite Forall_forall in Hexp. exact (Hexp _ Hin').
    + cbn. exact (Hfind m d Hin').
    + unfold PyObject_GetAttrString. rewrite Hl. done.
Qed.

(** X8.  Load, then export.  After a successful load of a plugin whose
    exported methods have names of their own, the load result names the
    exported methods in order, and [CreateInternalModule], run on the
    plugin with the methods the load handed back, ends without
    [std::terminate] and makes a module in which the name of every
    exported method is bound to the script callable of that method: the
    function its [funcName] names in the plugin's module, bound to the
    plugin instance when the name is class-qualified.  Scripts that call
    the plugin through this module reach that callable itself, with no
    marshaling in between, and it is the callable [FindPythonMethod] finds
    for the method's address.  The trampolines registered earlier have
    addresses handed out earlier, and the plugin's name is UTF-8. *)
Theorem loaded_plugin_exports_its_callables
    env host plugin pluginModule pluginInstance s w methods s' w' w0 :
  Forall (λ d, (jitFunction d ≤ next_addr w)%N) (_pythonMethods s) →
  NoDup (name <$> exportedMethods (GetDescriptor plugin)) →
  is_Some (utf8_decode (bytes_of (GetName plugin))) →
  OnPluginLoad_export env host plugin pluginModule pluginInstance s w
  = Ok (LoadResultData methods, s') w' →
  methods.*1 = name <$> exportedMethods (GetDescriptor plugin) ∧
  ∃ moduleObject mattrs,
    CreateInternalModule (with_methods plugin methods) s' w0
    = Ok (Some moduleObject) w0 ∧
    moduleObject = PyInstance PyModule_Type mattrs ∧
    ∀ n addr, (n, addr) ∈ methods →
      ∃ method f,
        method ∈ exportedMethods (GetDescriptor plugin) ∧ name method = n ∧
        exported_as pluginModule pluginInstance method f ∧
        FindPythonMethod (_pythonMethods s') addr = Some f ∧
        PyObject_GetAttrString moduleObject n w0 = Ok (Some f) w0.
Proof. apply CreateInternalModule_after_load. Qed.

(** X8, at the plugin of the scenario with its exports [add] and
    [Greeter.hello]: the module binds [Add] to the function [add] and
    [Hello] to the function [hello] of [Greeter], bound to the instance. *)
Lemma demo_plugin_exports_add_and_hello :
  let env := returning Linux PyNone in
  let plugin := demo_plugin [add_export; hello_export] [] in
  exported_as demo_module demo_instance add_export (PyFunction 10) ∧
  exported_as demo_module demo_instance hello_export
    (PyMethod 4098 (PyFunction 11) demo_instance) ∧
  ∃ methods s' w',
    OnPluginLoad_export env plain_host plugin demo_module demo_instance
      no_members initial_world
    = Ok (LoadResultData methods, s') w' ∧
    methods.*1 = ["Add"; "Hello"] ∧
    ∃ moduleObject mattrs,
      CreateInternalModule (with_methods plugin methods) s' initial_world
      = Ok (Some moduleObject) initial_world ∧
      moduleObject = PyInstance PyModule_Type mattrs ∧
      ∀ n addr, (n, addr) ∈ methods →
        ∃ method f,
          method ∈ [add_export; hello_export] ∧ name method = n ∧
          exported_as demo_module demo_instance method f ∧
          FindPythonMethod (_pythonMethods s') addr = Some f ∧
          PyObject_GetAttrString moduleObject n initial_world
          = Ok (Some f) initial_world.
Proof.
  intros env plugin.
  split; [exists 10%N; vm_compute; done|].
  split; [exists 11%N; vm_compute; by eexists _, _|].
  destruct (OnPluginLoad_export env plain_host plugin demo_module
              demo_instance no_members initial_world)
    as [[[error|methods] s'] w'|] eqn:Hrun;
    [vm_compute in Hrun; discriminate| |vm_compute in Hrun; discriminate].
  exists methods, s', w'. split; [reflexivity|].
  apply (loaded_plugin_exports_its_callables env plain_host plugin demo_module
           demo_instance no_members initial_world methods s' w' initial_world).
  - constructor.
  - apply (bool_decide_unpack _). vm_compute. exact I.
  - vm_compute. by eexists.
  - exact Hrun.
Defined.

(** ** Modules made for plugins *)

Lemma CreateExternalModule_loop_spec env plugin todo :
  (∀ e, e ∈ todo → e ∈ GetMethods plugin) →
  ∀ moduleMethods w,
  ∃ new w',
    CreateExternalModule_loop env plugin todo moduleMethods w
    = Ok (moduleMethods ++ new) w' ∧
    Forall (table_entry_of plugin) new ∧
    ml_name <$> new
    = (λ e, Some e.1) <$> List.filter (has_entry env plugin) todo ∧
    pyerr w' = pyerr w.
Proof.
  induction todo as [|[n addr] todo IH]; intros Hsub moduleMethods w.
  - exists [], w. rewrite app_nil_r. cbn. unfold_M. split_and!; done.
  - assert (Hsub' : ∀ e, e ∈ todo → e ∈ GetMethods plugin).
    { intros e He. apply Hsub. by right. }
    cbn [CreateExternalModule_loop List.filter]. unfold has_entry at 1.
    cbn [fst].
    destruct (find_exported n (exportedMethods (GetDescriptor plugin)))
      as [method|] eqn:Hm.
    + unfold GetJitFunc, fresh_address. unfold_M.
      destruct (jit_supported env method); cbn.
      * destruct (N.eqb_spec (N.succ (next_addr w)) 0) as [Hz|Hz]; [lia|].
        edestruct (IH Hsub') as (new & w' & -> & Hall & Hnames & Hp).
        eexists (_ :: new), w'. rewrite <- app_assoc. split; [done|].
        split; [|split; [cbn; by rewrite Hnames|done]].
        constructor; [|done]. exists n, addr, method. cbn.
        split_and!; try done. apply Hsub. left.
      * edestruct (IH Hsub') as (new & w' & -> & Hall & Hnames & Hp).
        exists new, w'. split_and!; done.
    + edestruct (IH Hsub') as (new & w' & -> & Hall & Hnames & Hp).
      exists new, w'. split_and!; done.
Qed.

(** [PyModule_Create] returns, and what it returns is a module. *)
Lemma PyModule_AddFunctions_module defs :
  ∀ attrs w,
  ∃ attrs' w', PyModule_AddFunctions (PyInstance PyModule_Type attrs) defs w
               = Ok (Some (PyInstance PyModule_Type attrs')) w'.
Proof.
  induction defs as [|def defs IH]; intros attrs w; cbn.
  - by eexists _, _.
  - destruct (ml_name def) as [fname|]; [|by eexists _, _].
    unfold fresh_address, PyObject_SetAttrString. unfold_M. apply IH.
Qed.

Lemma PyModule_Create_module m_name defs w :
  ∃ r w', PyModule_Create m_name defs w = Ok r w' ∧
          ∀ m, r = Some m → ∃ attrs, m = PyInstance PyModule_Type attrs.
Proof.
  unfold PyModule_Create, PyModule_New, PyUnicode_FromStringAndSize.
  destruct (utf8_decode (bytes_of m_name)); unfold_M.
  - edestruct PyModule_AddFunctions_module as (attrs' & w' & ->).
    eexists _, _. split; [done|]. intros m [= <-]. by eexists.
  - eexists _, _. split; [done|]. discriminate.
Qed.

(** X9.  [CreateExternalModule] returns, and the method table it has
    handed to the interpreter is closed by the null entry.  Before it the
    table has exactly one entry for every method of the plugin that has an
    exported signature and is granted a trampoline, in the order of the
    plugin's methods; a method whose trampoline is refused is left out.
    Every entry has the name of its method, a trampoline that is not
    null, and [METH_NOARGS] exactly when the signature has no parameters
    ([METH_VARARGS] otherwise). *)
Theorem external_method_table_is_terminated env plugin s w :
  ∃ moduleObject s' w' entries,
    CreateExternalModule env plugin s w = Ok (moduleObject, s') w' ∧
    _moduleMethods s' = _moduleMethods s ++ [entries ++ [sentinel]] ∧
    ml_name <$> entries = (λ e, Some e.1) <$> tabled env plugin ∧
    Forall (table_entry_of plugin) entries.
Proof.
  unfold CreateExternalModule. unfold mbind, M_bind, bind_M at 1.
  destruct (CreateExternalModule_loop_spec env plugin (GetMethods plugin)
              (λ _ H, H) [] w) as (entries & w1 & -> & Hall & Hnames & _).
  cbn [app]. unfold mbind, M_bind, bind_M at 1.
  destruct (PyModule_Create_module (GetName plugin) (entries ++ [sentinel]) w1)
    as (m & w2 & -> & _).
  unfold_M. eexists _, _, _, entries. done.
Qed.

(** X9, at a plugin of another language module with the methods [Add],
    [Other] (which has no exported signature) and [Hello] (whose
    trampoline is refused): the table is the entry of [Add] and the null
    entry. *)
Lemma table_of_a_foreign_plugin_is_terminated :
  let env := refusing_hello Linux in
  let plugin :=
    demo_plugin [add_export; hello_export]
      [("Add", 500%N); ("Other", 501%N); ("Hello", 502%N)] in
  tabled env plugin = [("Add", 500%N)] ∧
  ∃ moduleObject s' w' entries,
    CreateExternalModule env plugin no_members initial_world
    = Ok (moduleObject, s') w' ∧
    _moduleMethods s' = [entries ++ [sentinel]] ∧
    ml_name <$> entries = [Some "Add"] ∧
    Forall (table_entry_of plugin) entries.
Proof.
  intros env plugin. split; [reflexivity|].
  exact (external_method_table_is_terminated env plugin no_members
           initial_world).
Defined.

Lemma CreateInternalModule_loop_module plugin s todo :
  ∀ cls attrs w r w',
    CreateInternalModule_loop plugin s todo (Some (PyInstance cls attrs)) w
    = Ok r w' →
    ∃ attrs', r = Some (PyInstance cls attrs').
Proof.
  induction todo as [|[n addr] todo IH]; intros cls attrs w r w'; cbn.
  - unfold_M. intros [= <- <-]. by eexists.
  - destruct (find_exported n _); [|apply IH].
    destruct (FindPythonMethod _ addr); [|done].
    unfold PyObject_SetAttrString. unfold_M. apply IH.
Qed.

Lemma CreateInternalModule_loop_null plugin s todo :
  ∀ w r w',
    CreateInternalModule_loop plugin s todo None w = Ok r w' → r = None.
Proof.
  induction todo as [|[n addr] todo IH]; intros w r w'; cbn.
  - unfold_M. by intros [= <- <-].
  - destruct (find_exported n _); [|apply IH].
    destruct (FindPythonMethod _ addr); done.
Qed.

Lemma CreateInternalModule_module plugin s w m w' :
  CreateInternalModule plugin s w = Ok (Some m) w' →
  ∃ attrs, m = PyInstance PyModule_Type attrs.
Proof.
  unfold CreateInternalModule. destruct (negb _); [unfold_M; discriminate|].
  unfold PyModule_New, PyUnicode_FromStringAndSize.
  destruct (utf8_decode (bytes_of (GetName plugin))); unfold_M.
  - intros H. apply CreateInternalModule_loop_module in H as (attrs' & [= ->]).
    by eexists.
  - intros H. by apply CreateInternalModule_loop_null in H.
Qed.

Lemma CreateExternalModule_module env plugin s w m s' w' :
  CreateExternalModule env plugin s w = Ok (Some m, s') w' →
  ∃ attrs, m = PyInstance PyModule_Type attrs.
Proof.
  unfold CreateExternalModule. unfold mbind, M_bind, bind_M.
  destruct (CreateExternalModule_loop env plugin _ _ w) as [t w1|]; [|done].
  destruct (PyModule_Create_module (GetName plugin) (t ++ [sentinel]) w1)
    as (r & w2 & -> & Hm).
  unfold ret_M. intros [= -> _ _]. by apply Hm.
Qed.

(** X10.  [OnMethodExport], with the package module [plugify.pps] at
    hand, ends in one of two ways.  Either it has published, under the
    plugin's name in [plugify.pps], the module that
    [CreateInternalModule] made or, when that made none, the module that
    [CreateExternalModule] made, and has logged nothing; or neither of the
    two made a module, [plugify.pps] is as it was, and one error that
    names the plugin has been logged. *)
Theorem export_publishes_a_module_or_logs env plugin s w s' w' cls attrs :
  _ppsModule s = Some (PyInstance cls attrs) →
  OnMethodExport env plugin s w = Ok s' w' →
  (∃ moduleObject mattrs,
     made_for env plugin s w moduleObject ∧
     moduleObject = PyInstance PyModule_Type mattrs ∧
     _ppsModule s'
     = Some (PyInstance cls (assoc_set (GetName plugin) moduleObject attrs)) ∧
     provider_log s' = provider_log s) ∨
  ((∀ moduleObject, ¬ made_for env plugin s w moduleObject) ∧
   _ppsModule s' = _ppsModule s ∧
   provider_log s'
   = provider_log s ++
     [(Severity.Error,
       "[py3lm] Fail to export '" +:+ GetName plugin +:+ "' plugin methods")]).
Proof.
  intros Hpps. unfold OnMethodExport. rewrite Hpps.
  unfold mbind, M_bind, bind_M at 1.
  destruct (CreateInternalModule plugin s w) as [[m|] w1|] eqn:Hi; [| |done].
  - destruct (CreateInternalModule_module _ _ _ _ _ Hi) as [mattrs ->].
    unfold_M. cbn. intros [= <- <-]. left. eexists _, mattrs.
    split; [left; by eexists|]. done.
  - unfold mbind, M_bind, bind_M at 1.
    destruct (CreateExternalModule env plugin s w1) as [[[m|] s1] w2|] eqn:Hx;
      [| |done].
    + destruct (CreateExternalModule_module _ _ _ _ _ _ _ Hx) as [mattrs ->].
      assert (Hs1 : _ppsModule s1 = _ppsModule s ∧
                    provider_log s1 = provider_log s).
      { unfold CreateExternalModule in Hx. unfold mbind, M_bind, bind_M in Hx.
        destruct (CreateExternalModule_loop env plugin _ _ w1) as [t w3|];
          [|done].
        destruct (PyModule_Create _ _ w3) as [r w4|]; [|done].
        unfold ret_M in Hx. by injection Hx as _ <- _. }
      destruct Hs1 as [_ Hlog].
      unfold_M. cbn. intros [= <- <-]. left. eexists _, mattrs.
      split; [right; by eexists _, _, _|]. done.
    + assert (Hs1 : _ppsModule s1 = _ppsModule s ∧
                    provider_log s1 = provider_log s).
      { unfold CreateExternalModule in Hx. unfold mbind, M_bind, bind_M in Hx.
        destruct (CreateExternalModule_loop env plugin _ _ w1) as [t w3|];
          [|done].
        destruct (PyModule_Create _ _ w3) as [r w4|]; [|done].
        unfold ret_M in Hx. by injection Hx as _ <- _. }
      destruct Hs1 as [Hp Hlog].
      unfold_M. intros [= <- <-]. right. split; [|cbn; by rewrite Hp, Hlog].
      intros mo [(w3 & Hmade)|(w3 & s3 & w4 & Hmade1 & Hmade2)];
        congruence.
Qed.

(** X10, at a plugin of another language module and an empty
    [plugify.pps]. *)
Lemma foreign_plugin_is_published_under_its_name :
  let env := returning Linux PyNone in
  let plugin := demo_plugin [add_export] [("Add", 500%N)] in
  let s := set_ppsModule (Some (PyInstance PyModule_Type [])) no_members in
  ∃ s' w' moduleObject mattrs,
    OnMethodExport env plugin s initial_world = Ok s' w' ∧
    made_for env plugin s initial_world moduleObject ∧
    moduleObject = PyInstance PyModule_Type mattrs ∧
    assoc_lookup "Add" mattrs = Some (PyCFunction 4098) ∧
    _ppsModule s' = Some (PyInstance PyModule_Type [("demo", moduleObject)]) ∧
    provider_log s' = [].
Proof.
  intros env plugin s.
  destruct (OnMethodExport env plugin s initial_world) as [s' w'|] eqn:Hrun;
    [|vm_compute in Hrun; discriminate].
  destruct (export_publishes_a_module_or_logs env plugin s initial_world s' w'
              PyModule_Type [] eq_refl Hrun)
    as [(moduleObject & mattrs & Hmade & Hmod & Hpps & Hlog)
       |(_ & _ & Hlog)].
  - exists s', w', moduleObject, mattrs.
    split; [reflexivity|]. split; [exact Hmade|]. split; [exact Hmod|].
    split; [|split; [exact Hpps|exact Hlog]].
    vm_compute in Hrun. injection Hrun as <- _. subst moduleObject.
    cbn in Hpps. injection Hpps as <-. reflexivity.
  - exfalso. vm_compute in Hrun. injection Hrun as <- _. discriminate Hlog.
Defined.

(** ** Life-cycle hooks *)



(** A [plugin_start] that calls [sys.exit] takes the host down with it. *)
Example exiting_plugin_start_ends_the_process :
  OnPluginStart (exiting_start Linux) (demo_plugin [] []) started_members
    initial_world
  = Stop ProcessExit.
Proof. reflexivity. Qed.

(** ** Round trips through the converters *)

(** *** Integers *)

(** X12.  Every integer of a target's range survives the trip into a
    script integer and back, at every integer width, signed or unsigned,
    on every platform: [CreatePyObject] makes the script integer of the
    same value, and [ValueFromObject] reads that value back. *)
Theorem integer_survives_the_round_trip plat T ct z w :
  integer_extractor T = Some ct →
  (int_min (int_kind plat T) ≤ z ≤ int_max (int_kind plat T))%Z →
  pyerr w = None →
  CreatePyObject (VInt T z) w = Ok (Some (PyLong z)) w ∧
  ValueFromObject plat T (PyLong z) w = Ok (Some (VInt T z)) w.
Proof.
  intros HT Hz Hw. split.
  - destruct T; try discriminate; reflexivity.
  - by eapply integer_in_range_converts.
Qed.

(** X12, at the [uint64_t] maximum on Windows, where [long] has 32 bits. *)
Lemma largest_uint64_survives_the_round_trip :
  let z := (2 ^ 64 - 1)%Z in
  CreatePyObject (VInt c_uint64_t z) initial_world
  = Ok (Some (PyLong z)) initial_world ∧
  ValueFromObject Windows c_uint64_t (PyLong z) initial_world
  = Ok (Some (VInt c_uint64_t z)) initial_world.
Proof.
  intros z.
  apply (integer_survives_the_round_trip Windows c_uint64_t c_ulonglong z
           initial_world).
  - reflexivity.
  - vm_compute. split; discriminate.
  - reflexivity.
Defined.

(** X13.  [True] and [False] pass as the integers 1 and 0 in every
    integer slot (the integer check accepts the boolean class), while no
    integer passes as a boolean: the [Bool] converter refuses 0 and 1 as it
    refuses every integer, with [TypeError "Not boolean"]. *)
Theorem booleans_pass_as_integers_but_not_integers_as_booleans
    plat T ct (b : bool) z w :
  integer_extractor T = Some ct →
  pyerr w = None →
  ValueFromObject plat T (PyBool b) w
  = Ok (Some (VInt T (if b then 1 else 0))) w ∧
  ValueFromObject plat c_bool (PyLong z) w
  = Ok None (set_pyerr (Some (TypeError "Not boolean")) w).
Proof.
  intros HT Hw. split; [|done].
  rewrite (ValueFromObject_integer _ _ _ _ HT).
  destruct (extractor_covers plat T ct HT) as (Hbc & Hbt & Hmin & Hmax & _).
  set (v := (if b then 1 else 0)%Z).
  assert (Hv : (int_min (int_kind plat T) ≤ v ≤ int_max (int_kind plat T))%Z).
  { subst v. clear -HT. destruct T; try discriminate; destruct plat, b;
      vm_compute; split; congruence. }
  unfold ValueFromNumberObject, PyLong_As. unfold_M.
  cbn [PyLong_Check long_value]. fold v.
  destruct (Z.leb_spec (int_min (int_kind plat ct)) v); [|lia].
  destruct (Z.leb_spec v (int_max (int_kind plat ct))); [|lia].
  cbn. rewrite Hw. cbn.
  rewrite !static_cast_in_range by lia.
  rewrite Z.geb_leb.
  destruct (Z.leb_spec v (int_max (int_kind plat T))); [|lia].
  destruct (Z.leb_spec (int_min (int_kind plat T)) v); [|lia].
  reflexivity.
Qed.

(** X13, at [True] in a [UInt8] slot and 1 in a [Bool] slot. *)
Lemma true_is_one_but_one_is_not_true :
  ValueFromObject Linux c_uint8_t (PyBool true) initial_world
  = Ok (Some (VInt c_uint8_t 1)) initial_world ∧
  ValueFromObject Linux c_bool (PyLong 1) initial_world
  = Ok None (set_pyerr (Some (TypeError "Not boolean")) initial_world).
Proof.
  apply (booleans_pass_as_integers_but_not_integers_as_booleans Linux
           c_uint8_t c_ulong true 1 initial_world); reflexivity.
Defined.

(** X14.  An exception that is pending when an integer conversion starts
    makes the conversion fail, whatever the object: the converter takes
    the pending exception for its own, returns nothing and replaces the
    exception by [TypeError "Not integer"]. *)
Theorem pending_exception_fails_integer_conversion plat T ct object w :
  integer_extractor T = Some ct →
  pyerr w ≠ None →
  ValueFromObject plat T object w
  = Ok None (set_pyerr (Some (TypeError "Not integer")) w).
Proof.
  intros HT Hw. rewrite (ValueFromObject_integer _ _ _ _ HT).
  unfold ValueFromNumberObject, PyLong_As. unfold_M.
  destruct (PyLong_Check object) eqn:Hc; [|done].
  destruct object; try discriminate; cbn [long_value].
  - destruct (_ && _); cbn; destruct (pyerr w); done.
  - destruct (_ && _); cbn; destruct (pyerr w); done.
Qed.

(** X14, at the integer 5 for an [Int32] slot with a [ValueError]
    pending. *)
Lemma five_is_refused_while_an_exception_is_pending :
  let w := set_pyerr (Some {| exc := PyExc_ValueError; msg := "earlier" |})
             initial_world in
  ValueFromObject Linux c_int32_t (PyLong 5) w
  = Ok None (set_pyerr (Some (TypeError "Not integer")) w).
Proof.
  intros w.
  apply (pending_exception_fails_integer_conversion Linux c_int32_t c_long
           (PyLong 5) w).
  - reflexivity.
  - discriminate.
Defined.

Lemma CreatePyObjectList_loop_integers T ct zs w :
  integer_extractor T = Some ct →
  CreatePyObjectList_loop (VInt T <$> zs) w = Ok (Some (PyLong <$> zs)) w.
Proof.
  intros HT. induction zs as [|z zs IH]; [done|].
  cbn [fmap list_fmap CreatePyObjectList_loop]. unfold_M.
  replace (CreatePyObject (VInt T z) w) with (Ok (Some (PyLong z)) w)
    by (destruct T; try discriminate; reflexivity).
  cbn in IH. by rewrite IH.
Qed.

Lemma ArrayFromObject_loop_integers plat T ct zs w :
  integer_extractor T = Some ct →
  Forall (λ z, (int_min (int_kind plat T) ≤ z ≤ int_max (int_kind plat T))%Z)
         zs →
  pyerr w = None →
  ArrayFromObject_loop plat T (PyLong <$> zs) w = Ok (Some (VInt T <$> zs)) w.
Proof.
  intros HT Hall Hw. induction Hall as [|z zs Hz _ IH]; [done|].
  cbn [fmap list_fmap ArrayFromObject_loop]. unfold_M.
  rewrite (integer_in_range_converts plat T ct z w HT Hz Hw).
  cbn in IH. by rewrite IH.
Qed.

(** X20.  An array of integers of the element type's range survives the
    trip into a script list and back, element by element and in order,
    whatever its length (the empty array included). *)
Theorem integer_array_survives_the_round_trip plat T ct zs w :
  integer_extractor T = Some ct →
  Forall (λ z, (int_min (int_kind plat T) ≤ z ≤ int_max (int_kind plat T))%Z)
         zs →
  pyerr w = None →
  CreatePyObjectList (VVector T (VInt T <$> zs)) w
  = Ok (Some (PyList (PyLong <$> zs))) w ∧
  ArrayFromObject plat T (PyList (PyLong <$> zs)) w
  = Ok (Some (VVector T (VInt T <$> zs))) w.
Proof.
  intros HT Hall Hw. split.
  - unfold CreatePyObjectList. unfold_M.
    by rewrite (CreatePyObjectList_loop_integers T ct zs w HT).
  - unfold ArrayFromObject. unfold_M.
    by rewrite (ArrayFromObject_loop_integers plat T ct zs w HT Hall Hw).
Qed.

(** X20, at the [int8_t] array [1, -2, 3]. *)
Lemma int8_array_survives_the_round_trip :
  let zs := [1; -2; 3]%Z in
  CreatePyObjectList (VVector c_int8_t (VInt c_int8_t <$> zs)) initial_world
  = Ok (Some (PyList (PyLong <$> zs))) initial_world ∧
  ArrayFromObject Linux c_int8_t (PyList (PyLong <$> zs)) initial_world
  = Ok (Some (VVector c_int8_t (VInt c_int8_t <$> zs))) initial_world.
Proof.
  intros zs.
  apply (integer_array_survives_the_round_trip Linux c_int8_t c_long zs
           initial_world).
  - reflexivity.
  - repeat constructor; vm_compute; discriminate.
  - reflexivity.
Defined.

(** *** Strings and characters *)

Ltac decide_comparisons :=
  repeat match goal with
  | |- context [(?a <=? ?b)%Z] =>
      destruct (Z.leb_spec a b);
      try (exfalso; Z.div_mod_to_equations; lia)
  | |- context [(?a <? ?b)%Z] =>
      destruct (Z.ltb_spec a b);
      try (exfalso; Z.div_mod_to_equations; lia)
  end.

(** The decoder reads back what the encoder wrote for one code point. *)
Lemma utf8_decode_first_encode cp b rest :
  utf8_encode_cp cp = Some b →
  utf8_decode_first (b ++ rest) = Some (cp, rest).
Proof.
  unfold utf8_encode_cp, is_surrogate.
  destruct (Z.ltb_spec cp 0); [done|].
  destruct (Z.ltb_spec cp 128).
  { intros [= <-]. cbn [app utf8_decode_first]. decide_comparisons. done. }
  destruct (Z.ltb_spec cp 2048).
  { intros [= <-]. cbn [app utf8_decode_first]. unfold is_cont.
    decide_comparisons; cbn [andb negb]; try done.
    do 2 f_equal. Z.div_mod_to_equations. lia. }
  destruct (Z.leb_spec 55296 cp); destruct (Z.leb_spec cp 57343);
    cbn [andb]; try done.
  all: destruct (Z.ltb_spec cp 65536).
  all: try (intros [= <-]; cbn [app utf8_decode_first];
    unfold is_cont, is_surrogate;
    cbn zeta; decide_comparisons; cbn [andb negb]; try done;
    do 2 f_equal; Z.div_mod_to_equations; lia).
  all: destruct (Z.ltb_spec cp 1114112); [|done].
  all: intros [= <-]; cbn [app utf8_decode_first];
    unfold is_cont, is_surrogate;
    cbn zeta; decide_comparisons; cbn [andb negb]; try done;
    do 2 f_equal; Z.div_mod_to_equations; lia.
Qed.

Lemma utf8_encode_cp_length cp b :
  utf8_encode_cp cp = Some b → (1 ≤ length b ≤ 4)%nat.
Proof.
  unfold utf8_encode_cp.
  repeat match goal with
  | |- context [if ?c then _ else _] => destruct c
  end; intros [= <-]; cbn; lia.
Qed.

Lemma utf8_encode_cp_bmp cp b :
  utf8_encode_cp cp = Some b → (cp < 65536)%Z → (length b ≤ 3)%nat.
Proof.
  unfold utf8_encode_cp. destruct (is_surrogate cp).
  all: repeat match goal with
       | |- context [(?a <? ?b)%Z] => destruct (Z.ltb_spec a b)
       end; try done; intros [= <-] Hlt; cbn; lia.
Qed.

Lemma utf8_encode_cp_scalar cp :
  (0 ≤ cp < 1114112)%Z → is_surrogate cp = false →
  is_Some (utf8_encode_cp cp).
Proof.
  intros Hr Hs. unfold utf8_encode_cp. rewrite Hs.
  repeat match goal with
  | |- context [(?a <? ?b)%Z] => destruct (Z.ltb_spec a b)
  end; try (by eexists); lia.
Qed.

Lemma utf8_decode_fuel_encode s :
  ∀ bs fuel, utf8_encode s = Some bs → (length bs ≤ fuel)%nat →
             utf8_decode_fuel fuel bs = Some s.
Proof.
  induction s as [|cp s IH]; intros bs fuel; cbn.
  - intros [= <-] _. by destruct fuel.
  - destruct (utf8_encode_cp cp) as [b|] eqn:Hcp; [|done].
    destruct (utf8_encode s) as [bs'|]; [|done].
    intros [= <-] Hlen. rewrite length_app in Hlen.
    pose proof (utf8_encode_cp_length _ _ Hcp) as Hb.
    destruct fuel as [|fuel]; [lia|].
    destruct (b ++ bs') as [|x l] eqn:Hbl.
    { apply app_eq_nil in Hbl as [-> _]. cbn in Hb. lia. }
    cbn [utf8_decode_fuel]. rewrite <- Hbl.
    rewrite (utf8_decode_first_encode _ _ _ Hcp).
    rewrite (IH bs' fuel eq_refl) by lia. done.
Qed.

Lemma utf8_decode_encode s bs :
  utf8_encode s = Some bs → utf8_decode bs = Some s.
Proof. intros H. by apply utf8_decode_fuel_encode. Qed.

(** X15.  A script string that has a UTF-8 encoding survives the trip
    into a native string and back: [ValueFromObject<std::string>] yields
    the bytes of its encoding and raises nothing, and [CreatePyObject]
    makes the same string of these bytes again. *)
Theorem string_survives_the_round_trip plat s bs w :
  utf8_encode s = Some bs →
  ValueFromObject plat c_string (PyUnicode s) w = Ok (Some (VString bs)) w ∧
  CreatePyObject (VString bs) w = Ok (Some (PyUnicode s)) w.
Proof.
  intros H. split.
  - cbn. unfold ValueFromObject_string, PyUnicode_AsUTF8AndSize. cbn.
    rewrite H. reflexivity.
  - cbn. unfold PyUnicode_FromStringAndSize.
    by rewrite (utf8_decode_encode _ _ H).
Qed.

(** X15, at the string of the euro sign and the musical G clef (code
    points 8364 and 119070). *)
Lemma euro_and_clef_survive_the_round_trip :
  let s := [8364; 119070]%Z in
  let bs := [226; 130; 172; 240; 157; 132; 158]%Z in
  utf8_encode s = Some bs ∧
  ValueFromObject Linux c_string (PyUnicode s) initial_world
  = Ok (Some (VString bs)) initial_world ∧
  CreatePyObject (VString bs) initial_world
  = Ok (Some (PyUnicode s)) initial_world.
Proof.
  intros s bs. split; [reflexivity|].
  apply (string_survives_the_round_trip Linux s bs initial_world).
  reflexivity.
Defined.

Lemma land_128_small z : (0 ≤ z < 128)%Z → Z.land z 128 = 0%Z.
Proof.
  intros Hz. apply Z.bits_inj'. intros n Hn. rewrite Z.land_spec, Z.bits_0.
  destruct (Z.eq_dec n 7%Z) as [->|Hne].
  - rewrite (Z.bits_above_log2 z 7%Z); [done|lia|].
    destruct (Z.eq_dec z 0%Z) as [->|]; [done|].
    apply Z.log2_lt_pow2; lia.
  - replace 128%Z with (2 ^ 7)%Z by done. rewrite Z.pow2_bits_eqb by lia.
    destruct (Z.eqb_spec 7%Z n); [lia|]. apply andb_false_r.
Qed.

(** X17.  A [Char8] in the ASCII range survives the trip into a script
    string and back: the zero character as the empty string, every other
    one as the string of that one character. *)
Theorem ascii_character_survives_the_round_trip plat z w :
  (0 ≤ z < 128)%Z →
  ∃ s, CreatePyObject (VInt c_char z) w = Ok (Some (PyUnicode s)) w ∧
       ValueFromObject plat c_char (PyUnicode s) w
       = Ok (Some (VInt c_char z)) w.
Proof.
  intros Hz. destruct (Z.eqb_spec z 0) as [->|Hne].
  - exists []. done.
  - exists [z]. cbn [CreatePyObject]. rewrite (proj2 (Z.eqb_neq z 0) Hne).
    rewrite Z.mod_small by lia. split.
    + unfold PyUnicode_FromStringAndSize, utf8_decode. cbn.
      decide_comparisons. done.
    + cbn. unfold ValueFromObject_char. cbn.
      unfold PyUnicode_AsUTF8, PyUnicode_AsUTF8AndSize. cbn.
      unfold utf8_encode_cp. decide_comparisons. unfold_M. cbn.
      rewrite static_cast_in_range by (cbn; lia).
      by rewrite land_128_small.
Qed.

(** X17, at the letter A. *)
Lemma letter_A_survives_the_round_trip :
  ∃ s, CreatePyObject (VInt c_char 65) initial_world
       = Ok (Some (PyUnicode s)) initial_world ∧
       ValueFromObject Linux c_char (PyUnicode s) initial_world
       = Ok (Some (VInt c_char 65)) initial_world.
Proof.
  apply (ascii_character_survives_the_round_trip Linux 65 initial_world).
  lia.
Defined.

Lemma utf8_encode_cp_first_byte z :
  (128 ≤ z < 65536)%Z → is_surrogate z = false →
  ∃ b0 rest, utf8_encode_cp z = Some (b0 :: rest) ∧ (128 ≤ b0)%Z.
Proof.
  intros Hz Hs. unfold utf8_encode_cp. rewrite Hs.
  destruct (Z.ltb_spec z 0); [lia|]. destruct (Z.ltb_spec z 128); [lia|].
  destruct (Z.ltb_spec z 2048).
  - eexists _, _. split; [done|]. Z.div_mod_to_equations. lia.
  - destruct (Z.ltb_spec z 65536); [|lia].
    eexists _, _. split; [done|]. Z.div_mod_to_equations. lia.
Qed.

Lemma not_high_surrogate z :
  is_surrogate z = false → (55296 <=? z)%Z && (z <=? 56319)%Z = false.
Proof.
  unfold is_surrogate.
  destruct (Z.leb_spec 55296 z); destruct (Z.leb_spec z 56319);
    destruct (Z.leb_spec z 57343); cbn; try done; lia.
Qed.

(** X18.  Whether a [Char16] that is a character on its own (a code unit
    that is no surrogate) survives the trip into a script string and back
    is a matter of the locale of the process, which the module leaves as
    the host has it.  In a UTF-8 locale every such code unit survives, and
    in every locale those below 128 do.  In the C locale a code unit from
    128 on is lost in both directions: [CreatePyObject] returns null and
    raises nothing, and [ValueFromObject<char16_t>] refuses the string of
    that one character with [TypeError "Not string"]. *)
Theorem utf16_round_trip_follows_the_locale plat z w :
  (0 ≤ z < 65536)%Z → is_surrogate z = false →
  (locale w = UTF8_locale ∨ (z < 128)%Z →
   ∃ s, CreatePyObject (VInt c_char16_t z) w = Ok (Some (PyUnicode s)) w ∧
        ValueFromObject plat c_char16_t (PyUnicode s) w
        = Ok (Some (VInt c_char16_t z)) w) ∧
  (locale w = C_locale → (128 ≤ z)%Z →
   CreatePyObject (VInt c_char16_t z) w = Ok None w ∧
   ValueFromObject plat c_char16_t (PyUnicode [z]) w
   = Ok None (set_pyerr (Some (TypeError "Not string")) w)).
Proof.
  intros Hz Hs. pose proof (not_high_surrogate z Hs) as Hhigh. split.
  - intros Hloc. destruct (Z.eqb_spec z 0) as [->|Hne].
    { exists []. done. }
    exists [z]. cbn [CreatePyObject]. rewrite (proj2 (Z.eqb_neq z 0) Hne).
    destruct (utf8_encode_cp_scalar z) as [b Hb]; [lia|done|].
    assert (Henc : utf8_encode [z] = Some b).
    { cbn. rewrite Hb. by rewrite app_nil_r. }
    cbn [ValueFromObject]. unfold ValueFromObject_char16_t.
    cbn [PyUnicode_Check PyUnicode_GetLength length].
    cbn [Z.of_nat Z.eqb Pos.of_succ_nat Pos.eqb].
    unfold PyUnicode_AsUTF8AndSize. rewrite Henc. unfold_M.
    change (Z.of_nat 1 =? 0)%Z with false.
    change (Z.of_nat 1 =? 1)%Z with true. cbn beta iota.
    unfold c16rtomb, mbrtoc16. rewrite Hhigh.
    destruct (locale w) eqn:Hl.
    + (* the C locale: an ASCII code unit *)
      destruct Hloc as [|Hlt]; [done|].
      assert (b = [z]) as ->.
      { unfold utf8_encode_cp in Hb.
        destruct (Z.ltb_spec z 0); [lia|].
        destruct (Z.ltb_spec z 128); [|lia]. by injection Hb as <-. }
      destruct (Z.leb_spec 0 z); [|lia].
      destruct (Z.ltb_spec z 128); [|lia]. cbn [andb].
      unfold PyUnicode_FromStringAndSize.
      rewrite (utf8_decode_encode _ _ Henc).
      split; [done|]. rewrite (proj2 (Z.eqb_neq z 0) Hne).
      destruct (Z.ltb_spec 0 z); [|lia]. done.
    + (* a UTF-8 locale *)
      rewrite Hb. unfold PyUnicode_FromStringAndSize.
      rewrite (utf8_decode_encode _ _ Henc). split; [done|].
      replace (utf8_decode_first b) with (utf8_decode_first (b ++ []))
        by (by rewrite app_nil_r).
      rewrite (utf8_decode_first_encode _ _ _ Hb).
      rewrite (proj2 (Z.eqb_neq z 0) Hne).
      destruct (Z.ltb_spec z 65536); [|lia].
      pose proof (utf8_encode_cp_length _ _ Hb).
      pose proof (utf8_encode_cp_bmp _ _ Hb ltac:(lia)).
      cbn [length]. rewrite Nat.sub_0_r.
      destruct b as [|b0 [|b1 [|b2 [|b3 b]]]]; cbn in *; try lia; done.
  - intros Hl Hge.
    destruct (utf8_encode_cp_first_byte z) as (b0 & rest & Hb & Hb0);
      [lia|done|].
    cbn [CreatePyObject ValueFromObject]. unfold ValueFromObject_char16_t.
    cbn [PyUnicode_Check PyUnicode_GetLength length].
    cbn [Z.of_nat Z.eqb Pos.of_succ_nat Pos.eqb].
    destruct (Z.eqb_spec z 0); [lia|].
    unfold PyUnicode_AsUTF8AndSize. cbn [utf8_encode]. rewrite Hb.
    unfold not_string. unfold_M.
    change (Z.of_nat 1 =? 0)%Z with false.
    change (Z.of_nat 1 =? 1)%Z with true. cbn beta iota.
    unfold c16rtomb, mbrtoc16. rewrite Hhigh, Hl. cbn [app].
    destruct (Z.ltb_spec z 128); [lia|]. rewrite andb_false_r.
    destruct (Z.eqb_spec b0 0); [lia|].
    destruct (Z.ltb_spec b0 128); [lia|]. rewrite andb_false_r.
    done.
Qed.

(** X18, at the euro sign: it survives in a UTF-8 locale and is lost in
    the C locale. *)
Lemma euro_sign_survives_in_a_UTF8_locale_only :
  let utf8 := set_locale UTF8_locale initial_world in
  (∃ s, CreatePyObject (VInt c_char16_t 8364) utf8
        = Ok (Some (PyUnicode s)) utf8 ∧
        ValueFromObject Linux c_char16_t (PyUnicode s) utf8
        = Ok (Some (VInt c_char16_t 8364)) utf8) ∧
  CreatePyObject (VInt c_char16_t 8364) initial_world = Ok None initial_world ∧
  ValueFromObject Linux c_char16_t (PyUnicode [8364%Z]) initial_world
  = Ok None (set_pyerr (Some (TypeError "Not string")) initial_world).
Proof.
  intros utf8. split.
  - apply (utf16_round_trip_follows_the_locale Linux 8364 utf8);
      [lia|reflexivity|by left].
  - apply (utf16_round_trip_follows_the_locale Linux 8364 initial_world);
      [lia|reflexivity|reflexivity|lia].
Defined.

(** X19.  A [Char16] that is a surrogate half is lost on its way to the
    script, and in silence: a high half becomes the empty string, a low
    half becomes no object at all, and in neither case is an exception
    raised. *)
Theorem utf16_surrogate_is_dropped_in_silence z w :
  is_surrogate z = true →
  CreatePyObject (VInt c_char16_t z) w
  = Ok (if (z <=? 56319)%Z then Some (PyUnicode []) else None) w.
Proof.
  unfold is_surrogate. intros Hs.
  apply andb_true_iff in Hs as [H1%Z.leb_le H2%Z.leb_le].
  cbn [CreatePyObject]. destruct (Z.eqb_spec z 0); [lia|].
  unfold c16rtomb, utf8_encode_cp, is_surrogate, get_locale.
  unfold mbind, M_bind, bind_M.
  destruct (Z.leb_spec z 56319).
  - destruct (Z.leb_spec 55296 z); [|lia]. done.
  - destruct (locale w); decide_comparisons; cbn [andb]; done.
Qed.

(** X19, at the low half 56320: no object and no exception. *)
Lemma low_surrogate_gives_no_object_and_no_exception :
  is_surrogate 56320 = true ∧
  CreatePyObject (VInt c_char16_t 56320) initial_world
  = Ok None initial_world.
Proof.
  split; [reflexivity|].
  apply (utf16_surrogate_is_dropped_in_silence 56320 initial_world).
  reflexivity.
Defined.

(** *** Vectors and matrices *)

Lemma ValueFromObject_float_value e w :
  ValueFromObject_float e w
  = match float_value e with
    | Some d => Ok (Some (VFloat (FloatOfDouble d))) w
    | None => Ok None (set_pyerr (Some (TypeError "Not float")) w)
    end.
Proof. by destruct e. Qed.

Lemma matrix_row_inv entries w r w' :
  matrix_row entries w = Ok r w' →
  match r with
  | Some l =>
      ∃ ds, float_value <$> entries = Some <$> ds ∧
            l = FloatOfDouble <$> ds ∧ w' = w
  | None => ¬ ∃ ds, float_value <$> entries = Some <$> ds
  end.
Proof.
  revert r w'. induction entries as [|e entries IH]; intros r w';
    cbn [matrix_row].
  - unfold_M. intros [= <- <-]. by exists [].
  - unfold mbind, M_bind, bind_M. rewrite ValueFromObject_float_value.
    destruct (float_value e) as [d|] eqn:He.
    + destruct (matrix_row entries w) as [more w1|] eqn:Hm; [|done].
      specialize (IH _ _ eq_refl). unfold ret_M. intros [= <- <-].
      destruct more as [l|].
      * destruct IH as (ds & Hds & -> & ->). exists (d :: ds). cbn.
        by rewrite He, Hds.
      * intros ([|d' ds] & Hds); [done|]. cbn in Hds.
        injection Hds as _ Hds. apply IH. by exists ds.
    + unfold ret_M. intros [= <- <-]. intros ([|d' ds] & Hds); [done|].
      cbn in Hds. rewrite He in Hds. done.
Qed.

Lemma matrix_row_floats entries ds w :
  float_value <$> entries = Some <$> ds →
  matrix_row entries w = Ok (Some (FloatOfDouble <$> ds)) w.
Proof.
  revert ds. induction entries as [|e entries IH]; intros [|d ds] Hds;
    try done.
  cbn in Hds. injection Hds as He Hds. cbn [matrix_row].
  unfold mbind, M_bind, bind_M. rewrite ValueFromObject_float_value, He.
  by rewrite (IH _ Hds).
Qed.

Lemma matrix_rows_inv rows w l w' :
  matrix_rows rows w = Ok (Some l) w' →
  ∃ rs ds, PyList rows = rows_object rs ∧
           Forall (λ r, length r = 4%nat) rs ∧
           float_value <$> concat rs = Some <$> ds ∧
           l = FloatOfDouble <$> ds ∧ w' = w.
Proof.
  revert l w'. induction rows as [|r rows IH]; intros l w'; cbn.
  - unfold_M. intros [= <- <-]. by exists [], [].
  - destruct r; try (unfold_M; discriminate).
    destruct (length items =? 4)%nat eqn:Hlen; cbn [negb];
      [|unfold_M; discriminate].
    apply Nat.eqb_eq in Hlen.
    unfold mbind, M_bind, bind_M.
    destruct (matrix_row items w) as [row w1|] eqn:Hrow; [|done].
    apply matrix_row_inv in Hrow.
    destruct row as [row|]; [|unfold_M; discriminate].
    destruct Hrow as (ds & Hds & -> & ->).
    destruct (matrix_rows rows w) as [more w2|] eqn:Hmore; [|done].
    destruct more as [more|]; [|unfold_M; discriminate].
    destruct (IH _ _ eq_refl) as (rs & ds' & Hobj & Hall & Hds' & -> & ->).
    unfold_M. intros [= <- <-]. exists (items :: rs), (ds ++ ds').
    injection Hobj as ->. split; [done|]. split; [by constructor|].
    cbn. rewrite !fmap_app, Hds, Hds'. done.
Qed.

Lemma matrix_rows_floats rs :
  Forall (λ r, length r = 4%nat) rs →
  ∀ ds w, float_value <$> concat rs = Some <$> ds →
  matrix_rows (PyList <$> rs) w = Ok (Some (FloatOfDouble <$> ds)) w.
Proof.
  induction 1 as [|r rs Hlen _ IH]; intros ds w Hds.
  - by destruct ds.
  - cbn in Hds. rewrite fmap_app in Hds.
    assert (Hsplit : float_value <$> r = Some <$> take 4 ds ∧
                     float_value <$> concat rs = Some <$> drop 4 ds).
    { assert (length ((float_value <$> r) ++ (float_value <$> concat rs))
              = length (Some <$> ds)) as Hl by (by rewrite Hds).
      rewrite length_app, !length_fmap in Hl.
      rewrite <- (take_drop 4 ds) in Hds. rewrite fmap_app in Hds.
      apply app_inj_1 in Hds; [done|].
      rewrite !length_fmap, Hlen, length_take. lia. }
    destruct Hsplit as [Hr Hrs].
    cbn. rewrite Hlen. cbn. unfold_M.
    rewrite (matrix_row_floats _ _ _ Hr). rewrite (IH _ _ Hrs).
    by rewrite <- fmap_app, take_drop.
Qed.

(** X21.  [Matrix4x4ValueFromObject] yields a matrix exactly for an
    instance of the matrix class whose attribute [elements] is a list of
    four lists of four script floats (objects that pass [PyFloat_Check]);
    the matrix then holds the sixteen numbers row by row, and the world is
    as it was.  A list of sixteen floats that is not nested, integers in
    place of floats, and rows of another length are all refused. *)
Theorem matrix_is_read_from_four_rows_of_four_floats object w v w' :
  Matrix4x4ValueFromObject object w = Ok (Some v) w' ↔
  ∃ attrs rows ds,
    object = PyInstance Matrix4x4Type attrs ∧
    assoc_lookup "elements" attrs = Some (rows_object rows) ∧
    length rows = 4%nat ∧ Forall (λ r, length r = 4%nat) rows ∧
    float_value <$> concat rows = Some <$> ds ∧
    v = VMatrix4x4 (FloatOfDouble <$> ds) ∧ w' = w.
Proof.
  unfold Matrix4x4ValueFromObject. split.
  - destruct (PyObject_IsInstance object Matrix4x4Type) eqn:Hi; cbn [negb];
      [|unfold_M; discriminate].
    destruct object; try discriminate. cbn in Hi.
    destruct cls; try discriminate.
    unfold PyObject_GetAttrString. unfold mbind, M_bind, bind_M at 1.
    destruct (assoc_lookup "elements" attrs) as [e|] eqn:He;
      [|unfold_M; discriminate].
    unfold ret_M at 1. destruct e; try (unfold_M; discriminate).
    destruct (length items =? 4)%nat eqn:Hlen; cbn [negb];
      [|unfold_M; discriminate].
    apply Nat.eqb_eq in Hlen. unfold mbind, M_bind, bind_M.
    destruct (matrix_rows items w) as [m w1|] eqn:Hm; [|done].
    destruct m as [data|]; [|unfold_M; discriminate].
    apply matrix_rows_inv in Hm as (rs & ds & Hobj & Hall & Hds & -> & ->).
    unfold_M. intros [= <- <-]. exists attrs, rs, ds.
    rewrite Hobj in *. split_and!; try done.
    injection Hobj as ->. by rewrite length_fmap in Hlen.
  - intros (attrs & rows & ds & -> & He & Hlen & Hall & Hds & -> & ->).
    cbn [PyObject_IsInstance PyClass_eqb negb].
    unfold PyObject_GetAttrString. rewrite He. unfold_M.
    unfold rows_object. rewrite length_fmap, Hlen. cbn.
    by rewrite (matrix_rows_floats _ Hall _ _ Hds).
Qed.

Lemma GetObjectAttrAsValue_float_inv attrs cls attr_name w x w' :
  GetObjectAttrAsValue_float (PyInstance cls attrs) attr_name w
  = Ok (Some x) w' ↔
  ∃ d, float_attribute attr_name attrs = Some d ∧
       x = FloatOfDouble d ∧ w' = w.
Proof.
  unfold GetObjectAttrAsValue_float, PyObject_GetAttrString, float_attribute.
  unfold mbind at 1, M_bind, bind_M.
  destruct (assoc_lookup attr_name attrs) as [a|]; cbn.
  - unfold mbind, M_bind, bind_M. rewrite ValueFromObject_float_value.
    unfold_M. destruct (float_value a) as [d|]; split.
    + intros [= <- <-]. by exists d.
    + by intros (? & [= <-] & -> & ->).
    + discriminate.
    + by intros (? & [=] & _).
  - unfold_M. split; [discriminate|]. by intros (? & [=] & _).
Qed.

Ltac read_attribute a H :=
  destruct (GetObjectAttrAsValue_float _ a _) as [[?|] ?|] eqn:H;
  try (unfold_M; discriminate);
  apply GetObjectAttrAsValue_float_inv in H as (? & H & -> & ->).

Ltac attribute_read cls attrs a d w :=
  rewrite (proj2 (GetObjectAttrAsValue_float_inv attrs cls a w
                    (FloatOfDouble d) w)); [|by eexists].

(** X22.  The vector extractors yield a vector exactly for an instance of
    the vector class of that size whose attributes [x], [y] (and [z],
    [w]) are script floats (objects that pass [PyFloat_Check]); the vector
    holds these numbers, and the world is as it was.  An integer in place
    of a float is refused, as is an instance of another class with the
    same attributes. *)
Theorem vectors_are_read_from_float_attributes object w v w' :
  (Vector2ValueFromObject object w = Ok (Some v) w' ↔
   ∃ attrs x y,
     object = PyInstance Vector2Type attrs ∧
     float_attribute "x" attrs = Some x ∧
     float_attribute "y" attrs = Some y ∧
     v = VVector2 (FloatOfDouble x) (FloatOfDouble y) ∧ w' = w) ∧
  (Vector3ValueFromObject object w = Ok (Some v) w' ↔
   ∃ attrs x y z,
     object = PyInstance Vector3Type attrs ∧
     float_attribute "x" attrs = Some x ∧
     float_attribute "y" attrs = Some y ∧
     float_attribute "z" attrs = Some z ∧
     v = VVector3 (FloatOfDouble x) (FloatOfDouble y) (FloatOfDouble z) ∧
     w' = w) ∧
  (Vector4ValueFromObject object w = Ok (Some v) w' ↔
   ∃ attrs x y z t,
     object = PyInstance Vector4Type attrs ∧
     float_attribute "x" attrs = Some x ∧
     float_attribute "y" attrs = Some y ∧
     float_attribute "z" attrs = Some z ∧
     float_attribute "w" attrs = Some t ∧
     v = VVector4 (FloatOfDouble x) (FloatOfDouble y) (FloatOfDouble z)
           (FloatOfDouble t) ∧
     w' = w).
Proof.
  split; [|split].
  - unfold Vector2ValueFromObject. split.
    + destruct (PyObject_IsInstance object Vector2Type) eqn:Hi; cbn [negb];
        [|unfold_M; discriminate].
      destruct object; try discriminate. cbn in Hi.
      destruct cls; try discriminate.
      unfold mbind, M_bind, bind_M.
      read_attribute "x" Hx. read_attribute "y" Hy.
      unfold_M. intros [= <- <-]. by eexists attrs, _, _.
    + intros (attrs & x & y & -> & Hx & Hy & -> & ->).
      cbn [PyObject_IsInstance PyClass_eqb negb].
      unfold mbind, M_bind, bind_M.
      attribute_read Vector2Type attrs "x" x w.
      attribute_read Vector2Type attrs "y" y w. done.
  - unfold Vector3ValueFromObject. split.
    + destruct (PyObject_IsInstance object Vector3Type) eqn:Hi; cbn [negb];
        [|unfold_M; discriminate].
      destruct object; try discriminate. cbn in Hi.
      destruct cls; try discriminate.
      unfold mbind, M_bind, bind_M.
      read_attribute "x" Hx. read_attribute "y" Hy. read_attribute "z" Hz.
      unfold_M. intros [= <- <-]. by eexists attrs, _, _, _.
    + intros (attrs & x & y & z & -> & Hx & Hy & Hz & -> & ->).
      cbn [PyObject_IsInstance PyClass_eqb negb].
      unfold mbind, M_bind, bind_M.
      attribute_read Vector3Type attrs "x" x w.
      attribute_read Vector3Type attrs "y" y w.
      attribute_read Vector3Type attrs "z" z w. done.
  - unfold Vector4ValueFromObject. split.
    + destruct (PyObject_IsInstance object Vector4Type) eqn:Hi; cbn [negb];
        [|unfold_M; discriminate].
      destruct object; try discriminate. cbn in Hi.
      destruct cls; try discriminate.
      unfold mbind, M_bind, bind_M.
      read_attribute "x" Hx. read_attribute "y" Hy. read_attribute "z" Hz.
      read_attribute "w" Ht.
      unfold_M. intros [= <- <-]. by eexists attrs, _, _, _, _.
    + intros (attrs & x & y & z & t & -> & Hx & Hy & Hz & Ht & -> & ->).
      cbn [PyObject_IsInstance PyClass_eqb negb].
      unfold mbind, M_bind, bind_M.
      attribute_read Vector4Type attrs "x" x w.
      attribute_read Vector4Type attrs "y" y w.
      attribute_read Vector4Type attrs "z" z w.
      attribute_read Vector4Type attrs "w" t w. done.
Qed.

(** ** Outbound calls, once more *)

(** X16.  A string argument that holds a lone surrogate half does not
    stop an outbound call: [ValueFromObject<std::string>] hands back the
    empty string with the [UnicodeEncodeError] of the failed encoding left
    pending, and counts as converted.  The native function is called with
    the address of an empty string, and the caller gets the result of the
    call with the exception still pending. *)
Theorem lone_surrogate_string_reaches_the_native_function_empty
    env method_name func_name addr s w :
  utf8_encode s = None →
  let method := mkMethod method_name func_name [by_value ValueType.String]
                  (by_value ValueType.Void) in
  let p := N.succ (next_addr w) in
  let raised := {| exc := PyExc_UnicodeEncodeError;
                   msg := "surrogates not allowed" |} in
  ValueFromObject (platform env) c_string (PyUnicode s) w
  = Ok (Some (VString [])) (set_pyerr (Some raised) w) ∧
  ∃ w', ExternalCall env method addr (PyTuple [PyUnicode s]) w
        = Ok (Some PyNone) w' ∧
        native_calls w'
        = native_calls w ++ [{| call_addr := addr; call_args := [VPtr p] |}] ∧
        pyerr w' = Some raised.
Proof.
  intros Hs method p raised.
  assert (Hv : ValueFromObject (platform env) c_string (PyUnicode s) w
               = Ok (Some (VString [])) (set_pyerr (Some raised) w)).
  { cbn. unfold ValueFromObject_string, PyUnicode_AsUTF8AndSize. cbn.
    rewrite Hs. reflexivity. }
  split; [exact Hv|].
  unfold ExternalCall, ExternalCall_in_scope. subst method.
  cbn [paramTypes length]. rewrite uint8_small by lia.
  cbn [paramTypes retType type Nat.eqb negb zip zip_with
       take by_value ValueUtils.IsObject BeginExternalCall].
  unfold mbind, M_bind, bind_M. unfold ret_M at 1.
  cbn [ExternalCall_push ref by_value PushObjectAsParam type].
  unfold mbind, M_bind, bind_M. unfold CreateValue.
  unfold mbind, M_bind, bind_M. rewrite Hv.
  unfold new, fresh_address, push_temporary. unfold_M. cbn.
  fold p. destruct (N.eqb_spec p 0) as [Hz|_]; [subst p; lia|].
  cbn. unfold dcCall. cbn. unfold_M. cbn.
  match goal with
  | |- context [native_fn env addr ?a ?h] =>
      destruct (native_fn env addr a h) as [r h']
  end.
  cbn. eexists. split; [reflexivity|]. cbn. done.
Qed.

(** X16, at the string of the one high half 55296, passed to a native
    function at address 100. *)
Lemma high_surrogate_string_reaches_the_native_function_empty :
  let env := calling Linux native_length in
  let method := mkMethod "method" "plugin.method" [by_value ValueType.String]
                  (by_value ValueType.Void) in
  let raised := {| exc := PyExc_UnicodeEncodeError;
                   msg := "surrogates not allowed" |} in
  utf8_encode [55296%Z] = None ∧
  ValueFromObject Linux c_string (PyUnicode [55296%Z]) initial_world
  = Ok (Some (VString [])) (set_pyerr (Some raised) initial_world) ∧
  ∃ w', ExternalCall env method 100 (PyTuple [PyUnicode [55296%Z]])
          initial_world
        = Ok (Some PyNone) w' ∧
        native_calls w'
        = [{| call_addr := 100%N; call_args := [VPtr 4097] |}] ∧
        pyerr w' = Some raised.
Proof.
  intros env method raised. split; [reflexivity|].
  apply (lone_surrogate_string_reaches_the_native_function_empty env
           "method" "plugin.method" 100 [55296%Z] initial_world).
  reflexivity.
Defined.

(** X23.  For a method without parameters the two outbound entries do
    the same: [ExternalCallNoArgs] gives what [ExternalCall] gives on the
    empty argument tuple, result and world alike. *)
Theorem no_arguments_entry_agrees_with_the_general_one env method addr w :
  paramTypes method = [] →
  ExternalCallNoArgs env method addr w
  = ExternalCall env method addr (PyTuple []) w.
Proof.
  intros Hp. unfold ExternalCall, ExternalCallNoArgs, ExternalCall_in_scope.
  rewrite Hp. cbn [length]. rewrite uint8_small by lia.
  cbn [Nat.eqb negb zip zip_with take].
  unfold mbind, M_bind, bind_M.
  destruct (BeginExternalCall method ArgsScope_new w) as [a w1|]; [|done].
  cbn [ExternalCall_push]. cbv beta iota zeta delta [ret_M negb Nat.eqb].
  destruct (MakeExternalCall env method addr a w1) as [[retObj|] w2|];
    [| |done].
  - destruct (ArgsScope_destroy (storage a) w2); done.
  - destruct (ArgsScope_destroy (storage a) w2); done.
Qed.

(** X23, at a method [() -> String]. *)
Lemma no_arguments_entry_agrees_for_a_string_method :
  let env := returning Linux PyNone in
  let method := signature [] ValueType.String in
  ExternalCallNoArgs env method 100 initial_world
  = ExternalCall env method 100 (PyTuple []) initial_world.
Proof.
  intros env method.
  apply (no_arguments_entry_agrees_with_the_general_one env method 100
           initial_world).
  reflexivity.
Defined.

(** X24.  The destructor of the scope deletes every temporary the scope
    owns, each one once and in the order in which they were filed, and
    nothing else: after it, none of the temporaries is in the heap, and
    every other object is where it was. *)
Theorem scope_destruction_frees_every_temporary_once a w :
  deletable a →
  ∃ w', ArgsScope_destroy (storage a) w = Ok tt w' ∧
        free_ptr <$> frees w' = (free_ptr <$> frees w) ++ (storage a).*1 ∧
        (∀ p, p ∈ (storage a).*1 → heap w' !! p = None) ∧
        (∀ p, p ∉ (storage a).*1 → heap w' !! p = heap w !! p).
Proof.
  unfold deletable. generalize (storage a). clear a. intros st Hall.
  revert w. induction Hall as [|[ptr t] st Ht _ IH]; intros w.
  - exists w. cbn. rewrite app_nil_r. split_and!; try done.
    by intros p ?%elem_of_nil.
  - cbn in Ht. cbn [ArgsScope_destroy].
    destruct (delete_type t) as [T|]; [|done].
    unfold delete_as. unfold_M.
    edestruct IH as (w' & -> & Hf & Hin & Hout). exists w'.
    split; [done|]. cbn in Hf, Hout |- *. split_and!.
    + rewrite Hf, fmap_app. cbn. by rewrite <- app_assoc.
    + intros p [->|Hp]%elem_of_cons; [|by apply Hin].
      destruct (decide (ptr ∈ st.*1)) as [Hd|Hd]; [by apply Hin|].
      rewrite Hout by done. apply lookup_delete_eq.
    + intros p [Hne Hp]%not_elem_of_cons. rewrite Hout by done.
      by apply lookup_delete_ne.
Qed.

(** X24, at a scope that owns a string and an [Int32] array, with a third
    object in the heap that is not the scope's. *)
Lemma scope_of_two_temporaries_frees_both :
  let a := {| vm := [VPtr 16; VPtr 17];
              storage := [(16%N, ValueType.String);
                          (17%N, ValueType.ArrayInt32)];
              ag := None |} in
  let w := with_heap [(16%N, VString [104%Z]);
                      (17%N, VVector c_int32_t [VInt c_int32_t 1]);
                      (18%N, VInt c_int32_t 5)] initial_world in
  deletable a ∧
  ∃ w', ArgsScope_destroy (storage a) w = Ok tt w' ∧
        free_ptr <$> frees w' = [16%N; 17%N] ∧
        (∀ p, p ∈ [16%N; 17%N] → heap w' !! p = None) ∧
        (∀ p, p ∉ [16%N; 17%N] → heap w' !! p = heap w !! p).
Proof.
  intros a w.
  assert (Hd : deletable a) by (repeat constructor; discriminate).
  split; [exact Hd|].
  apply (scope_destruction_frees_every_temporary_once a w Hd).
Defined.
